(** * YouTubeDownloader: a shallow embedding of [src/YouTubeDownloader.py]

    The script orchestrates three outside parties: the local file system
    (through [pathlib]), the video-info provider ([pytube]) and an external
    encoder process ([ffmpeg] through [subprocess]).  The embedding keeps
    the orchestration exactly as the source has it and makes the outside
    parties explicit:

    - the file system is a set of directories and a finite map from paths
      to file contents; every access is recorded in a trace of events;
    - what the outside does on its own (the clock readings, the streams the
      provider lists, how a download ends, what an external process returns
      and leaves on disk) is read from an environment [Env] that the
      program cannot influence;
    - Python exceptions are the [Raised] results of a state-and-error
      monad, and [try ... finally] is the combinator [try_finally].

    A path exists when a regular file or a directory is found at it; a
    regular file is an entry of the file map, a directory an element of the
    directory set, and a path bridges the two through [str].

    Left out: permissions, symbolic links, the cache pytube keeps of a
    fetched stream list (every access to [.streams] is recorded), pytube's
    [skip_existing] (a file of the payload's size found at the download
    path is kept as it is; the download path is a temporary name of this
    program) and the ancestors that [os.makedirs] creates along with a
    missing download directory (the download directory is that of the
    running script).  [ffmpeg] is taken to be installed, as the class
    documentation requires, and the operating system to be Linux, as it
    recommends: renaming replaces an existing file, unlinking a directory
    raises [IsADirectoryError].  The entry of a public method is recorded
    as an [ECall] event, so that the trace shows which operation ran on
    which path. *)

From Stdlib Require Import ZArith String Ascii List Lia Bool Sorted Permutation.
From stdpp Require Import base decidable countable gmap strings list.

Local Open Scope string_scope.
Local Open Scope list_scope.
Local Open Scope Z_scope.

(** ** Strings and paths *)

(** [str.rfind(c)]: position of the last occurrence of [c]. *)
Fixpoint rfind (c : ascii) (s : string) : option nat :=
  match s with
  | EmptyString => None
  | String a s' =>
      match rfind c s' with
      | Some i => Some (S i)
      | None => if Ascii.eqb a c then Some 0%nat else None
      end
  end.

(** [PurePath.suffix], computed from the final component as pathlib does:
    [i = name.rfind('.')]; [name[i:]] if [0 < i < len(name) - 1], else ['']. *)
Definition suffix_of_name (name : string) : string :=
  match rfind "."%char name with
  | Some i =>
      if ((0 <? i)%nat && (i <? String.length name - 1)%nat)%bool
      then substring i (String.length name - i) name
      else ""
  | None => ""
  end.

(** A path is its directory part and its final component. *)
Record Path : Type := mkPath { parent : string; name : string }.

Definition suffix (p : Path) : string := suffix_of_name (name p).

(** [str(path)], as interpolated in the f-strings of the source: the
    directory part and the final component joined by one separator, none
    after a root and none for a bare name, whose directory part is ["."]. *)
Definition str (p : Path) : string :=
  if String.eqb (name p) "" then parent p
  else if String.eqb (parent p) "." then name p
  else if String.eqb (parent p) "/" || String.eqb (parent p) "//"
       then parent p +:+ name p
  else parent p +:+ "/" +:+ name p.

(** [directory / filename], for a file name without separator. *)
Definition joinpath (dir filename : string) : Path := mkPath dir filename.

(** [text.split("/")] *)
Fixpoint split_slash (text : string) : list string :=
  match text with
  | EmptyString => [""]
  | String c rest =>
      if Ascii.eqb c "/"%char then "" :: split_slash rest
      else match split_slash rest with
           | [] => [String c ""]
           | first :: others => String c first :: others
           end
  end.

(** Number of separators in front of [text]. *)
Fixpoint leading_slashes (text : string) : nat :=
  match text with
  | String c rest => if Ascii.eqb c "/"%char then S (leading_slashes rest) else 0%nat
  | EmptyString => 0%nat
  end.

(** The root of a POSIX path: none, ["/"], or ["//"] for exactly two
    leading separators. *)
Definition root_of (text : string) : string :=
  match leading_slashes text with
  | O => ""
  | S (S O) => "//"
  | _ => "/"
  end.

(** ["/".join(parts)] *)
Fixpoint join_slash (parts : list string) : string :=
  match parts with
  | [] => ""
  | [part] => part
  | part :: others => part +:+ "/" +:+ join_slash others
  end.

(** [Path(text)] as pathlib parses a POSIX path: empty components and
    ["."] components are dropped, the final component is the name and the
    rest, with the root, the parent; the parent of a bare name is ["."]. *)
Definition Path_of_string (text : string) : Path :=
  let parts :=
    List.filter (fun part => negb (String.eqb part "") && negb (String.eqb part "."))
                (split_slash text) in
  let root := root_of text in
  let directory := removelast parts in
  mkPath (match directory with
          | [] => if String.eqb root "" then "." else root
          | _ => root +:+ join_slash directory
          end)
         (List.last parts "").

#[global] Instance Path_eq_dec : EqDecision Path.
Proof. solve_decision. Defined.

#[global] Instance Path_countable : Countable Path.
Proof.
  refine (inj_countable' (fun p => (parent p, name p))
                         (fun dn => mkPath (fst dn) (snd dn)) _).
  intros []; reflexivity.
Defined.

(** ** Stream descriptors (pytube's [Stream], the attributes the script reads) *)

Record Stream : Type := mkStream {
  itag : Z;
  mime_type : string;
  is_adaptive : bool;
  video_codec : option string;
  audio_codec : option string;
  resolution : option string;
  fps : Z;
  bitrate : Z
}.

#[global] Instance Stream_eq_dec : EqDecision Stream.
Proof. solve_decision. Defined.

(** ** Exceptions and results *)

Inductive exn : Type :=
| FileNotFoundError        (* parent directory of the target is missing *)
| FileExistsError          (* the target already exists *)
| TypeError                (* unsupported extension; also [None[:-1]] *)
| ValueError               (* unpacking an empty sequence; [int] of a non-number *)
| CalledProcessError (returncode : Z)   (* [subprocess.run(..., check=True)] *)
| RegexMatchError          (* pytube: the hyperlink is not a video reference *)
| VideoUnavailable         (* pytube: the stream list cannot be fetched *)
| IncompleteRead           (* transport failure during a download *)
| IsADirectoryError        (* a directory where a regular file is expected *)
| NotADirectoryError       (* a regular file where a directory is expected *)
| CrossDeviceError.        (* [OSError(EXDEV)]: rename onto another file system *)

#[global] Instance exn_eq_dec : EqDecision exn.
Proof. solve_decision. Defined.

Inductive outcome (A : Type) : Type :=
| Returned (a : A)
| Raised (e : exn).
Arguments Returned {A} a.
Arguments Raised {A} e.

(** ** The outside world *)

(** What a file holds: the payload of a stream, a download cut short, or
    whatever an external process wrote (identified by its command line). *)
Inductive Content : Type :=
| Media (s : Stream)
| Truncated (s : Stream)
| Encoded (command : string).

Inductive Method : Type := SaveVideoAs | SaveAudioAs | SaveAs.

Inductive Event : Type :=
| ECall (m : Method) (target : Path)          (* entry of a public method *)
| EDirExists (dir : string)                   (* [target.parent.exists()] *)
| EExists (p : Path)                          (* [target.exists()] *)
| EStreams (hyperlink : string)               (* [self.video.streams] *)
| EDownload (s : Stream) (output_path filename : string)
| ERename (src dst : Path)
| EUnlink (p : Path)
| ERun (command : string)                     (* [subprocess.run(shlex.split(command))] *)
| EPrint (line : string).

#[global] Instance Method_eq_dec : EqDecision Method.
Proof. solve_decision. Defined.
#[global] Instance Event_eq_dec : EqDecision Event.
Proof. solve_decision. Defined.

Definition is_network (e : Event) : bool :=
  match e with EStreams _ | EDownload _ _ _ => true | _ => false end.

Definition is_process (e : Event) : bool :=
  match e with ERun _ => true | _ => false end.

Definition is_filesystem (e : Event) : bool :=
  match e with
  | EDirExists _ | EExists _ | EDownload _ _ _ | ERename _ _ | EUnlink _ => true
  | _ => false
  end.

Definition is_download (e : Event) : bool :=
  match e with EDownload _ _ _ => true | _ => false end.

(** How the provider answers for a hyperlink. *)
Inductive Listing : Type :=
| NotAVideo                       (* [YouTube(hyperlink)] raises *)
| Unreachable                     (* [.streams] raises *)
| Streams (l : list Stream).

(** How a download ends: the whole payload on disk, a partial file and an
    exception, or an exception before anything was written. *)
Inductive DownloadEnd : Type := Complete | Partial | Refused.

(** What an external process reports and which files it leaves behind. *)
Record ProcessEnd : Type := mkProcessEnd { returncode : Z; leaves : list Path }.

Record Env : Type := mkEnv {
  script_dir : string;                               (* [Path(__file__).parent] *)
  clock : nat -> string;    (* k-th [datetime.now().strftime('%Y%m%d_%H%M%S')] *)
  catalog : string -> Listing;
  net : Stream -> DownloadEnd;
  proc : string -> gmap Path Content -> ProcessEnd;
  device : string -> nat     (* the file system a directory lives on *)
}.

Record World : Type := mkWorld {
  dirs : gset string;
  files : gmap Path Content;
  ticks : nat;                 (* clock readings taken so far *)
  trace : list Event           (* oldest first *)
}.

Definition log (e : Event) (w : World) : World :=
  mkWorld (dirs w) (files w) (ticks w) (trace w ++ [e]).

Definition set_files (f : gmap Path Content) (w : World) : World :=
  mkWorld (dirs w) f (ticks w) (trace w).

Definition set_dirs (d : gset string) (w : World) : World :=
  mkWorld d (files w) (ticks w) (trace w).

Definition tick (w : World) : World :=
  mkWorld (dirs w) (files w) (S (ticks w)) (trace w).

(** ** The monad of effectful code *)

Definition M (A : Type) : Type := World -> outcome A * World.

Definition ret {A} (a : A) : M A := fun w => (Returned a, w).

Definition raise {A} (e : exn) : M A := fun w => (Raised e, w).

Definition bind {A B} (c : M A) (k : A -> M B) : M B :=
  fun w =>
    match c w with
    | (Returned a, w') => k a w'
    | (Raised e, w') => (Raised e, w')
    end.

Notation "x <- c ;; k" := (bind c (fun x => k))
  (at level 100, c at next level, right associativity).
Notation "c ;; k" := (bind c (fun _ => k))
  (at level 100, right associativity).

(** [try: body finally: handler].  The handler always runs; an exception of
    the handler replaces the result of the body. *)
Definition try_finally {A} (body : M A) (handler : M unit) : M A :=
  fun w =>
    match body w with
    | (r, w') =>
        match handler w' with
        | (Returned _, w'') => (r, w'')
        | (Raised e, w'') => (Raised e, w'')
        end
    end.

(** A pure computation that may raise. *)
Definition lift {A} (r : outcome A) : M A := fun w => (r, w).

Definition emit (e : Event) : M unit := fun w => (Returned tt, log e w).

(** ** Primitive operations on the outside world *)

Definition has_file (f : gmap Path Content) (p : Path) : bool :=
  match f !! p with Some _ => true | None => false end.

Definition is_directory (w : World) (d : string) : bool :=
  bool_decide (d ∈ dirs w).

(** Some regular file has the path string [d]. *)
Definition names_file (f : gmap Path Content) (d : string) : bool :=
  existsb (fun entry => String.eqb (str (fst entry)) d) (map_to_list f).

(** [Path.exists()] of a path given as a string: a directory or a regular
    file is found there. *)
Definition string_exists (w : World) (d : string) : bool :=
  is_directory w d || names_file (files w) d.

(** [Path.exists()] of a path: a regular file or a directory is found
    there. *)
Definition path_found (w : World) (p : Path) : bool :=
  has_file (files w) p || is_directory w (str p).

(** [directory.exists()] *)
Definition dir_exists (d : string) : M bool :=
  fun w => (Returned (string_exists w d), log (EDirExists d) w).

(** [path.exists()] *)
Definition path_exists (p : Path) : M bool :=
  fun w => (Returned (path_found w p), log (EExists p) w).

(** [datetime.now().strftime('%Y%m%d_%H%M%S')] *)
Definition now_strftime (env : Env) : M string :=
  fun w => (Returned (clock env (ticks w)), tick w).

(** [stream.download(output_path=..., filename=...)]: pytube makes the
    output directory ([os.makedirs(..., exist_ok=True)], which refuses a
    regular file of that name), asks for the size of the payload, opens the
    file for writing (which refuses a directory of that name) and writes
    the chunks as they arrive. *)
Definition download (env : Env) (s : Stream) (output_path filename : string)
  : M unit :=
  fun w =>
    let w0 := log (EDownload s output_path filename) w in
    if negb (is_directory w0 output_path) && names_file (files w0) output_path
    then (Raised FileExistsError, w0)
    else
      let w1 := set_dirs ({[output_path]} ∪ dirs w0) w0 in
      let file := joinpath output_path filename in
      match net env s with
      | Refused => (Raised IncompleteRead, w1)
      | Partial =>
          if is_directory w1 (str file) then (Raised IsADirectoryError, w1)
          else (Raised IncompleteRead,
                set_files (<[file := Truncated s]> (files w1)) w1)
      | Complete =>
          if is_directory w1 (str file) then (Raised IsADirectoryError, w1)
          else (Returned tt, set_files (<[file := Media s]> (files w1)) w1)
      end.

(** [src.rename(dst)] of a regular file, with POSIX semantics: the parent
    of [dst] has to be a directory, [dst] itself must not be one, both have
    to be on one file system; an existing file at [dst] is replaced, and
    renaming a file to itself changes nothing.  (The program renames only
    what it has just downloaded; without a regular file at [src] the call
    is taken to find nothing.) *)
Definition rename (env : Env) (src dst : Path) : M unit :=
  fun w =>
    let w1 := log (ERename src dst) w in
    match files w1 !! src with
    | None => (Raised FileNotFoundError, w1)
    | Some c =>
        if negb (is_directory w1 (parent dst))
        then (Raised (if names_file (files w1) (parent dst)
                      then NotADirectoryError else FileNotFoundError), w1)
        else if is_directory w1 (str dst) then (Raised IsADirectoryError, w1)
        else if negb (Nat.eqb (device env (parent src)) (device env (parent dst)))
        then (Raised CrossDeviceError, w1)
        else (Returned tt, set_files (<[dst := c]> (delete src (files w1))) w1)
    end.

(** [path.unlink(missing_ok=...)]: removes a regular file, refuses a
    directory, and lets a missing path pass when [missing_ok] is set. *)
Definition unlink (p : Path) (missing_ok : bool) : M unit :=
  fun w =>
    let w1 := log (EUnlink p) w in
    match files w1 !! p with
    | Some _ => (Returned tt, set_files (delete p (files w1)) w1)
    | None =>
        if is_directory w1 (str p) then (Raised IsADirectoryError, w1)
        else if missing_ok then (Returned tt, w1)
        else (Raised FileNotFoundError, w1)
    end.

Definition write_all (c : Content) (ps : list Path) (f : gmap Path Content)
  : gmap Path Content :=
  foldr (fun p acc => <[p := c]> acc) f ps.

(** *** [shlex.split] *)

(** The state of the POSIX-mode lexer between two characters: between
    words, inside a word, inside a quotation, or right after a backslash,
    with the state to go back to. *)
Inductive lexer_state : Type :=
| Blank
| Word
| Quoted (quote : ascii)
| Escaped (back : option ascii).    (* [None]: a word; [Some q]: quotation *)

Definition is_whitespace (c : ascii) : bool :=
  Ascii.eqb c " "%char || Ascii.eqb c "009"%char
  || Ascii.eqb c "013"%char || Ascii.eqb c "010"%char.

Definition is_quote (c : ascii) : bool :=
  Ascii.eqb c "039"%char || Ascii.eqb c "034"%char.

Definition is_escape (c : ascii) : bool := Ascii.eqb c "\"%char.

Definition push (token : string) (c : ascii) : string := token +:+ String c "".

(** [shlex.shlex(..., posix=True)] with [whitespace_split] set and no
    comment characters, run to the end of the input: [token] is the word
    read so far, [quoted] says whether a quotation was part of it.  A
    quotation or a backslash left open at the end is the [ValueError] of
    the library. *)
Fixpoint shlex_tokens (state : lexer_state) (token : string) (quoted : bool)
    (input : string) : outcome (list string) :=
  match input with
  | EmptyString =>
      match state with
      | Blank | Word =>
          Returned (if negb (String.eqb token "") || quoted then [token] else [])
      | Quoted _ | Escaped _ => Raised ValueError
      end
  | String c rest =>
      match state with
      | Blank =>
          if is_whitespace c then shlex_tokens Blank token quoted rest
          else if is_escape c then shlex_tokens (Escaped None) token quoted rest
          else if is_quote c then shlex_tokens (Quoted c) token quoted rest
          else shlex_tokens Word (push token c) quoted rest
      | Word =>
          if is_whitespace c then
            if negb (String.eqb token "") || quoted then
              match shlex_tokens Blank "" false rest with
              | Returned tokens => Returned (token :: tokens)
              | Raised e => Raised e
              end
            else shlex_tokens Blank token quoted rest
          else if is_quote c then shlex_tokens (Quoted c) token quoted rest
          else if is_escape c then shlex_tokens (Escaped None) token quoted rest
          else shlex_tokens Word (push token c) quoted rest
      | Quoted q =>
          if Ascii.eqb c q then shlex_tokens Word token true rest
          else if is_escape c && Ascii.eqb q "034"%char
          then shlex_tokens (Escaped (Some q)) token true rest
          else shlex_tokens (Quoted q) (push token c) true rest
      | Escaped None => shlex_tokens Word (push token c) quoted rest
      | Escaped (Some q) =>
          if is_escape c || Ascii.eqb c q
          then shlex_tokens (Quoted q) (push token c) quoted rest
          else shlex_tokens (Quoted q) (push (push token "\"%char) c) quoted rest
      end
  end.

(** [shlex.split(command)] *)
Definition shlex_split (command : string) : outcome (list string) :=
  shlex_tokens Blank "" false command.

(** [subprocess.run(shlex.split(command), check=True)]: the command line
    is split first; then the process runs to its end, leaves its files, and
    a nonzero return code is raised.  The event and the outcome of the
    process go by the command line that was split. *)
Definition subprocess_run (env : Env) (command : string) : M unit :=
  fun w =>
    match shlex_split command with
    | Raised e => (Raised e, w)
    | Returned _ =>
        let w1 := log (ERun command) w in
        let r := proc env command (files w1) in
        let w2 := set_files (write_all (Encoded command) (leaves r) (files w1)) w1 in
        if returncode r =? 0
        then (Returned tt, w2)
        else (Raised (CalledProcessError (returncode r)), w2)
    end.

(** [print(line)] *)
Definition print (line : string) : M unit := emit (EPrint line).

(** ** Python built-ins used on streams *)

Definition digit_value (c : ascii) : option Z :=
  let n := nat_of_ascii c in
  if ((48 <=? n)%nat && (n <=? 57)%nat)%bool then Some (Z.of_nat n - 48) else None.

Fixpoint int_digits (acc : Z) (s : string) : option Z :=
  match s with
  | EmptyString => Some acc
  | String c s' =>
      match digit_value c with
      | Some d => int_digits (10 * acc + d) s'
      | None => None
      end
  end.

(** [int(text)] for a text of the form the provider emits, a plain decimal
    numeral; any other text is taken to be the [ValueError] case (the
    signs, blanks and underscores that [int] also reads do not occur in a
    resolution). *)
Definition py_int (text : string) : option Z :=
  match text with
  | EmptyString => None
  | _ => int_digits 0 text
  end.

(** [text[:-1]] *)
Definition drop_last (text : string) : string :=
  substring 0 (String.length text - 1) text.

(** [value in (c1, c2, ...)] for an attribute that may be [None]. *)
Definition in_strings (value : option string) (pool : list string) : bool :=
  match value with
  | Some v => existsb (String.eqb v) pool
  | None => false
  end.

(** Tuple comparison [(a, b) < (c, d)]. *)
Definition pair_ltb (x y : Z * Z) : bool :=
  (fst x <? fst y) || ((fst x =? fst y) && (snd x <? snd y)).

Section Sorted.
Context {K A : Type} (ltb : K -> K -> bool).

(** Place [x] in front of the first element whose key is not greater. *)
Fixpoint insert_desc (x : K * A) (l : list (K * A)) : list (K * A) :=
  match l with
  | [] => [x]
  | y :: l' =>
      if ltb (fst x) (fst y) then y :: insert_desc x l' else x :: y :: l'
  end.

(** Stable sort, greatest key first, equal keys in their original order. *)
Definition sort_desc (l : list (K * A)) : list (K * A) :=
  foldr insert_desc [] l.

(** The key of every element is computed once, front to back. *)
Fixpoint decorate (key : A -> outcome K) (l : list A) : outcome (list (K * A)) :=
  match l with
  | [] => Returned []
  | x :: l' =>
      match key x with
      | Raised e => Raised e
      | Returned k =>
          match decorate key l' with
          | Raised e => Raised e
          | Returned d => Returned ((k, x) :: d)
          end
      end
  end.

(** [sorted(l, key=key, reverse=True)] *)
Definition sorted_reverse (key : A -> outcome K) (l : list A) : outcome (list A) :=
  match decorate key l with
  | Raised e => Raised e
  | Returned d => Returned (map snd (sort_desc d))
  end.
End Sorted.

(** [first, *_ = sequence] *)
Definition unpack_first {A} (sequence : outcome (list A)) : outcome A :=
  match sequence with
  | Raised e => Raised e
  | Returned [] => Raised ValueError
  | Returned (x :: _) => Returned x
  end.

(** ** class YouTubeVideo *)

Record YouTubeVideo : Type := mkYouTubeVideo { video : string }.

(** [__init__]: [YouTube(hyperlink)] checks the reference, no request yet. *)
Definition YouTubeVideo_init (env : Env) (hyperlink : string) : M YouTubeVideo :=
  match catalog env hyperlink with
  | NotAVideo => raise RegexMatchError
  | _ => ret (mkYouTubeVideo hyperlink)
  end.

(** [self.video.streams] *)
Definition streams (env : Env) (self : YouTubeVideo) : M (list Stream) :=
  fun w =>
    let w1 := log (EStreams (video self)) w in
    match catalog env (video self) with
    | Streams l => (Returned l, w1)
    | _ => (Raised VideoUnavailable, w1)
    end.

(** [__validate_target(target, *extensions)] *)
Definition validate_target (target : Path) (extensions : list string) : M unit :=
  parent_exists <- dir_exists (parent target) ;;
  if negb parent_exists then raise FileNotFoundError else
  target_exists <- path_exists target ;;
  if target_exists then raise FileExistsError else
  if negb (existsb (String.eqb (suffix target)) extensions) then raise TypeError
  else ret tt.

(** The inner function of [save_video_as]. *)
Definition check_if_dash_stream (stream : Stream) : bool :=
  if negb (String.eqb (mime_type stream) "video/webm") then false
  else if negb (is_adaptive stream) then false
  else if negb (in_strings (video_codec stream) ["vp9"; "vp9.2"]) then false
  else true.

(** The inner function of [save_video_as]: [(int(resolution[:-1]), fps)]. *)
Definition sort_criteria (stream : Stream) : outcome (Z * Z) :=
  match resolution stream with
  | None => Raised TypeError
  | Some r =>
      match py_int (drop_last r) with
      | Some n => Returned (n, fps stream)
      | None => Raised ValueError
      end
  end.

(** Lines 102-113: the best video stream of a stream list. *)
Definition best_video_stream (all : list Stream) : outcome Stream :=
  let dash_streams := List.filter check_if_dash_stream all in
  unpack_first (sorted_reverse pair_ltb sort_criteria dash_streams).

(** [streams.filter(mime_type="audio/webm", audio_codec="opus", adaptive=True)] *)
Definition is_dash_audio (stream : Stream) : bool :=
  String.eqb (mime_type stream) "audio/webm"
  && in_strings (audio_codec stream) ["opus"]
  && is_adaptive stream.

(** Lines 143-146: the best audio stream of a stream list. *)
Definition best_audio_stream (all : list Stream) : outcome Stream :=
  let dash_streams := List.filter is_dash_audio all in
  unpack_first (sorted_reverse Z.ltb (fun stream => Returned (bitrate stream))
                               dash_streams).

Definition tmp_video_path (env : Env) (timestamp : string) : Path :=
  joinpath (script_dir env) ("tmp_video_" +:+ timestamp +:+ ".webm").

Definition tmp_audio_path (env : Env) (timestamp : string) : Path :=
  joinpath (script_dir env) ("tmp_audio_" +:+ timestamp +:+ ".opus").

Definition save_video_as (env : Env) (self : YouTubeVideo) (target : Path)
  : M unit :=
  emit (ECall SaveVideoAs target) ;;
  validate_target target [".webm"] ;;
  all <- streams env self ;;
  best_quality_stream <- lift (best_video_stream all) ;;
  timestamp <- now_strftime env ;;
  let tmp_video_file := tmp_video_path env timestamp in
  try_finally
    (download env best_quality_stream (parent tmp_video_file) (name tmp_video_file) ;;
     rename env tmp_video_file target)
    (unlink tmp_video_file true).

Definition transcode_command (tmp_audio_file target : Path) : string :=
  "ffmpeg -i " +:+ str tmp_audio_file +:+ " -c:a libmp3lame -q:a 0 " +:+ str target.

Definition save_audio_as (env : Env) (self : YouTubeVideo) (target : Path)
  : M unit :=
  emit (ECall SaveAudioAs target) ;;
  validate_target target [".opus"; ".mp3"] ;;
  all <- streams env self ;;
  best_quality_stream <- lift (best_audio_stream all) ;;
  timestamp <- now_strftime env ;;
  let tmp_audio_file := tmp_audio_path env timestamp in
  try_finally
    (download env best_quality_stream (parent tmp_audio_file) (name tmp_audio_file) ;;
     if String.eqb (suffix target) ".mp3"
     then subprocess_run env (transcode_command tmp_audio_file target)
     else rename env tmp_audio_file target)
    (unlink tmp_audio_file true).

Definition mux_command (tmp_video_file tmp_audio_file target : Path) : string :=
  "ffmpeg -i " +:+ str tmp_video_file +:+ " -i " +:+ str tmp_audio_file +:+ " "
  +:+ str target.

Definition save_as (env : Env) (self : YouTubeVideo) (target : Path) : M unit :=
  emit (ECall SaveAs target) ;;
  validate_target target [".webm"] ;;
  timestamp <- now_strftime env ;;
  let tmp_video_file := tmp_video_path env timestamp in
  let tmp_audio_file := tmp_audio_path env timestamp in
  try_finally
    (save_video_as env self tmp_video_file ;;
     save_audio_as env self tmp_audio_file ;;
     subprocess_run env (mux_command tmp_video_file tmp_audio_file target))
    (unlink tmp_video_file true ;; unlink tmp_audio_file true).

(** ** The command line *)

Definition version_string : string := "1".

Record Namespace : Type := mkNamespace {
  hyperlink : string;
  target : string;
  audio_only : bool;
  version : bool
}.

Definition main (env : Env) (arguments : Namespace) : M unit :=
  if version arguments then print ("Version: " +:+ version_string)
  else
    youtube_video <- YouTubeVideo_init env (hyperlink arguments) ;;
    let target := Path_of_string (target arguments) in
    if audio_only arguments
    then save_audio_as env youtube_video target
    else save_as env youtube_video target.

(** ** Vocabulary of the specification *)

(** [s] is the first element of [l] whose key is greatest: the elements in
    front of it have smaller keys, no element behind it has a greater one. *)
Definition first_max {K A : Type} (ltb : K -> K -> bool) (key : A -> outcome K)
    (l : list A) (s : A) : Prop :=
  exists l1 l2 k,
    l = l1 ++ s :: l2 /\ key s = Returned k /\
    (forall x, In x l1 -> exists kx, key x = Returned kx /\ ltb kx k = true) /\
    (forall x, In x l2 -> exists kx, key x = Returned kx /\ ltb k kx = false).

(** Two keys neither of which is smaller than the other. *)
Definition same_key {K : Type} (ltb : K -> K -> bool) (k1 k2 : K) : bool :=
  negb (ltb k1 k2) && negb (ltb k2 k1).

(** No element is followed by one with a greater key. *)
Definition descending {K A : Type} (ltb : K -> K -> bool) (l : list (K * A)) : Prop :=
  StronglySorted (fun x y => ltb (fst x) (fst y) = false) l.

(** ** Sample data: a stream list, a video and a file system *)

Definition webm_video (tag : Z) (res : string) (frames : Z) : Stream :=
  mkStream tag "video/webm" true (Some "vp9") None (Some res) frames 0.

Definition opus_audio (tag rate : Z) : Stream :=
  mkStream tag "audio/webm" true None (Some "opus") None 0 rate.

Definition v720_30 : Stream := webm_video 247 "720p" 30.
Definition v1080_30 : Stream := webm_video 248 "1080p" 30.
Definition v1080_60 : Stream := webm_video 303 "1080p" 60.
Definition v480_60 : Stream := webm_video 244 "480p" 60.
Definition a128 : Stream := opus_audio 250 128.
Definition a256 : Stream := opus_audio 251 256.
Definition a96 : Stream := opus_audio 249 96.

(** A progressive MP4 stream, which neither filter accepts. *)
Definition mp4_progressive : Stream :=
  mkStream 22 "video/mp4" false (Some "avc1.64001F") (Some "mp4a.40.2")
           (Some "720p") 30 192.

Definition sample_video_streams : list Stream :=
  [v720_30; v1080_30; v1080_60; v480_60].

Definition sample_audio_streams : list Stream := [a128; a256; a96].

Definition sample_streams : list Stream :=
  mp4_progressive :: sample_video_streams ++ sample_audio_streams.

(** The world with further events on its trace and nothing else changed. *)
Definition add_events (evs : list Event) (w : World) : World :=
  mkWorld (dirs w) (files w) (ticks w) (trace w ++ evs).

(** A destination that passes the three pre-flight checks: something is
    found at its parent, nothing (neither a regular file nor a directory)
    at the destination, and its suffix is an accepted one. *)
Definition valid_target (w : World) (t : Path) (extensions : list string) : Prop :=
  string_exists w (parent t) = true /\ files w !! t = None /\
  (str t ∉ dirs w) /\ In (suffix t) extensions.

(** The three ways a destination is refused, each with the exception of
    the specification's taxonomy and the file-system queries made so far. *)
Inductive bad_target (w : World) (t : Path) (extensions : list string)
  : exn -> list Event -> Prop :=
| parent_missing :
    string_exists w (parent t) = false ->
    bad_target w t extensions FileNotFoundError [EDirExists (parent t)]
| destination_exists :
    string_exists w (parent t) = true -> path_found w t = true ->
    bad_target w t extensions FileExistsError [EDirExists (parent t); EExists t]
| unsupported_extension :
    string_exists w (parent t) = true -> path_found w t = false ->
    ~ In (suffix t) extensions ->
    bad_target w t extensions TypeError [EDirExists (parent t); EExists t].

(** An external process that leaves nothing at [t] when it fails. *)
Definition clean_on_failure (env : Env) (t : Path) : Prop :=
  forall command fs,
    returncode (proc env command fs) <> 0 ->
    ~ In t (leaves (proc env command fs)).

(** Events that change the file system or start a process. *)
Definition is_mutation (e : Event) : bool :=
  match e with
  | EDownload _ _ _ | ERename _ _ | EUnlink _ | ERun _ => true
  | _ => false
  end.

Definition is_call (e : Event) : bool :=
  match e with ECall _ _ => true | _ => false end.

(** Neither network nor process nor a change of the file system. *)
Definition is_harmless (e : Event) : bool :=
  negb (is_network e) && negb (is_process e) && negb (is_mutation e).

Definition sample_dirs : gset string := {[ "/"; "/music"; "/opt"; "/opt/ytd" ]}.

Definition old_song : Path := mkPath "/music" "old.webm".

(** A file system with the script directory, a music directory and one
    file in it; nothing done yet. *)
Definition sample_world : World :=
  mkWorld sample_dirs {[ old_song := Encoded "earlier run" ]} 0 [].

(** Three readings of a clock that advances between the readings. *)
Definition ticking_clock (k : nat) : string :=
  match k with
  | O => "20240101_120000"
  | S O => "20240101_120003"
  | _ => "20240101_120019"
  end.

(** Readings of a clock that stays within one second. *)
Definition same_second_clock (k : nat) : string := "20240101_120000".

(** An encoder that always succeeds and leaves nothing but is not asked
    where; enough where no process is expected to run. *)
Definition idle_process (command : string) (fs : gmap Path Content) : ProcessEnd :=
  mkProcessEnd 0 [].

(** An encoder that writes (part of) its output [out] and then fails. *)
Definition failing_after_output (out : Path) (command : string)
    (fs : gmap Path Content) : ProcessEnd :=
  mkProcessEnd 1 [out].

(** An encoder that fails without leaving anything. *)
Definition failing_cleanly (command : string) (fs : gmap Path Content) : ProcessEnd :=
  mkProcessEnd 1 [].

(** An encoder that writes [out] when every path of [inputs] is there and
    fails with status 1, leaving nothing, otherwise. *)
Definition encoder (inputs : list Path) (out : Path) (command : string)
    (fs : gmap Path Content) : ProcessEnd :=
  if forallb (has_file fs) inputs then mkProcessEnd 0 [out] else mkProcessEnd 1 [].

Definition sample_env (time : nat -> string)
    (process : string -> gmap Path Content -> ProcessEnd) : Env :=
  mkEnv "/opt/ytd" time (fun _ => Streams sample_streams) (fun _ => Complete) process
        (fun _ => 0%nat).

Definition sample_video : YouTubeVideo := mkYouTubeVideo "https://youtu.be/dQw4w9WgXcQ".

(** A provider with a video that has only audio streams and, under any
    other reference, one that has only a progressive MP4 stream. *)
Definition lopsided_catalog (reference : string) : Listing :=
  if String.eqb reference (video sample_video)
  then Streams sample_audio_streams
  else Streams [mp4_progressive].

Definition lopsided_env : Env :=
  mkEnv "/opt/ytd" ticking_clock lopsided_catalog (fun _ => Complete) idle_process
        (fun _ => 0%nat).

(** ** The combined operation when both downloads complete *)

(** The files the mux process finds: the video lands in the temporary
    path of the inner call, is renamed to the temporary path of [save_as],
    and the inner temporary path is unlinked; then the same for the audio. *)
Definition files_before_mux (env : Env) (w : World) (s a : Stream)
  : gmap Path Content :=
  let tmp_video_file := tmp_video_path env (clock env (ticks w)) in
  let tmp_audio_file := tmp_audio_path env (clock env (ticks w)) in
  let inner_video := tmp_video_path env (clock env (S (ticks w))) in
  let inner_audio := tmp_audio_path env (clock env (S (S (ticks w)))) in
  delete inner_audio
    (<[tmp_audio_file := Media a]>
       (delete inner_audio
          (delete inner_video
             (<[tmp_video_file := Media s]> (delete inner_video (files w)))))).

(** The events of such a run, in order. *)
Definition combined_events (env : Env) (self : YouTubeVideo) (t : Path)
    (w : World) (s a : Stream) : list Event :=
  let tmp_video_file := tmp_video_path env (clock env (ticks w)) in
  let tmp_audio_file := tmp_audio_path env (clock env (ticks w)) in
  let inner_video := tmp_video_path env (clock env (S (ticks w))) in
  let inner_audio := tmp_audio_path env (clock env (S (S (ticks w)))) in
  [ECall SaveAs t; EDirExists (parent t); EExists t;
   ECall SaveVideoAs tmp_video_file; EDirExists (script_dir env);
   EExists tmp_video_file; EStreams (video self);
   EDownload s (script_dir env) (name inner_video);
   ERename inner_video tmp_video_file; EUnlink inner_video;
   ECall SaveAudioAs tmp_audio_file; EDirExists (script_dir env);
   EExists tmp_audio_file; EStreams (video self);
   EDownload a (script_dir env) (name inner_audio);
   ERename inner_audio tmp_audio_file; EUnlink inner_audio;
   ERun (mux_command tmp_video_file tmp_audio_file t);
   EUnlink tmp_video_file; EUnlink tmp_audio_file].

Definition new_song : Path := mkPath "/music" "new.webm".
Definition sample_tmp_video : Path := mkPath "/opt/ytd" "tmp_video_20240101_120000.webm".
Definition sample_tmp_audio : Path := mkPath "/opt/ytd" "tmp_audio_20240101_120000.opus".

(** The muxer of the sample runs: it needs both temporary inputs. *)
Definition sample_muxer : string -> gmap Path Content -> ProcessEnd :=
  encoder [sample_tmp_video; sample_tmp_audio] new_song.

(** The destination part of the cleanup property, as the specification
    words it: whenever an operation fails after a download put (part of) a
    temporary file on disk, the destination, absent before, is absent
    after. *)
Definition destination_absent_after_failure
    (operation : Env -> YouTubeVideo -> Path -> M unit) : Prop :=
  forall env self t w e,
    files w !! t = None ->
    fst (operation env self t w) = Raised e ->
    (exists s d f, In (EDownload s d f) (trace (snd (operation env self t w))) /\
                   net env s <> Refused) ->
    files (snd (operation env self t w)) !! t = None.

Definition new_mp3 : Path := mkPath "/music" "song.mp3".

(** ** An empty candidate set *)

(** What an empty candidate set means, as the specification words it,
    for an operation with its accepted extensions and one of its filters:
    whenever the filter leaves nothing of the stream list, the call on a
    valid destination fails with the exception of the empty unpacking and
    has started no download. *)
Definition fails_without_download
    (operation : Env -> YouTubeVideo -> Path -> M unit)
    (extensions : list string) (accepts : Stream -> bool) : Prop :=
  forall env self t w l,
    valid_target w t extensions ->
    catalog env (video self) = Streams l ->
    List.filter accepts l = [] ->
    fst (operation env self t w) = Raised ValueError /\
    forall s d f,
      In (EDownload s d f) (trace (snd (operation env self t w))) ->
      In (EDownload s d f) (trace w).

(** A provider whose videos have their video streams but no audio stream
    that the audio filter accepts. *)
Definition silent_env : Env :=
  mkEnv "/opt/ytd" ticking_clock
        (fun _ => Streams (mp4_progressive :: sample_video_streams))
        (fun _ => Complete) idle_process (fun _ => 0%nat).

(** ** Destinations with a quotation mark *)

Definition quoted_mp3 : Path := mkPath "/music" "it's.mp3".
Definition quoted_song : Path := mkPath "/music" "it's.webm".

(** The sample file system with a directory where the first combined call
    of the sample clock puts its video. *)
Definition crowded_world : World :=
  mkWorld ({[ str sample_tmp_video ]} ∪ sample_dirs)
          {[ old_song := Encoded "earlier run" ]} 0 [].

(** ** Vocabulary of the further properties *)

(** No external process ever writes [p]. *)
Definition untouched_by_processes (env : Env) (p : Path) : Prop :=
  forall command fs, ~ In p (leaves (proc env command fs)).

(** A provider whose downloads break off after part of the payload. *)
Definition flaky_env : Env :=
  mkEnv "/opt/ytd" ticking_clock (fun _ => Streams sample_streams)
        (fun _ => Partial) idle_process (fun _ => 0%nat).

(** A VP9 stream of a format the provider knows no resolution for. *)
Definition v_unknown : Stream :=
  mkStream 999 "video/webm" true (Some "vp9") None None 30 0.

(** A muxer that succeeds and writes exactly its output. *)
Definition obedient_muxer (command : string) (fs : gmap Path Content) : ProcessEnd :=
  mkProcessEnd 0 [new_song].

(** * Properties *)

(** ** Sorting *)

Section SortFacts.
Context {K A : Type} (ltb : K -> K -> bool).
Hypothesis ltb_irrefl : forall a, ltb a a = false.
Hypothesis ltb_trans :
  forall a b c, ltb a b = true -> ltb b c = true -> ltb a c = true.
Hypothesis ltb_negtrans :
  forall a b c, ltb a b = false -> ltb b c = false -> ltb a c = false.

Lemma insert_desc_perm (x : K * A) l : Permutation (insert_desc ltb x l) (x :: l).
Proof.
  induction l as [|y l IH]; simpl; [reflexivity|].
  destruct (ltb (fst x) (fst y)); [|reflexivity].
  rewrite IH. apply perm_swap.
Qed.

Lemma sort_desc_perm (l : list (K * A)) : Permutation (sort_desc ltb l) l.
Proof.
  induction l as [|x l IH]; simpl; [reflexivity|].
  rewrite insert_desc_perm. now constructor.
Qed.

Lemma insert_desc_descending (x : K * A) l :
  descending ltb l -> descending ltb (insert_desc ltb x l).
Proof.
  unfold descending. induction 1 as [|y l Hs IH Hy]; simpl.
  - repeat constructor.
  - destruct (ltb (fst x) (fst y)) eqn:E.
    + constructor; [exact IH|].
      rewrite List.Forall_forall in *. intros z Hz.
      apply (Permutation_in _ (insert_desc_perm x l)) in Hz.
      destruct Hz as [<-|Hz]; [|now apply Hy].
      destruct (ltb (fst y) (fst x)) eqn:E'; [|reflexivity].
      pose proof (ltb_trans _ _ _ E E') as F.
      rewrite ltb_irrefl in F. discriminate.
    + constructor; [now constructor|].
      constructor; [exact E|].
      rewrite List.Forall_forall in *. intros z Hz.
      eapply ltb_negtrans; [exact E|now apply Hy].
Qed.

Lemma sort_desc_descending (l : list (K * A)) : descending ltb (sort_desc ltb l).
Proof.
  induction l as [|x l IH]; simpl.
  - constructor.
  - now apply insert_desc_descending.
Qed.

Lemma same_key_not_ltb k1 k2 k :
  ltb k1 k2 = true -> same_key ltb k1 k = true -> same_key ltb k2 k = false.
Proof.
  unfold same_key. intros Hlt Hsame.
  apply andb_true_iff in Hsame as [H1 H2].
  apply negb_true_iff in H1, H2.
  destruct (ltb k k2) eqn:E3; [apply andb_false_r|].
  now rewrite (ltb_negtrans _ _ _ H1 E3) in Hlt.
Qed.

Lemma insert_desc_stable (k : K) (x : K * A) l :
  List.filter (fun y => same_key ltb (fst y) k) (insert_desc ltb x l)
  = List.filter (fun y => same_key ltb (fst y) k) (x :: l).
Proof.
  induction l as [|y l IH]; [reflexivity|].
  cbn [insert_desc]. destruct (ltb (fst x) (fst y)) eqn:E; [|reflexivity].
  cbn [List.filter] in *. rewrite IH.
  destruct (same_key ltb (fst x) k) eqn:Ex; [|reflexivity].
  now rewrite (same_key_not_ltb _ _ _ E Ex).
Qed.

Lemma sort_desc_stable (k : K) (l : list (K * A)) :
  List.filter (fun y => same_key ltb (fst y) k) (sort_desc ltb l)
  = List.filter (fun y => same_key ltb (fst y) k) l.
Proof.
  induction l as [|x l IH]; [reflexivity|].
  change (sort_desc ltb (x :: l)) with (insert_desc ltb x (sort_desc ltb l)).
  rewrite insert_desc_stable. cbn [List.filter]. now rewrite IH.
Qed.

(** The head of the sorted list is the first greatest element. *)
Lemma sort_desc_head (d : list (K * A)) :
  d <> [] ->
  exists d1 x d2 rest,
    d = d1 ++ x :: d2 /\ sort_desc ltb d = x :: rest /\
    (forall y, In y d1 -> ltb (fst y) (fst x) = true) /\
    (forall y, In y d2 -> ltb (fst x) (fst y) = false).
Proof.
  induction d as [|a d IH]; [congruence|intros _].
  destruct d as [|b d].
  { exists [], a, [], []. repeat split; simpl; intros; tauto. }
  destruct IH as (d1 & x & d2 & rest & Hd & Hs & H1 & H2); [congruence|].
  change (sort_desc ltb (a :: b :: d))
    with (insert_desc ltb a (sort_desc ltb (b :: d))).
  rewrite Hs, Hd.
  cbn [insert_desc]. destruct (ltb (fst a) (fst x)) eqn:E.
  - exists (a :: d1), x, d2, (insert_desc ltb a rest).
    repeat split; [|exact H2].
    intros y [<-|Hy]; [exact E|now apply H1].
  - exists [], a, (d1 ++ x :: d2), (x :: rest).
    repeat split; [simpl; tauto|].
    intros y Hy. apply in_app_or in Hy as [Hy|[<-|Hy]].
    + destruct (ltb (fst a) (fst y)) eqn:E'; [|reflexivity].
      now rewrite (ltb_trans _ _ _ E' (H1 _ Hy)) in E.
    + exact E.
    + eapply ltb_negtrans; [exact E|now apply H2].
Qed.

Lemma decorate_total (key : A -> outcome K) (l : list A) :
  (forall x, In x l -> exists k, key x = Returned k) ->
  exists d, decorate key l = Returned d /\ map snd d = l /\
            Forall (fun y => key (snd y) = Returned (fst y)) d.
Proof.
  induction l as [|x l IH]; intros Hk.
  - exists []. repeat split. constructor.
  - destruct (Hk x) as [k Hx]; [now left|].
    destruct IH as (d & Hd & Hm & Hf); [intros; apply Hk; now right|].
    exists ((k, x) :: d). simpl. rewrite Hx, Hd, Hm.
    repeat split. now constructor.
Qed.

(** [first, *_ = sorted(l, key=key, reverse=True)] picks the first
    greatest element of a non-empty list whose keys can be computed. *)
Lemma unpack_first_sorted (key : A -> outcome K) (l : list A) :
  l <> [] ->
  (forall x, In x l -> exists k, key x = Returned k) ->
  exists s, unpack_first (sorted_reverse ltb key l) = Returned s /\
            first_max ltb key l s.
Proof.
  intros Hne Hk.
  destruct (decorate_total key l Hk) as (d & Hd & Hm & Hf).
  assert (Hdne : d <> []) by (intros ->; simpl in Hm; congruence).
  destruct (sort_desc_head d Hdne) as (d1 & x & d2 & rest & Hsplit & Hs & H1 & H2).
  exists (snd x). unfold sorted_reverse. rewrite Hd, Hs. simpl.
  split; [reflexivity|].
  subst d. rewrite map_app in Hm. simpl in Hm.
  apply Forall_app in Hf as [Hf1 Hf2].
  apply Forall_cons_iff in Hf2 as [Hx Hf2].
  rewrite List.Forall_forall in Hf1, Hf2.
  exists (map snd d1), (map snd d2), (fst x).
  repeat split; [now symmetry|exact Hx| |].
  - intros y Hy. apply in_map_iff in Hy as (z & <- & Hz).
    exists (fst z). split; [now apply Hf1|now apply H1].
  - intros y Hy. apply in_map_iff in Hy as (z & <- & Hz).
    exists (fst z). split; [now apply Hf2|now apply H2].
Qed.
End SortFacts.

Lemma pair_ltb_irrefl a : pair_ltb a a = false.
Proof. unfold pair_ltb. lia. Qed.

Lemma pair_ltb_trans a b c :
  pair_ltb a b = true -> pair_ltb b c = true -> pair_ltb a c = true.
Proof. unfold pair_ltb. lia. Qed.

Lemma pair_ltb_negtrans a b c :
  pair_ltb a b = false -> pair_ltb b c = false -> pair_ltb a c = false.
Proof. unfold pair_ltb. lia. Qed.

Lemma Zltb_trans a b c : (a <? b) = true -> (b <? c) = true -> (a <? c) = true.
Proof. lia. Qed.

Lemma Zltb_negtrans a b c : (a <? b) = false -> (b <? c) = false -> (a <? c) = false.
Proof. lia. Qed.

(** ** Stream selection *)

(** C4. For every non-empty candidate list (whose ranking keys can be
    computed), the selected stream is the first element with the
    lexicographically greatest key: (resolution, fps) for video, bit rate
    for audio.  The sort behind it is a stable descending sort: it permutes
    its input, leaves no element before a greater one and keeps elements of
    equal key in their upstream order.  The two examples of the
    specification select (1080, 60) and 256. *)
Theorem selection_is_first_max (video_all audio_all : list Stream)
    (Hvideo : List.filter check_if_dash_stream video_all <> [])
    (Hkeys : forall x, In x (List.filter check_if_dash_stream video_all) ->
                       exists k, sort_criteria x = Returned k)
    (Haudio : List.filter is_dash_audio audio_all <> []) :
  (exists s, best_video_stream video_all = Returned s /\
             first_max pair_ltb sort_criteria
                       (List.filter check_if_dash_stream video_all) s) /\
  (exists s, best_audio_stream audio_all = Returned s /\
             first_max Z.ltb (fun x => Returned (bitrate x))
                       (List.filter is_dash_audio audio_all) s) /\
  (forall (d : list (Z * Z * Stream)) (k : Z * Z),
      Permutation (sort_desc pair_ltb d) d /\
      descending pair_ltb (sort_desc pair_ltb d) /\
      List.filter (fun y => same_key pair_ltb (fst y) k) (sort_desc pair_ltb d)
      = List.filter (fun y => same_key pair_ltb (fst y) k) d) /\
  (forall (d : list (Z * Stream)) (k : Z),
      Permutation (sort_desc Z.ltb d) d /\
      descending Z.ltb (sort_desc Z.ltb d) /\
      List.filter (fun y => same_key Z.ltb (fst y) k) (sort_desc Z.ltb d)
      = List.filter (fun y => same_key Z.ltb (fst y) k) d) /\
  map sort_criteria sample_video_streams
    = map Returned [(720, 30); (1080, 30); (1080, 60); (480, 60)] /\
  best_video_stream sample_video_streams = Returned v1080_60 /\
  sort_criteria v1080_60 = Returned (1080, 60) /\
  map bitrate sample_audio_streams = [128; 256; 96] /\
  best_audio_stream sample_audio_streams = Returned a256.
Proof.
  split; [|split; [|split; [|split]]].
  - apply (unpack_first_sorted pair_ltb pair_ltb_trans pair_ltb_negtrans);
      assumption.
  - apply (unpack_first_sorted Z.ltb Zltb_trans Zltb_negtrans); [assumption|].
    intros x _. now exists (bitrate x).
  - intros d k. split; [apply sort_desc_perm|split].
    + apply (sort_desc_descending pair_ltb pair_ltb_irrefl pair_ltb_trans pair_ltb_negtrans).
    + apply (sort_desc_stable pair_ltb pair_ltb_negtrans).
  - intros d k. split; [apply sort_desc_perm|split].
    + apply (sort_desc_descending Z.ltb Z.ltb_irrefl Zltb_trans Zltb_negtrans).
    + apply (sort_desc_stable Z.ltb Zltb_negtrans).
  - repeat split; reflexivity.
Qed.

Lemma selection_is_first_max_witness :
  (exists s, best_video_stream sample_streams = Returned s /\
             first_max pair_ltb sort_criteria
                       (List.filter check_if_dash_stream sample_streams) s) /\
  (exists s, best_audio_stream sample_streams = Returned s /\
             first_max Z.ltb (fun x => Returned (bitrate x))
                       (List.filter is_dash_audio sample_streams) s).
Proof.
  assert (Hv : List.filter check_if_dash_stream sample_streams <> [])
    by (vm_compute; discriminate).
  assert (Ha : List.filter is_dash_audio sample_streams <> [])
    by (vm_compute; discriminate).
  assert (Hk : forall x, In x (List.filter check_if_dash_stream sample_streams) ->
                         exists k, sort_criteria x = Returned k).
  { intros x Hx. vm_compute in Hx.
    destruct Hx as [<-|[<-|[<-|[<-|[]]]]]; eexists; reflexivity. }
  destruct (selection_is_first_max sample_streams sample_streams Hv Hk Ha)
    as (H1 & H2 & _).
  split; assumption.
Defined.

(** ** Names of the temporary files *)

Lemma rfind_dot_tail (x t : string) :
  rfind "."%char t = None ->
  rfind "."%char (x +:+ String "."%char t) = Some (String.length x).
Proof.
  intros Ht. induction x as [|a x IH]; simpl.
  - now rewrite Ht.
  - now rewrite IH.
Qed.

Lemma length_app_string (x t : string) :
  String.length (x +:+ t) = (String.length x + String.length t)%nat.
Proof. induction x as [|a x IH]; simpl; [reflexivity|now rewrite IH]. Qed.

Lemma substring_all (t : string) : substring 0 (String.length t) t = t.
Proof. induction t as [|a t IH]; simpl; [reflexivity|now rewrite IH]. Qed.

Lemma substring_tail (x t : string) :
  substring (String.length x) (String.length t) (x +:+ t) = t.
Proof.
  induction x as [|a x IH]; simpl; [apply substring_all|exact IH].
Qed.

(** A name [stem.ext] with a non-empty stem and a dot-free, non-empty
    extension has suffix [.ext]. *)
Lemma suffix_of_name_tail (x t : string) :
  x <> "" -> t <> "" -> rfind "."%char t = None ->
  suffix_of_name (x +:+ String "."%char t) = String "."%char t.
Proof.
  intros Hx Ht Hdot. unfold suffix_of_name.
  rewrite (rfind_dot_tail x t Hdot), length_app_string.
  assert (0 < String.length x)%nat by (destruct x; simpl; [congruence|lia]).
  assert (0 < String.length t)%nat by (destruct t; simpl; [congruence|lia]).
  cbn [String.length].
  replace ((0 <? String.length x)%nat) with true by (symmetry; apply Nat.ltb_lt; lia).
  replace ((String.length x <? String.length x + S (String.length t) - 1)%nat)
    with true by (symmetry; apply Nat.ltb_lt; lia).
  cbn [andb].
  replace (String.length x + S (String.length t) - String.length x)%nat
    with (String.length (String "."%char t)) by (simpl; lia).
  apply substring_tail.
Qed.

Lemma app_string_assoc (a b c : string) : (a +:+ b) +:+ c = a +:+ (b +:+ c).
Proof.
  induction a as [|x a IH]; [reflexivity|].
  change (String x ((a +:+ b) +:+ c) = String x (a +:+ (b +:+ c))).
  now rewrite IH.
Qed.

Lemma suffix_tmp_video env timestamp :
  suffix (tmp_video_path env timestamp) = ".webm".
Proof.
  unfold suffix, tmp_video_path, joinpath. cbn [name].
  rewrite <- app_string_assoc.
  apply (suffix_of_name_tail ("tmp_video_" +:+ timestamp) "webm");
    [discriminate|discriminate|reflexivity].
Qed.

Lemma suffix_tmp_audio env timestamp :
  suffix (tmp_audio_path env timestamp) = ".opus".
Proof.
  unfold suffix, tmp_audio_path, joinpath. cbn [name].
  rewrite <- app_string_assoc.
  apply (suffix_of_name_tail ("tmp_audio_" +:+ timestamp) "opus");
    [discriminate|discriminate|reflexivity].
Qed.

Lemma tmp_video_not_audio env t1 t2 : tmp_video_path env t1 <> tmp_audio_path env t2.
Proof.
  unfold tmp_video_path, tmp_audio_path, joinpath. intros H.
  apply (f_equal name) in H. cbn in H. discriminate H.
Qed.

Lemma app_string_inj_r (a b c : string) : a +:+ c = b +:+ c -> a = b.
Proof.
  revert b. induction a as [|x a IH]; intros [|y b] H.
  - reflexivity.
  - apply (f_equal String.length) in H. rewrite !length_app_string in H.
    simpl in H. lia.
  - apply (f_equal String.length) in H. rewrite !length_app_string in H.
    simpl in H. lia.
  - change (String x (a +:+ c) = String y (b +:+ c)) in H.
    injection H as -> H. f_equal. now apply IH.
Qed.

Lemma tmp_video_path_inj env t1 t2 :
  tmp_video_path env t1 = tmp_video_path env t2 -> t1 = t2.
Proof.
  unfold tmp_video_path, joinpath. intros H.
  apply (f_equal name) in H. cbn in H.
  injection H as H. exact (app_string_inj_r t1 t2 ".webm" H).
Qed.

Lemma tmp_audio_path_inj env t1 t2 :
  tmp_audio_path env t1 = tmp_audio_path env t2 -> t1 = t2.
Proof.
  unfold tmp_audio_path, joinpath. intros H.
  apply (f_equal name) in H. cbn in H.
  injection H as H. exact (app_string_inj_r t1 t2 ".opus" H).
Qed.


Lemma str_tmp_longer (dir stem : string) :
  (String.length dir
   < String.length (str (mkPath dir (String "t"%char (String "m"%char stem)))))%nat.
Proof.
  unfold str. cbn [name parent String.eqb].
  destruct (String.eqb_spec dir ".") as [->|_]; [cbn; lia|].
  destruct (String.eqb_spec dir "/") as [->|_];
    [cbn [orb]; rewrite length_app_string; cbn; lia|].
  destruct (String.eqb_spec dir "//") as [->|_];
    [cbn [orb]; rewrite length_app_string; cbn; lia|].
  cbn [orb]. rewrite !length_app_string. cbn. lia.
Qed.

Lemma str_tmp_video_not_dir env stamp :
  str (tmp_video_path env stamp) <> script_dir env.
Proof.
  intros E. pose proof (str_tmp_longer (script_dir env)
                          ("p_video_" +:+ stamp +:+ ".webm")) as H.
  change (mkPath (script_dir env)
            (String "t" (String "m" ("p_video_" +:+ stamp +:+ ".webm"))))
    with (tmp_video_path env stamp) in H.
  rewrite E in H. lia.
Qed.

Lemma str_tmp_audio_not_dir env stamp :
  str (tmp_audio_path env stamp) <> script_dir env.
Proof.
  intros E. pose proof (str_tmp_longer (script_dir env)
                          ("p_audio_" +:+ stamp +:+ ".opus")) as H.
  change (mkPath (script_dir env)
            (String "t" (String "m" ("p_audio_" +:+ stamp +:+ ".opus"))))
    with (tmp_audio_path env stamp) in H.
  rewrite E in H. lia.
Qed.

(** ** The primitive operations *)

(** Ends a goal that compares two worlds which differ only in how their
    traces are bracketed. *)
Ltac same_world :=
  unfold ret, raise, lift, emit, add_events, log, set_files, set_dirs, tick;
  cbn [dirs files ticks trace fst snd];
  rewrite <- ?app_assoc; cbn [app];
  try reflexivity.

Lemma existsb_eqb_In (x : string) (pool : list string) :
  existsb (String.eqb x) pool = true <-> In x pool.
Proof.
  rewrite existsb_exists. split.
  - intros (y & Hy & E). apply String.eqb_eq in E. now subst.
  - intros H. exists x. split; [exact H|apply String.eqb_refl].
Qed.

Lemma has_file_false f p : f !! p = None -> has_file f p = false.
Proof. unfold has_file. now intros ->. Qed.

Lemma is_directory_true w d : d ∈ dirs w -> is_directory w d = true.
Proof. apply bool_decide_eq_true_2. Qed.

Lemma is_directory_false w d : d ∉ dirs w -> is_directory w d = false.
Proof. apply bool_decide_eq_false_2. Qed.

Lemma is_directory_spec w d : is_directory w d = true <-> d ∈ dirs w.
Proof. apply bool_decide_eq_true. Qed.

Lemma string_exists_dir w d : d ∈ dirs w -> string_exists w d = true.
Proof. intros H. unfold string_exists. now rewrite (is_directory_true _ _ H). Qed.

Lemma path_found_false w p :
  files w !! p = None -> str p ∉ dirs w -> path_found w p = false.
Proof.
  intros Hf Hd. unfold path_found.
  now rewrite (has_file_false _ _ Hf), (is_directory_false _ _ Hd).
Qed.

Lemma path_found_false_inv w p :
  path_found w p = false -> files w !! p = None /\ str p ∉ dirs w.
Proof.
  unfold path_found, has_file. intros H. apply orb_false_iff in H as (Hf & Hd).
  split.
  - now destruct (files w !! p).
  - intros Hin. now rewrite (is_directory_true _ _ Hin) in Hd.
Qed.

Lemma validate_target_ok w t extensions :
  valid_target w t extensions ->
  validate_target t extensions w
  = (Returned tt, add_events [EDirExists (parent t); EExists t] w).
Proof.
  intros (Hp & Hf & Hd & Hs). unfold validate_target, bind, dir_exists, path_exists.
  rewrite Hp. cbn [negb].
  replace (path_found (log (EDirExists (parent t)) w) t) with false
    by (symmetry; now apply path_found_false).
  apply existsb_eqb_In in Hs. rewrite Hs. cbn [negb].
  same_world.
Qed.

Lemma validate_target_bad w t extensions e evs :
  bad_target w t extensions e evs ->
  validate_target t extensions w = (Raised e, add_events evs w).
Proof.
  unfold validate_target, bind, dir_exists, path_exists.
  intros [Hp|Hp Hf|Hp Hf Hs]; rewrite Hp; cbn [negb].
  - same_world.
  - change (path_found (log (EDirExists (parent t)) w) t) with (path_found w t).
    rewrite Hf. same_world.
  - change (path_found (log (EDirExists (parent t)) w) t) with (path_found w t).
    rewrite Hf.
    destruct (existsb (String.eqb (suffix t)) extensions) eqn:E.
    { apply existsb_eqb_In in E. contradiction. }
    same_world.
Qed.

(** Every destination is either valid or refused in exactly one way. *)
Lemma valid_or_bad w t extensions :
  valid_target w t extensions \/ exists e evs, bad_target w t extensions e evs.
Proof.
  destruct (string_exists w (parent t)) eqn:Hp.
  2: { right. eexists _, _. now apply parent_missing. }
  destruct (path_found w t) eqn:Hf.
  { right. eexists _, _. now apply destination_exists. }
  destruct (in_dec string_dec (suffix t) extensions) as [Hs|Hs].
  - left. apply path_found_false_inv in Hf as (Hf & Hd). now repeat split.
  - right. eexists _, _. now apply unsupported_extension.
Qed.

Lemma bad_target_not_valid w t extensions e evs :
  bad_target w t extensions e evs -> ~ valid_target w t extensions.
Proof.
  intros [Hp|Hp Hf|Hp Hf Hs] (Hp' & Hf' & Hd' & Hs');
    [congruence| |contradiction].
  rewrite (path_found_false _ _ Hf' Hd') in Hf. discriminate Hf.
Qed.

(** [unlink(missing_ok=True)] fails only on a directory. *)
Lemma unlink_run p w :
  unlink p true w
  = if negb (has_file (files w) p) && is_directory w (str p)
    then (Raised IsADirectoryError, log (EUnlink p) w)
    else (Returned tt,
          mkWorld (dirs w) (delete p (files w)) (ticks w) (trace w ++ [EUnlink p])).
Proof.
  unfold unlink, set_files, has_file. cbn [files log].
  change (is_directory (log (EUnlink p) w) (str p)) with (is_directory w (str p)).
  destruct (files w !! p) eqn:E; cbn [negb andb]; [reflexivity|].
  destruct (is_directory w (str p)); [reflexivity|].
  now rewrite (delete_id _ _ E).
Qed.

Lemma unlink_missing_ok p w :
  str p ∉ dirs w ->
  unlink p true w
  = (Returned tt,
     mkWorld (dirs w) (delete p (files w)) (ticks w) (trace w ++ [EUnlink p])).
Proof.
  intros H. rewrite unlink_run, (is_directory_false _ _ H).
  now rewrite andb_false_r.
Qed.

Lemma joinpath_parent_name p : joinpath (parent p) (name p) = p.
Proof. now destruct p. Qed.

Lemma union_known_dir (d : string) (D : gset string) : d ∈ D -> {[d]} ∪ D = D.
Proof. intros H. apply subseteq_union_1_L. now apply singleton_subseteq_l. Qed.

(** ** The download blocks ([try ... finally] of the two operations) *)

(** The ways a download can end. *)
Lemma download_cases env s d f w :
  let grown := {[d]} ∪ dirs w in
  let file := joinpath d f in
  let after := trace w ++ [EDownload s d f] in
  (exists e ds fs,
     download env s d f w = (Raised e, mkWorld ds fs (ticks w) after) /\
     (ds = dirs w \/ ds = grown) /\
     (fs = files w \/ fs = <[file := Truncated s]> (files w))) \/
  (download env s d f w
   = (Returned tt, mkWorld grown (<[file := Media s]> (files w)) (ticks w) after) /\
   net env s = Complete /\ str file ∉ grown).
Proof.
  cbn zeta. unfold download, is_directory.
  cbn [log set_files set_dirs dirs files ticks trace].
  destruct (negb _ && _).
  { left. eexists _, _, _. split; [reflexivity|]. split; now left. }
  destruct (net env s); [destruct (bool_decide _) eqn:Hdir|destruct (bool_decide _)|].
  - left. eexists _, _, _. split; [reflexivity|]. split; [now right|now left].
  - right. split; [reflexivity|]. split; [reflexivity|].
    now apply bool_decide_eq_false in Hdir.
  - left. eexists _, _, _. split; [reflexivity|]. split; [now right|now left].
  - left. eexists _, _, _. split; [reflexivity|]. split; now right.
  - left. eexists _, _, _. split; [reflexivity|]. split; [now right|now left].
Qed.

(** The ways a rename can end. *)
Lemma rename_cases env src dst w :
  (exists e, rename env src dst w = (Raised e, log (ERename src dst) w)) \/
  (exists c,
     files w !! src = Some c /\ parent dst ∈ dirs w /\ (str dst ∉ dirs w) /\
     device env (parent src) = device env (parent dst) /\
     rename env src dst w
     = (Returned tt,
        mkWorld (dirs w) (<[dst := c]> (delete src (files w))) (ticks w)
                (trace w ++ [ERename src dst]))).
Proof.
  unfold rename, is_directory. cbn [log set_files dirs files ticks trace].
  destruct (files w !! src) as [c|]; [|left; eexists; reflexivity].
  destruct (bool_decide (parent dst ∈ dirs w)) eqn:Hp; cbn [negb];
    [|left; eexists; reflexivity].
  destruct (bool_decide (str dst ∈ dirs w)) eqn:Hd; [left; eexists; reflexivity|].
  destruct (Nat.eqb_spec (device env (parent src)) (device env (parent dst)))
    as [Hdev|Hdev]; cbn [negb]; [|left; eexists; reflexivity].
  right. exists c. apply bool_decide_eq_true in Hp. apply bool_decide_eq_false in Hd.
  now repeat split.
Qed.

(** The only exception of the lexer is the [ValueError] of an open
    quotation or escape. *)
Lemma shlex_tokens_raises input state token quoted e :
  shlex_tokens state token quoted input = Raised e -> e = ValueError.
Proof.
  revert state token quoted.
  induction input as [|c rest IH]; intros state token quoted; cbn.
  - destruct state; intros H; try discriminate H; now injection H.
  - destruct state as [| |q|[q|]];
      repeat match goal with
             | |- context [if ?b then _ else _] => destruct b
             end;
      try apply IH.
    destruct (shlex_tokens Blank "" false rest) eqn:E'; [discriminate|].
    intros [= <-]. exact (IH _ _ _ E').
Qed.

(** The ways a process call can end: the command line does not split and
    nothing is started, or the process runs and its return code decides. *)
Lemma subprocess_run_cases env command w :
  (shlex_split command = Raised ValueError /\
   subprocess_run env command w = (Raised ValueError, w)) \/
  (exists argv, shlex_split command = Returned argv /\
     let r := proc env command (files w) in
     subprocess_run env command w
     = (if returncode r =? 0 then Returned tt
        else Raised (CalledProcessError (returncode r)),
        mkWorld (dirs w) (write_all (Encoded command) (leaves r) (files w))
                (ticks w) (trace w ++ [ERun command]))).
Proof.
  unfold subprocess_run. destruct (shlex_split command) as [argv|e] eqn:E.
  - right. exists argv. split; [reflexivity|]. cbn zeta.
    cbn [log set_files dirs files ticks trace].
    now destruct (returncode _ =? 0).
  - left. rewrite (shlex_tokens_raises _ _ _ _ _ E). now split.
Qed.

(** The [finally] clause of the two operations: the temporary file is
    gone afterwards whatever the body did, and the result of the body is
    replaced only when a directory sits at the temporary path. *)
Lemma finally_unlink {A} (body : M A) tmp w :
  let b := body w in
  let r := try_finally body (unlink tmp true) w in
  files (snd r) = delete tmp (files (snd b)) /\
  dirs (snd r) = dirs (snd b) /\
  ticks (snd r) = ticks (snd b) /\
  trace (snd r) = trace (snd b) ++ [EUnlink tmp] /\
  (fst r = fst b \/
   fst r = Raised IsADirectoryError /\ str tmp ∈ dirs (snd b) /\
   files (snd b) !! tmp = None).
Proof.
  cbn zeta. unfold try_finally. destruct (body w) as [r wb].
  rewrite unlink_run. cbn [fst snd].
  destruct (negb _ && _) eqn:E; cbn [fst snd files dirs ticks trace log].
  - apply andb_true_iff in E as (Hf & Hd).
    apply is_directory_spec in Hd. unfold has_file in Hf.
    destruct (files wb !! tmp) eqn:Hl; [cbn in Hf; discriminate Hf|].
    rewrite (delete_id _ _ Hl). repeat split. now right.
  - repeat split. now left.
Qed.

(** When no directory sits at the temporary path, the [finally] clause
    keeps the result of the body. *)
Lemma finally_unlink_plain {A} (body : M A) tmp w :
  str tmp ∉ dirs (snd (body w)) ->
  try_finally body (unlink tmp true) w
  = (fst (body w),
     mkWorld (dirs (snd (body w))) (delete tmp (files (snd (body w))))
             (ticks (snd (body w))) (trace (snd (body w)) ++ [EUnlink tmp])).
Proof.
  intros H. unfold try_finally. destruct (body w) as [r wb]. cbn [fst snd] in *.
  now rewrite (unlink_missing_ok _ _ H).
Qed.

(** Proves that each event of an explicit list is one of those allowed. *)
Ltac listed :=
  repeat (apply List.Forall_cons; [auto 6|]); apply List.Forall_nil.

(** What the video block does in general: it starts one download, may
    rename, always unlinks, and leaves the files either as they were less
    the temporary file or, when it returns, with the payload at the
    destination. *)
Lemma video_block_general env s tmp t w :
  let r := try_finally
             (download env s (parent tmp) (name tmp) ;; rename env tmp t)
             (unlink tmp true) w in
  exists evs,
    trace (snd r) = trace w ++ EDownload s (parent tmp) (name tmp) :: evs /\
    Forall (fun e => e = ERename tmp t \/ e = EUnlink tmp) evs /\
    ticks (snd r) = ticks w /\
    (dirs (snd r) = dirs w \/ dirs (snd r) = {[parent tmp]} ∪ dirs w) /\
    ((exists e, fst r = Raised e) /\ files (snd r) = delete tmp (files w) \/
     fst r = Returned tt /\ net env s = Complete /\
     parent t ∈ {[parent tmp]} ∪ dirs w /\
     device env (parent tmp) = device env (parent t) /\
     files (snd r) = delete tmp (<[t := Media s]> (delete tmp (files w)))).
Proof.
  cbn zeta.
  set (body := (download env s (parent tmp) (name tmp) ;; rename env tmp t)).
  pose proof (finally_unlink body tmp w) as H. cbn zeta in H.
  destruct H as (Hf & Hd & Ht & Htr & Hres).
  rewrite Hf, Hd, Ht, Htr. clear Hf Hd Ht Htr.
  revert Hres. generalize (fst (try_finally body (unlink tmp true) w)).
  unfold body, bind. clear body.
  destruct (download_cases env s (parent tmp) (name tmp) w)
    as [(e & ds & fs & E & Hds & Hfs)|(E & Hnet & Hnd)];
    cbn zeta in *; rewrite joinpath_parent_name in *; rewrite E; clear E.
  - intros r Hres. cbn [fst snd dirs files ticks trace] in *.
    exists [EUnlink tmp]. split; [now rewrite <- app_assoc|].
    split; [listed|].
    split; [reflexivity|]. split; [exact Hds|]. left. split.
    + destruct Hres as [->|(-> & _)]; eauto.
    + destruct Hfs as [->| ->]; [reflexivity|apply delete_insert_eq].
  - match goal with
    | |- context [rename env tmp t ?w1] =>
        destruct (rename_cases env tmp t w1) as [(e & E)|(c & Hc & Hp & Hdst & Hdev & E)]
    end; rewrite E; clear E; intros r Hres;
      cbn [fst snd dirs files ticks trace log] in *.
    + exists [ERename tmp t; EUnlink tmp].
      split; [now rewrite <- !app_assoc|].
      split; [listed|].
      split; [reflexivity|]. split; [now right|]. left. split.
      * destruct Hres as [->|(-> & _)]; eauto.
      * apply delete_insert_eq.
    + exists [ERename tmp t; EUnlink tmp].
      split; [now rewrite <- !app_assoc|].
      split; [listed|].
      split; [reflexivity|]. split; [now right|]. right.
      rewrite lookup_insert_eq in Hc. injection Hc as <-.
      split; [|split; [exact Hnet|split; [exact Hp|split; [exact Hdev|]]]].
      * destruct Hres as [->|(_ & Hin & _)]; [reflexivity|contradiction].
      * now rewrite delete_insert_eq.
Qed.

(** The same for the audio block, whose second step is the transcoder for
    a [.mp3] destination and the rename otherwise. *)
Lemma audio_block_general env s tmp t w :
  let r := try_finally
             (download env s (parent tmp) (name tmp) ;;
              if String.eqb (suffix t) ".mp3"
              then subprocess_run env (transcode_command tmp t)
              else rename env tmp t)
             (unlink tmp true) w in
  let command := transcode_command tmp t in
  let fs := <[tmp := Media s]> (files w) in
  let p := proc env command fs in
  exists evs,
    trace (snd r) = trace w ++ EDownload s (parent tmp) (name tmp) :: evs /\
    Forall (fun e => e = ERename tmp t \/ e = EUnlink tmp \/
                     (suffix t = ".mp3" /\ e = ERun command)) evs /\
    (List.filter is_process evs = [] \/
     suffix t = ".mp3" /\ List.filter is_process evs = [ERun command]) /\
    ticks (snd r) = ticks w /\
    (dirs (snd r) = dirs w \/ dirs (snd r) = {[parent tmp]} ∪ dirs w) /\
    ((exists e, fst r = Raised e) /\ files (snd r) = delete tmp (files w) \/
     suffix t <> ".mp3" /\
     fst r = Returned tt /\ net env s = Complete /\
     parent t ∈ {[parent tmp]} ∪ dirs w /\
     device env (parent tmp) = device env (parent t) /\
     files (snd r) = delete tmp (<[t := Media s]> (delete tmp (files w))) \/
     suffix t = ".mp3" /\ net env s = Complete /\
     In (ERun command) evs /\
     fst r = (if returncode p =? 0 then Returned tt
              else Raised (CalledProcessError (returncode p))) /\
     files (snd r) = delete tmp (write_all (Encoded command) (leaves p) fs)).
Proof.
  cbn zeta.
  set (body := (download env s (parent tmp) (name tmp) ;; _)).
  pose proof (finally_unlink body tmp w) as H. cbn zeta in H.
  destruct H as (Hf & Hd & Ht & Htr & Hres).
  rewrite Hf, Hd, Ht, Htr. clear Hf Hd Ht Htr.
  revert Hres. generalize (fst (try_finally body (unlink tmp true) w)).
  unfold body, bind. clear body.
  destruct (download_cases env s (parent tmp) (name tmp) w)
    as [(e & ds & fs & E & Hds & Hfs)|(E & Hnet & Hnd)];
    cbn zeta in *; rewrite joinpath_parent_name in *; rewrite E; clear E.
  - intros r Hres. cbn [fst snd dirs files ticks trace] in *.
    exists [EUnlink tmp]. split; [now rewrite <- app_assoc|].
    split; [listed|]. split; [now left|].
    split; [reflexivity|]. split; [exact Hds|]. left. split.
    + destruct Hres as [->|(-> & _)]; eauto.
    + destruct Hfs as [->| ->]; [reflexivity|apply delete_insert_eq].
  - destruct (String.eqb_spec (suffix t) ".mp3") as [Hmp3|Hmp3].
    + match goal with
      | |- context [subprocess_run env ?c ?w1] =>
          destruct (subprocess_run_cases env c w1) as [(Hs & E)|(argv & Hs & E)]
      end; cbn zeta in E; rewrite E; clear E; intros r Hres;
        cbn [fst snd dirs files ticks trace log] in *.
      * exists [EUnlink tmp]. split; [now rewrite <- app_assoc|].
        split; [listed|]. split; [now left|].
        split; [reflexivity|]. split; [now right|]. left. split.
        -- destruct Hres as [->|(-> & _)]; eauto.
        -- apply delete_insert_eq.
      * exists [ERun (transcode_command tmp t); EUnlink tmp].
        split; [now rewrite <- !app_assoc|].
        split; [listed|]. split; [now right|].
        split; [reflexivity|]. split; [now right|]. right; right.
        split; [exact Hmp3|]. split; [exact Hnet|]. split; [now left|].
        split; [|reflexivity].
        destruct Hres as [->|(_ & Hin & _)]; [reflexivity|contradiction].
    + match goal with
      | |- context [rename env tmp t ?w1] =>
          destruct (rename_cases env tmp t w1) as [(e & E)|(c & Hc & Hp & Hdst & Hdev & E)]
      end; rewrite E; clear E; intros r Hres;
        cbn [fst snd dirs files ticks trace log] in *.
      * exists [ERename tmp t; EUnlink tmp].
        split; [now rewrite <- !app_assoc|].
        split; [listed|]. split; [now left|].
        split; [reflexivity|]. split; [now right|]. left. split.
        -- destruct Hres as [->|(-> & _)]; eauto.
        -- apply delete_insert_eq.
      * exists [ERename tmp t; EUnlink tmp].
        split; [now rewrite <- !app_assoc|].
        split; [listed|]. split; [now left|].
        split; [reflexivity|]. split; [now right|]. right; left.
        rewrite lookup_insert_eq in Hc. injection Hc as <-.
        split; [exact Hmp3|].
        split; [|split; [exact Hnet|split; [exact Hp|split; [exact Hdev|]]]].
        -- destruct Hres as [->|(_ & Hin & _)]; [reflexivity|contradiction].
        -- now rewrite delete_insert_eq.
Qed.

(** *** The blocks when nothing is in the way *)

Lemma download_complete env s d f w :
  d ∈ dirs w -> str (joinpath d f) ∉ dirs w -> net env s = Complete ->
  download env s d f w
  = (Returned tt,
     mkWorld (dirs w) (<[joinpath d f := Media s]> (files w)) (ticks w)
             (trace w ++ [EDownload s d f])).
Proof.
  intros Hd Hf Hnet. unfold download, is_directory.
  cbn [log set_files set_dirs dirs files ticks trace].
  rewrite (bool_decide_eq_true_2 _ Hd). cbn [negb andb].
  rewrite Hnet, (union_known_dir _ _ Hd), (bool_decide_eq_false_2 _ Hf).
  reflexivity.
Qed.

Lemma rename_done env src dst c w :
  files w !! src = Some c -> parent dst ∈ dirs w -> str dst ∉ dirs w ->
  device env (parent src) = device env (parent dst) ->
  rename env src dst w
  = (Returned tt,
     mkWorld (dirs w) (<[dst := c]> (delete src (files w))) (ticks w)
             (trace w ++ [ERename src dst])).
Proof.
  intros Hc Hp Hd Hdev. unfold rename, is_directory.
  cbn [log set_files dirs files ticks trace].
  rewrite Hc, (bool_decide_eq_true_2 _ Hp), (bool_decide_eq_false_2 _ Hd), Hdev.
  now rewrite Nat.eqb_refl.
Qed.

Lemma subprocess_run_started env command argv w :
  shlex_split command = Returned argv ->
  subprocess_run env command w
  = let r := proc env command (files w) in
    (if returncode r =? 0 then Returned tt
     else Raised (CalledProcessError (returncode r)),
     mkWorld (dirs w) (write_all (Encoded command) (leaves r) (files w))
             (ticks w) (trace w ++ [ERun command])).
Proof.
  intros Hs. unfold subprocess_run. rewrite Hs. cbn zeta.
  cbn [log set_files dirs files ticks trace].
  now destruct (returncode _ =? 0).
Qed.

Lemma subprocess_run_unsplit env command w :
  shlex_split command = Raised ValueError ->
  subprocess_run env command w = (Raised ValueError, w).
Proof. intros Hs. unfold subprocess_run. now rewrite Hs. Qed.

(** A block whose download breaks off: whatever was to follow is skipped,
    the partial file is unlinked. *)
Lemma block_broken env s tmp (next : M unit) w :
  parent tmp ∈ dirs w -> str tmp ∉ dirs w -> net env s <> Complete ->
  try_finally (download env s (parent tmp) (name tmp) ;; next)
              (unlink tmp true) w
  = (Raised IncompleteRead,
     mkWorld (dirs w) (delete tmp (files w)) (ticks w)
             (trace w ++ [EDownload s (parent tmp) (name tmp); EUnlink tmp])).
Proof.
  intros Hd Hf Hnet.
  assert (E : exists fs,
    (download env s (parent tmp) (name tmp) ;; next) w
    = (Raised IncompleteRead,
       mkWorld (dirs w) fs (ticks w)
               (trace w ++ [EDownload s (parent tmp) (name tmp)])) /\
    delete tmp fs = delete tmp (files w)).
  { unfold bind, download, is_directory. rewrite joinpath_parent_name.
    cbn [log set_files set_dirs dirs files ticks trace].
    rewrite (bool_decide_eq_true_2 _ Hd). cbn [negb andb].
    rewrite (union_known_dir _ _ Hd), (bool_decide_eq_false_2 _ Hf).
    destruct (net env s); [contradiction|..]; eexists; (split; [reflexivity|]);
      [apply delete_insert_eq|reflexivity]. }
  destruct E as (fs & E & Hfs).
  rewrite finally_unlink_plain; rewrite E; [|exact Hf].
  cbn [fst snd dirs files ticks trace]. rewrite Hfs. same_world.
Qed.

Lemma video_block_complete env s tmp t w :
  parent tmp ∈ dirs w -> str tmp ∉ dirs w -> net env s = Complete ->
  parent t ∈ dirs w -> str t ∉ dirs w ->
  device env (parent tmp) = device env (parent t) ->
  try_finally (download env s (parent tmp) (name tmp) ;; rename env tmp t)
              (unlink tmp true) w
  = (Returned tt,
     mkWorld (dirs w) (delete tmp (<[t := Media s]> (delete tmp (files w))))
             (ticks w)
             (trace w ++ [EDownload s (parent tmp) (name tmp); ERename tmp t;
                          EUnlink tmp])).
Proof.
  intros Hd Hf Hnet Hp Ht Hdev.
  assert (E : (download env s (parent tmp) (name tmp) ;; rename env tmp t) w
    = (Returned tt,
       mkWorld (dirs w) (<[t := Media s]> (delete tmp (files w))) (ticks w)
               (trace w ++ [EDownload s (parent tmp) (name tmp); ERename tmp t]))).
  { unfold bind. rewrite download_complete; rewrite ?joinpath_parent_name; try assumption.
    rewrite (rename_done _ _ _ (Media s)); cbn [dirs files]; try assumption;
      [|apply lookup_insert_eq].
    rewrite delete_insert_eq. same_world. }
  rewrite finally_unlink_plain; rewrite E; [|exact Hf].
  same_world.
Qed.

Lemma audio_block_renamed env s tmp t w :
  String.eqb (suffix t) ".mp3" = false ->
  parent tmp ∈ dirs w -> str tmp ∉ dirs w -> net env s = Complete ->
  parent t ∈ dirs w -> str t ∉ dirs w ->
  device env (parent tmp) = device env (parent t) ->
  try_finally (download env s (parent tmp) (name tmp) ;;
               if String.eqb (suffix t) ".mp3"
               then subprocess_run env (transcode_command tmp t)
               else rename env tmp t)
              (unlink tmp true) w
  = (Returned tt,
     mkWorld (dirs w) (delete tmp (<[t := Media s]> (delete tmp (files w))))
             (ticks w)
             (trace w ++ [EDownload s (parent tmp) (name tmp); ERename tmp t;
                          EUnlink tmp])).
Proof.
  intros Hopus. rewrite Hopus. apply video_block_complete.
Qed.

Lemma audio_block_transcoded env s tmp t w argv :
  String.eqb (suffix t) ".mp3" = true ->
  parent tmp ∈ dirs w -> str tmp ∉ dirs w -> net env s = Complete ->
  shlex_split (transcode_command tmp t) = Returned argv ->
  try_finally (download env s (parent tmp) (name tmp) ;;
               if String.eqb (suffix t) ".mp3"
               then subprocess_run env (transcode_command tmp t)
               else rename env tmp t)
              (unlink tmp true) w
  = let command := transcode_command tmp t in
    let fs := <[tmp := Media s]> (files w) in
    let r := proc env command fs in
    (if returncode r =? 0 then Returned tt
     else Raised (CalledProcessError (returncode r)),
     mkWorld (dirs w) (delete tmp (write_all (Encoded command) (leaves r) fs))
             (ticks w)
             (trace w ++ [EDownload s (parent tmp) (name tmp); ERun command;
                          EUnlink tmp])).
Proof.
  intros Hmp3 Hd Hf Hnet Hs. rewrite Hmp3. cbn zeta.
  set (command := transcode_command tmp t) in *.
  set (r := proc env command (<[tmp := Media s]> (files w))).
  assert (E : (download env s (parent tmp) (name tmp) ;; subprocess_run env command) w
    = (if returncode r =? 0 then Returned tt
       else Raised (CalledProcessError (returncode r)),
       mkWorld (dirs w)
               (write_all (Encoded command) (leaves r) (<[tmp := Media s]> (files w)))
               (ticks w)
               (trace w ++ [EDownload s (parent tmp) (name tmp); ERun command]))).
  { unfold bind. rewrite download_complete; rewrite ?joinpath_parent_name; try assumption.
    rewrite (subprocess_run_started _ _ _ _ Hs). cbn zeta. fold r.
    same_world. }
  rewrite finally_unlink_plain; rewrite E; [|exact Hf].
  same_world.
Qed.

Lemma audio_block_unsplit env s tmp t w :
  String.eqb (suffix t) ".mp3" = true ->
  parent tmp ∈ dirs w -> str tmp ∉ dirs w -> net env s = Complete ->
  shlex_split (transcode_command tmp t) = Raised ValueError ->
  try_finally (download env s (parent tmp) (name tmp) ;;
               if String.eqb (suffix t) ".mp3"
               then subprocess_run env (transcode_command tmp t)
               else rename env tmp t)
              (unlink tmp true) w
  = (Raised ValueError,
     mkWorld (dirs w) (delete tmp (files w)) (ticks w)
             (trace w ++ [EDownload s (parent tmp) (name tmp); EUnlink tmp])).
Proof.
  intros Hmp3 Hd Hf Hnet Hs. rewrite Hmp3.
  assert (E : (download env s (parent tmp) (name tmp) ;;
               subprocess_run env (transcode_command tmp t)) w
    = (Raised ValueError,
       mkWorld (dirs w) (<[tmp := Media s]> (files w)) (ticks w)
               (trace w ++ [EDownload s (parent tmp) (name tmp)]))).
  { unfold bind. rewrite download_complete; rewrite ?joinpath_parent_name; try assumption.
    now rewrite (subprocess_run_unsplit _ _ _ Hs). }
  rewrite finally_unlink_plain; rewrite E; [|exact Hf].
  cbn [fst snd dirs files ticks trace]. rewrite delete_insert_eq. same_world.
Qed.

(** ** The three operations, phase by phase *)

Lemma bad_target_log ev w t extensions e evs :
  bad_target w t extensions e evs -> bad_target (log ev w) t extensions e evs.
Proof. intros [Hp|Hp Hf|Hp Hf Hs]; now constructor. Qed.

Lemma valid_target_log ev w t extensions :
  valid_target w t extensions -> valid_target (log ev w) t extensions.
Proof. exact (fun H => H). Qed.

Lemma save_video_as_bad env self t w e evs :
  bad_target w t [".webm"] e evs ->
  save_video_as env self t w
  = (Raised e, add_events (ECall SaveVideoAs t :: evs) w).
Proof.
  intros H. unfold save_video_as, bind, emit.
  rewrite (validate_target_bad _ _ _ _ _ (bad_target_log _ _ _ _ _ _ H)).
  same_world.
Qed.

Lemma save_video_as_valid env self t w :
  valid_target w t [".webm"] ->
  save_video_as env self t w
  = let w1 := add_events [ECall SaveVideoAs t; EDirExists (parent t); EExists t;
                          EStreams (video self)] w in
    match catalog env (video self) with
    | Streams l =>
        match best_video_stream l with
        | Returned s =>
            let tmp := tmp_video_path env (clock env (ticks w)) in
            try_finally
              (download env s (parent tmp) (name tmp) ;; rename env tmp t)
              (unlink tmp true) (tick w1)
        | Raised e => (Raised e, w1)
        end
    | _ => (Raised VideoUnavailable, w1)
    end.
Proof.
  intros H. unfold save_video_as, bind at 1 2 3 4 5, emit.
  rewrite (validate_target_ok _ _ _ (valid_target_log _ _ _ _ H)).
  unfold streams, lift, now_strftime.
  destruct (catalog env (video self)) as [| |l]; cbn; same_world.
Qed.

Lemma save_audio_as_bad env self t w e evs :
  bad_target w t [".opus"; ".mp3"] e evs ->
  save_audio_as env self t w
  = (Raised e, add_events (ECall SaveAudioAs t :: evs) w).
Proof.
  intros H. unfold save_audio_as, bind, emit.
  rewrite (validate_target_bad _ _ _ _ _ (bad_target_log _ _ _ _ _ _ H)).
  same_world.
Qed.

Lemma save_audio_as_valid env self t w :
  valid_target w t [".opus"; ".mp3"] ->
  save_audio_as env self t w
  = let w1 := add_events [ECall SaveAudioAs t; EDirExists (parent t); EExists t;
                          EStreams (video self)] w in
    match catalog env (video self) with
    | Streams l =>
        match best_audio_stream l with
        | Returned s =>
            let tmp := tmp_audio_path env (clock env (ticks w)) in
            try_finally
              (download env s (parent tmp) (name tmp) ;;
               if String.eqb (suffix t) ".mp3"
               then subprocess_run env (transcode_command tmp t)
               else rename env tmp t)
              (unlink tmp true) (tick w1)
        | Raised e => (Raised e, w1)
        end
    | _ => (Raised VideoUnavailable, w1)
    end.
Proof.
  intros H. unfold save_audio_as, bind at 1 2 3 4 5, emit.
  rewrite (validate_target_ok _ _ _ (valid_target_log _ _ _ _ H)).
  unfold streams, lift, now_strftime.
  destruct (catalog env (video self)) as [| |l]; cbn; same_world.
Qed.

Lemma save_as_bad env self t w e evs :
  bad_target w t [".webm"] e evs ->
  save_as env self t w = (Raised e, add_events (ECall SaveAs t :: evs) w).
Proof.
  intros H. unfold save_as, bind, emit.
  rewrite (validate_target_bad _ _ _ _ _ (bad_target_log _ _ _ _ _ _ H)).
  same_world.
Qed.

Lemma save_as_valid env self t w :
  valid_target w t [".webm"] ->
  save_as env self t w
  = let tmp_video_file := tmp_video_path env (clock env (ticks w)) in
    let tmp_audio_file := tmp_audio_path env (clock env (ticks w)) in
    try_finally
      (save_video_as env self tmp_video_file ;;
       save_audio_as env self tmp_audio_file ;;
       subprocess_run env (mux_command tmp_video_file tmp_audio_file t))
      (unlink tmp_video_file true ;; unlink tmp_audio_file true)
      (tick (add_events [ECall SaveAs t; EDirExists (parent t); EExists t] w)).
Proof.
  intros H. unfold save_as, bind at 1 2 3, emit.
  rewrite (validate_target_ok _ _ _ (valid_target_log _ _ _ _ H)).
  unfold now_strftime. cbn. same_world.
Qed.

(** ** Destination validation *)

(** Settles a decidable closed proposition by evaluating its decision. *)
Ltac by_evaluation :=
  match goal with
  | |- ?P => apply (bool_decide_unpack P); vm_compute; exact I
  end.

(** C2. A destination that fails a pre-flight check is refused by every
    public operation with the exception of that check: nothing found at
    the parent path, [FileNotFoundError]; a file or a directory found at
    the destination, [FileExistsError]; extension outside the accepted set
    ([.webm] for the video and the combined operation, [.opus] and [.mp3]
    for the audio operation), [TypeError].  The operation then returns a
    world in which only its entry and the [exists()] queries of the checks
    were recorded: no network or process event, no change of the file
    system, directories, files and clock untouched. *)
Theorem bad_target_refused_first (env : Env) (self : YouTubeVideo) (w : World)
    (t : Path) (e : exn) (q : list Event) :
  (bad_target w t [".webm"] e q ->
   save_video_as env self t w
     = (Raised e, add_events (ECall SaveVideoAs t :: q) w) /\
   save_as env self t w
     = (Raised e, add_events (ECall SaveAs t :: q) w)) /\
  (bad_target w t [".opus"; ".mp3"] e q ->
   save_audio_as env self t w
     = (Raised e, add_events (ECall SaveAudioAs t :: q) w)) /\
  (forall extensions method, bad_target w t extensions e q ->
     forallb is_harmless (ECall method t :: q) = true /\
     (e = FileNotFoundError /\ string_exists w (parent t) = false \/
      e = FileExistsError /\ path_found w t = true \/
      e = TypeError /\ ~ In (suffix t) extensions)) /\
  (forall evs, dirs (add_events evs w) = dirs w /\
               files (add_events evs w) = files w /\
               ticks (add_events evs w) = ticks w).
Proof.
  split; [|split; [|split]].
  - intros H. split; [now apply save_video_as_bad|now apply save_as_bad].
  - intros H. now apply save_audio_as_bad.
  - intros extensions method [Hp|Hp Hf|Hp Hf Hs]; (split; [reflexivity|]); auto.
  - intros evs. now repeat split.
Qed.

Lemma bad_target_refused_first_witness :
  save_video_as (sample_env ticking_clock idle_process) sample_video
                (mkPath "/music" "clip.mp4") sample_world
    = (Raised TypeError,
       add_events [ECall SaveVideoAs (mkPath "/music" "clip.mp4");
                   EDirExists "/music"; EExists (mkPath "/music" "clip.mp4")]
                  sample_world) /\
  save_audio_as (sample_env ticking_clock idle_process) sample_video
                (mkPath "/" "music") sample_world
    = (Raised FileExistsError,
       add_events [ECall SaveAudioAs (mkPath "/" "music");
                   EDirExists "/"; EExists (mkPath "/" "music")] sample_world).
Proof.
  split.
  - apply (bad_target_refused_first (sample_env ticking_clock idle_process)
             sample_video sample_world (mkPath "/music" "clip.mp4")).
    apply (unsupported_extension sample_world (mkPath "/music" "clip.mp4")).
    + vm_compute. reflexivity.
    + vm_compute. reflexivity.
    + vm_compute. intros [H|[]]. discriminate H.
  - apply (bad_target_refused_first (sample_env ticking_clock idle_process)
             sample_video sample_world (mkPath "/" "music")).
    apply (destination_exists sample_world (mkPath "/" "music")).
    + vm_compute. reflexivity.
    + vm_compute. reflexivity.
Defined.

(** C9. The checks run in a fixed order: parent path, destination,
    extension.  A destination with an unsupported extension raises the
    parent-missing error after one query when nothing is found at its
    parent path, and the already-exists error after two when a file or a
    directory is found at the destination itself; only a free destination
    under an existing parent reaches the extension check. *)
Theorem validation_order (t : Path) (extensions : list string) (w : World)
    (Hext : ~ In (suffix t) extensions) :
  (string_exists w (parent t) = false ->
   validate_target t extensions w
   = (Raised FileNotFoundError, add_events [EDirExists (parent t)] w)) /\
  (string_exists w (parent t) = true -> path_found w t = true ->
   validate_target t extensions w
   = (Raised FileExistsError,
      add_events [EDirExists (parent t); EExists t] w)) /\
  (string_exists w (parent t) = true -> path_found w t = false ->
   validate_target t extensions w
   = (Raised TypeError, add_events [EDirExists (parent t); EExists t] w)).
Proof.
  repeat split; intros; apply validate_target_bad; now constructor.
Qed.

Lemma validation_order_witness :
  validate_target (mkPath "/nowhere" "clip.mp4") [".webm"] sample_world
    = (Raised FileNotFoundError, add_events [EDirExists "/nowhere"] sample_world) /\
  validate_target (mkPath "/music" "old.webm") [".opus"; ".mp3"] sample_world
    = (Raised FileExistsError,
       add_events [EDirExists "/music"; EExists (mkPath "/music" "old.webm")]
                  sample_world) /\
  validate_target (mkPath "/" "opt") [".webm"] sample_world
    = (Raised FileExistsError,
       add_events [EDirExists "/"; EExists (mkPath "/" "opt")] sample_world).
Proof.
  split; [|split].
  - apply (validation_order (mkPath "/nowhere" "clip.mp4") [".webm"] sample_world).
    + vm_compute. intros [H|[]]. discriminate H.
    + vm_compute. reflexivity.
  - apply (validation_order (mkPath "/music" "old.webm") [".opus"; ".mp3"]
                            sample_world).
    + vm_compute. intros [H|[H|[]]]; discriminate H.
    + vm_compute. reflexivity.
    + vm_compute. reflexivity.
  - apply (validation_order (mkPath "/" "opt") [".webm"] sample_world).
    + vm_compute. intros [H|[]]. discriminate H.
    + vm_compute. reflexivity.
    + vm_compute. reflexivity.
Defined.

(** ** The command line *)

(** C8. With [--version] set, [main] prints the version line and returns:
    the only event is the print, which is neither a file-system nor a
    network nor a process event, whatever the other arguments are. *)
Theorem version_short_circuits (env : Env) (arguments : Namespace) (w : World)
    (Hversion : version arguments = true) :
  main env arguments w = (Returned tt, add_events [EPrint "Version: 1"] w) /\
  is_filesystem (EPrint "Version: 1") = false /\
  is_network (EPrint "Version: 1") = false /\
  is_process (EPrint "Version: 1") = false.
Proof.
  unfold main. rewrite Hversion. repeat split.
Qed.

Lemma version_short_circuits_witness :
  main (sample_env ticking_clock idle_process)
       (mkNamespace "not a link" "/nowhere/x.txt" true true) sample_world
  = (Returned tt, add_events [EPrint "Version: 1"] sample_world).
Proof.
  apply (version_short_circuits (sample_env ticking_clock idle_process)
           (mkNamespace "not a link" "/nowhere/x.txt" true true) sample_world).
  reflexivity.
Defined.

(** ** The operations in general *)

Lemma filter_nothing {A} (f : A -> bool) (l : list A) :
  List.Forall (fun x => f x = false) l -> List.filter f l = [].
Proof.
  induction 1 as [|x l Hx _ IH]; [reflexivity|].
  cbn. now rewrite Hx.
Qed.

Lemma filter_is_call_app (a b : list Event) :
  List.filter is_call (a ++ b) = List.filter is_call a ++ List.filter is_call b.
Proof. apply List.filter_app. Qed.

Lemma filter_is_download_app (a b : list Event) :
  List.filter is_download (a ++ b)
  = List.filter is_download a ++ List.filter is_download b.
Proof. apply List.filter_app. Qed.

Lemma filter_is_process_app (a b : list Event) :
  List.filter is_process (a ++ b)
  = List.filter is_process a ++ List.filter is_process b.
Proof. apply List.filter_app. Qed.

(** Splits a goal [exists evs, trace _ = trace w ++ evs /\ P1 evs /\ ...]
    whose events are explicit. *)
Ltac explicit_events :=
  eexists; split;
  [ cbn [snd trace tick add_events log set_files set_dirs];
    rewrite <- ?app_assoc; cbn [app]; reflexivity
  | cbn; repeat split; try reflexivity; try lia; auto ].

(** The case of a call that failed before its download. *)
Ltac early_failure :=
  left; split; [eexists; reflexivity|split; reflexivity].

(** Every way a video call can go: its events, and what it leaves of the
    files, either untouched (it failed before the download), or without
    the temporary file (it failed later), or with the payload at the
    destination (it returned). *)
Lemma save_video_as_general env self t w :
  let r := save_video_as env self t w in
  let tmp := tmp_video_path env (clock env (ticks w)) in
  exists evs,
    trace (snd r) = trace w ++ evs /\
    List.filter is_call evs = [ECall SaveVideoAs t] /\
    (length (List.filter is_download evs) <= 1)%nat /\
    List.filter is_process evs = [] /\
    (dirs (snd r) = dirs w \/ dirs (snd r) = {[script_dir env]} ∪ dirs w) /\
    ((exists e, fst r = Raised e) /\ List.filter is_download evs = [] /\
     files (snd r) = files w \/
     (exists e, fst r = Raised e) /\ valid_target w t [".webm"] /\
     files (snd r) = delete tmp (files w) \/
     fst r = Returned tt /\ valid_target w t [".webm"] /\
     exists s, files (snd r) = delete tmp (<[t := Media s]> (delete tmp (files w)))).
Proof.
  cbn zeta.
  destruct (valid_or_bad w t [".webm"]) as [Hvalid|(e & evs & Hbad)].
  2: { rewrite (save_video_as_bad _ _ _ _ _ _ Hbad).
       destruct Hbad; explicit_events; early_failure. }
  rewrite (save_video_as_valid _ _ _ _ Hvalid).
  destruct (catalog env (video self)) as [| |l]; cbn zeta;
    try (explicit_events; early_failure).
  destruct (best_video_stream l) as [s|e]; [|explicit_events; early_failure].
  match goal with
  | |- context [try_finally _ _ ?w1] =>
      pose proof (video_block_general env s
                    (tmp_video_path env (clock env (ticks w))) t w1) as H
  end.
  cbn zeta in H. destruct H as (evs & Htr & Hall & _ & Hd & Hf).
  eexists. split; [rewrite Htr; cbn [trace tick add_events];
                   rewrite <- app_assoc; reflexivity|].
  cbn [app]. rewrite !filter_is_call_app || idtac.
  assert (Hc : List.filter is_call evs = []).
  { apply filter_nothing. eapply List.Forall_impl; [|exact Hall].
    intros x [->| ->]; reflexivity. }
  assert (Hdl : List.filter is_download evs = []).
  { apply filter_nothing. eapply List.Forall_impl; [|exact Hall].
    intros x [->| ->]; reflexivity. }
  assert (Hp : List.filter is_process evs = []).
  { apply filter_nothing. eapply List.Forall_impl; [|exact Hall].
    intros x [->| ->]; reflexivity. }
  cbn [List.filter is_call is_download is_process]. rewrite Hc, Hdl, Hp.
  split; [reflexivity|]. split; [cbn; lia|]. split; [reflexivity|].
  split; [exact Hd|].
  destruct Hf as [(He & Hf)|(Hr & _ & _ & _ & Hf)];
    [right; left; split; [exact He|split; [exact Hvalid|exact Hf]]|].
  right; right. split; [exact Hr|]. split; [exact Hvalid|]. now exists s.
Qed.

(** Every way an audio call can go. *)
Lemma save_audio_as_general env self t w :
  let r := save_audio_as env self t w in
  let tmp := tmp_audio_path env (clock env (ticks w)) in
  let command := transcode_command tmp t in
  exists evs,
    trace (snd r) = trace w ++ evs /\
    List.filter is_call evs = [ECall SaveAudioAs t] /\
    (length (List.filter is_download evs) <= 1)%nat /\
    (List.filter is_process evs = [] \/
     suffix t = ".mp3" /\ List.filter is_process evs = [ERun command]) /\
    (dirs (snd r) = dirs w \/ dirs (snd r) = {[script_dir env]} ∪ dirs w) /\
    ((exists e, fst r = Raised e) /\ List.filter is_download evs = [] /\
     files (snd r) = files w \/
     (exists e, fst r = Raised e) /\ valid_target w t [".opus"; ".mp3"] /\
     files (snd r) = delete tmp (files w) \/
     suffix t <> ".mp3" /\ fst r = Returned tt /\
     valid_target w t [".opus"; ".mp3"] /\
     (exists s, files (snd r) = delete tmp (<[t := Media s]> (delete tmp (files w)))) \/
     suffix t = ".mp3" /\ valid_target w t [".opus"; ".mp3"] /\
     exists s,
       let p := proc env command (<[tmp := Media s]> (files w)) in
       fst r = (if returncode p =? 0 then Returned tt
                else Raised (CalledProcessError (returncode p))) /\
       files (snd r)
       = delete tmp (write_all (Encoded command) (leaves p)
                               (<[tmp := Media s]> (files w)))).
Proof.
  cbn zeta.
  destruct (valid_or_bad w t [".opus"; ".mp3"]) as [Hvalid|(e & evs & Hbad)].
  2: { rewrite (save_audio_as_bad _ _ _ _ _ _ Hbad).
       destruct Hbad; explicit_events; early_failure. }
  rewrite (save_audio_as_valid _ _ _ _ Hvalid).
  destruct (catalog env (video self)) as [| |l]; cbn zeta;
    try (explicit_events; early_failure).
  destruct (best_audio_stream l) as [s|e]; [|explicit_events; early_failure].
  match goal with
  | |- context [try_finally _ _ ?w1] =>
      pose proof (audio_block_general env s
                    (tmp_audio_path env (clock env (ticks w))) t w1) as H
  end.
  cbn zeta in H. destruct H as (evs & Htr & Hall & Hproc & _ & Hd & Hf).
  eexists. split; [rewrite Htr; cbn [trace tick add_events];
                   rewrite <- app_assoc; reflexivity|].
  cbn [app].
  assert (Hc : List.filter is_call evs = []).
  { apply filter_nothing. eapply List.Forall_impl; [|exact Hall].
    intros x [->|[->|(_ & ->)]]; reflexivity. }
  assert (Hdl : List.filter is_download evs = []).
  { apply filter_nothing. eapply List.Forall_impl; [|exact Hall].
    intros x [->|[->|(_ & ->)]]; reflexivity. }
  cbn [List.filter is_call is_download is_process]. rewrite Hc, Hdl.
  split; [reflexivity|]. split; [cbn; lia|]. split; [exact Hproc|].
  split; [exact Hd|].
  destruct Hf as [(He & Hf)|[(Hs & Hr & _ & _ & _ & Hf)|(Hs & _ & _ & Hr & Hf)]].
  - right; left. split; [exact He|split; [exact Hvalid|exact Hf]].
  - right; right; left. split; [exact Hs|]. split; [exact Hr|].
    split; [exact Hvalid|]. now exists s.
  - right; right; right. split; [exact Hs|]. split; [exact Hvalid|].
    exists s. cbn zeta. now split.
Qed.

(** ** The operations when nothing is in the way *)

Lemma save_video_as_complete env self t w l s :
  valid_target w t [".webm"] ->
  catalog env (video self) = Streams l ->
  best_video_stream l = Returned s ->
  net env s = Complete ->
  script_dir env ∈ dirs w ->
  str (tmp_video_path env (clock env (ticks w))) ∉ dirs w ->
  parent t ∈ dirs w ->
  device env (script_dir env) = device env (parent t) ->
  save_video_as env self t w
  = let tmp := tmp_video_path env (clock env (ticks w)) in
    (Returned tt,
     mkWorld (dirs w)
             (delete tmp (<[t := Media s]> (delete tmp (files w))))
             (S (ticks w))
             (trace w ++ [ECall SaveVideoAs t; EDirExists (parent t); EExists t;
                          EStreams (video self);
                          EDownload s (script_dir env) (name tmp);
                          ERename tmp t; EUnlink tmp])).
Proof.
  intros Hvalid Hcat Hbest Hnet Hdir Hnodir Hparent Hdev.
  rewrite (save_video_as_valid _ _ _ _ Hvalid), Hcat, Hbest.
  cbn zeta. rewrite video_block_complete; try assumption.
  - same_world.
  - apply Hvalid.
Qed.

Lemma save_audio_as_renamed env self t w l s :
  valid_target w t [".opus"; ".mp3"] ->
  String.eqb (suffix t) ".mp3" = false ->
  catalog env (video self) = Streams l ->
  best_audio_stream l = Returned s ->
  net env s = Complete ->
  script_dir env ∈ dirs w ->
  str (tmp_audio_path env (clock env (ticks w))) ∉ dirs w ->
  parent t ∈ dirs w ->
  device env (script_dir env) = device env (parent t) ->
  save_audio_as env self t w
  = let tmp := tmp_audio_path env (clock env (ticks w)) in
    (Returned tt,
     mkWorld (dirs w)
             (delete tmp (<[t := Media s]> (delete tmp (files w))))
             (S (ticks w))
             (trace w ++ [ECall SaveAudioAs t; EDirExists (parent t); EExists t;
                          EStreams (video self);
                          EDownload s (script_dir env) (name tmp);
                          ERename tmp t; EUnlink tmp])).
Proof.
  intros Hvalid Hopus Hcat Hbest Hnet Hdir Hnodir Hparent Hdev.
  rewrite (save_audio_as_valid _ _ _ _ Hvalid), Hcat, Hbest.
  cbn zeta. rewrite audio_block_renamed; try assumption.
  - same_world.
  - apply Hvalid.
Qed.

Lemma save_audio_as_transcoded env self t w l s argv :
  valid_target w t [".opus"; ".mp3"] ->
  String.eqb (suffix t) ".mp3" = true ->
  catalog env (video self) = Streams l ->
  best_audio_stream l = Returned s ->
  net env s = Complete ->
  script_dir env ∈ dirs w ->
  str (tmp_audio_path env (clock env (ticks w))) ∉ dirs w ->
  shlex_split (transcode_command (tmp_audio_path env (clock env (ticks w))) t)
  = Returned argv ->
  save_audio_as env self t w
  = let tmp := tmp_audio_path env (clock env (ticks w)) in
    let command := transcode_command tmp t in
    let fs := <[tmp := Media s]> (files w) in
    let r := proc env command fs in
    (if returncode r =? 0 then Returned tt
     else Raised (CalledProcessError (returncode r)),
     mkWorld (dirs w) (delete tmp (write_all (Encoded command) (leaves r) fs))
             (S (ticks w))
             (trace w ++ [ECall SaveAudioAs t; EDirExists (parent t); EExists t;
                          EStreams (video self);
                          EDownload s (script_dir env) (name tmp);
                          ERun command; EUnlink tmp])).
Proof.
  intros Hvalid Hmp3 Hcat Hbest Hnet Hdir Hnodir Hsplit.
  rewrite (save_audio_as_valid _ _ _ _ Hvalid), Hcat, Hbest.
  cbn zeta. rewrite (audio_block_transcoded _ _ _ _ _ argv); try assumption.
  cbn zeta. same_world.
Qed.

Lemma save_audio_as_unsplit env self t w l s :
  valid_target w t [".opus"; ".mp3"] ->
  String.eqb (suffix t) ".mp3" = true ->
  catalog env (video self) = Streams l ->
  best_audio_stream l = Returned s ->
  net env s = Complete ->
  script_dir env ∈ dirs w ->
  str (tmp_audio_path env (clock env (ticks w))) ∉ dirs w ->
  shlex_split (transcode_command (tmp_audio_path env (clock env (ticks w))) t)
  = Raised ValueError ->
  save_audio_as env self t w
  = let tmp := tmp_audio_path env (clock env (ticks w)) in
    (Raised ValueError,
     mkWorld (dirs w) (delete tmp (files w)) (S (ticks w))
             (trace w ++ [ECall SaveAudioAs t; EDirExists (parent t); EExists t;
                          EStreams (video self);
                          EDownload s (script_dir env) (name tmp);
                          EUnlink tmp])).
Proof.
  intros Hvalid Hmp3 Hcat Hbest Hnet Hdir Hnodir Hsplit.
  rewrite (save_audio_as_valid _ _ _ _ Hvalid), Hcat, Hbest.
  cbn zeta. rewrite audio_block_unsplit; try assumption.
  same_world.
Qed.

Lemma valid_tmp_video env w stamp :
  script_dir env ∈ dirs w ->
  files w !! tmp_video_path env stamp = None ->
  str (tmp_video_path env stamp) ∉ dirs w ->
  valid_target w (tmp_video_path env stamp) [".webm"].
Proof.
  intros Hd Hf Hn. split; [now apply string_exists_dir|].
  split; [exact Hf|]. split; [exact Hn|].
  rewrite suffix_tmp_video. now left.
Qed.

Lemma valid_tmp_audio env w stamp :
  script_dir env ∈ dirs w ->
  files w !! tmp_audio_path env stamp = None ->
  str (tmp_audio_path env stamp) ∉ dirs w ->
  valid_target w (tmp_audio_path env stamp) [".opus"; ".mp3"].
Proof.
  intros Hd Hf Hn. split; [now apply string_exists_dir|].
  split; [exact Hf|]. split; [exact Hn|].
  rewrite suffix_tmp_audio. now left.
Qed.

(** ** The [finally] clause of the combined operation *)

Lemma lookup_delete_absent (f : gmap Path Content) tmp p :
  f !! p = None -> delete tmp f !! p = None.
Proof.
  intros Hf. destruct (decide (tmp = p)) as [->|Hp].
  - apply lookup_delete_eq.
  - now rewrite lookup_delete_ne.
Qed.

Lemma cleanup_plain tv ta w :
  str tv ∉ dirs w -> str ta ∉ dirs w ->
  (unlink tv true ;; unlink ta true) w
  = (Returned tt,
     mkWorld (dirs w) (delete ta (delete tv (files w))) (ticks w)
             (trace w ++ [EUnlink tv; EUnlink ta])).
Proof.
  intros Hv Ha. unfold bind. rewrite (unlink_missing_ok _ _ Hv).
  rewrite unlink_missing_ok by exact Ha. same_world.
Qed.

(** In general the two unlinks keep directories and clock, record only
    themselves, remove what they reach, and raise only on a directory. *)
Lemma cleanup_general tv ta w :
  let c := (unlink tv true ;; unlink ta true) w in
  dirs (snd c) = dirs w /\ ticks (snd c) = ticks w /\
  (exists evs, trace (snd c) = trace w ++ evs /\
     Forall (fun e => e = EUnlink tv \/ e = EUnlink ta) evs) /\
  (files (snd c) = delete ta (delete tv (files w)) \/
   str tv ∈ dirs w /\ files w !! tv = None /\ files (snd c) = files w) /\
  (fst c = Returned tt \/
   fst c = Raised IsADirectoryError /\ (str tv ∈ dirs w \/ str ta ∈ dirs w)).
Proof.
  cbn zeta. unfold bind. rewrite unlink_run.
  destruct (negb _ && _) eqn:E.
  - apply andb_true_iff in E as (Hf & Hd). apply is_directory_spec in Hd.
    unfold has_file in Hf. destruct (files w !! tv) eqn:Hl; [cbn in Hf; discriminate Hf|].
    cbn [fst snd dirs files ticks trace log].
    split; [reflexivity|]. split; [reflexivity|].
    split; [exists [EUnlink tv]; split; [reflexivity|listed]|].
    split; [right; now repeat split|right; split; [reflexivity|now left]].
  - clear E. rewrite unlink_run. cbn [dirs files ticks trace].
    destruct (negb _ && _) eqn:E2; cbn [fst snd dirs files ticks trace log].
    + apply andb_true_iff in E2 as (Hf & Hd).
      unfold is_directory in Hd. cbn [dirs] in Hd. apply bool_decide_eq_true in Hd.
      unfold has_file in Hf. cbn [files] in Hf.
      destruct (delete tv (files w) !! ta) eqn:Hl; [cbn in Hf; discriminate Hf|].
      split; [reflexivity|]. split; [reflexivity|].
      split; [exists [EUnlink tv; EUnlink ta]; split;
              [now rewrite <- app_assoc|listed]|].
      split; [left; now rewrite (delete_id _ _ Hl)|].
      right; split; [reflexivity|now right].
    + split; [reflexivity|]. split; [reflexivity|].
      split; [exists [EUnlink tv; EUnlink ta]; split;
              [now rewrite <- app_assoc|listed]|].
      split; [now left|now left].
Qed.

Lemma combined_finally_plain {A} (body : M A) tv ta w :
  str tv ∉ dirs (snd (body w)) -> str ta ∉ dirs (snd (body w)) ->
  try_finally body (unlink tv true ;; unlink ta true) w
  = (fst (body w),
     mkWorld (dirs (snd (body w)))
             (delete ta (delete tv (files (snd (body w)))))
             (ticks (snd (body w)))
             (trace (snd (body w)) ++ [EUnlink tv; EUnlink ta])).
Proof.
  intros Hv Ha. unfold try_finally. destruct (body w) as [r wb].
  cbn [fst snd] in *. now rewrite (cleanup_plain _ _ _ Hv Ha).
Qed.

Lemma combined_finally {A} (body : M A) tv ta w :
  let b := body w in
  let r := try_finally body (unlink tv true ;; unlink ta true) w in
  dirs (snd r) = dirs (snd b) /\ ticks (snd r) = ticks (snd b) /\
  (exists evs, trace (snd r) = trace (snd b) ++ evs /\
     Forall (fun e => e = EUnlink tv \/ e = EUnlink ta) evs) /\
  (files (snd r) = delete ta (delete tv (files (snd b))) \/
   str tv ∈ dirs (snd b) /\ files (snd b) !! tv = None /\
   files (snd r) = files (snd b)) /\
  (fst r = fst b \/
   fst r = Raised IsADirectoryError /\
   (str tv ∈ dirs (snd b) \/ str ta ∈ dirs (snd b))).
Proof.
  cbn zeta. unfold try_finally. destruct (body w) as [r wb].
  pose proof (cleanup_general tv ta wb) as H. cbn zeta in H.
  destruct ((unlink tv true ;; unlink ta true) wb) as [[[]|e] wc];
    cbn [fst snd] in *; destruct H as (Hd & Ht & Hev & Hf & Hr);
    (split; [exact Hd|]); (split; [exact Ht|]); (split; [exact Hev|]);
    (split; [exact Hf|]).
  - now left.
  - destruct Hr as [Hr|(Hr & Hdir)]; [discriminate Hr|].
    injection Hr as ->. right. split; [reflexivity|exact Hdir].
Qed.

(** ** What the operations create and what they keep *)

Lemma write_all_lookup_notin c ps (f : gmap Path Content) p :
  ~ In p ps -> write_all c ps f !! p = f !! p.
Proof.
  induction ps as [|q ps IH]; intros Hp; [reflexivity|].
  cbn. rewrite lookup_insert_ne by (intros ->; apply Hp; now left).
  apply IH. intros H. apply Hp. now right.
Qed.

(** Looking up [p] in [delete tmp (<[t := c]> (delete tmp f))]. *)
Lemma lookup_renamed_away (f : gmap Path Content) tmp t c p :
  f !! p = None -> p <> t ->
  delete tmp (<[t := c]> (delete tmp f)) !! p = None.
Proof.
  intros Hf Hne. destruct (decide (tmp = p)) as [->|Hp].
  - apply lookup_delete_eq.
  - rewrite lookup_delete_ne, lookup_insert_ne, lookup_delete_ne by congruence.
    exact Hf.
Qed.

Lemma lookup_renamed_kept (f : gmap Path Content) tmp t c0 p c :
  f !! p = Some c -> p <> tmp -> p <> t ->
  delete tmp (<[t := c0]> (delete tmp f)) !! p = Some c.
Proof.
  intros Hf Htmp Ht.
  rewrite lookup_delete_ne, lookup_insert_ne, lookup_delete_ne by congruence.
  exact Hf.
Qed.

Lemma lookup_delete_kept (f : gmap Path Content) tmp p c :
  f !! p = Some c -> p <> tmp -> delete tmp f !! p = Some c.
Proof. intros Hf Htmp. now rewrite lookup_delete_ne by congruence. Qed.

Lemma in_script_dir_video env stamp p :
  parent p <> script_dir env -> p <> tmp_video_path env stamp.
Proof. intros Hp ->. now apply Hp. Qed.

Lemma in_script_dir_audio env stamp p :
  parent p <> script_dir env -> p <> tmp_audio_path env stamp.
Proof. intros Hp ->. now apply Hp. Qed.

(** The video operation creates no file except, when it returns, its
    target. *)
Lemma save_video_as_creates env self t w p :
  files w !! p = None ->
  p <> t \/ (exists e, fst (save_video_as env self t w) = Raised e) ->
  files (snd (save_video_as env self t w)) !! p = None.
Proof.
  intros Hf Hcase.
  pose proof (save_video_as_general env self t w) as H. cbn zeta in H.
  destruct H as (evs & _ & _ & _ & _ & _ & [(_ & _ & E)|[(_ & _ & E)|(Hr & _ & s & E)]]);
    rewrite E.
  - exact Hf.
  - now apply lookup_delete_absent.
  - apply lookup_renamed_away; [exact Hf|].
    destruct Hcase as [Hne|(e & He)]; [exact Hne|].
    rewrite Hr in He. discriminate He.
Qed.

(** The audio operation to a destination other than [.mp3] creates no file
    except, when it returns, its target. *)
Lemma save_audio_as_creates env self t w p :
  String.eqb (suffix t) ".mp3" = false ->
  files w !! p = None ->
  p <> t \/ (exists e, fst (save_audio_as env self t w) = Raised e) ->
  files (snd (save_audio_as env self t w)) !! p = None.
Proof.
  intros Hopus Hf Hcase. apply String.eqb_neq in Hopus.
  pose proof (save_audio_as_general env self t w) as H. cbn zeta in H.
  destruct H as (evs & _ & _ & _ & _ & _ &
                 [(_ & _ & E)|[(_ & _ & E)|[(_ & Hr & _ & s & E)|(Hs & _)]]]);
    [rewrite E..|contradiction].
  - exact Hf.
  - now apply lookup_delete_absent.
  - apply lookup_renamed_away; [exact Hf|].
    destruct Hcase as [Hne|(e & He)]; [exact Hne|].
    rewrite Hr in He. discriminate He.
Qed.

(** A failed audio operation leaves no destination behind unless the
    encoder did. *)
Lemma save_audio_as_failure env self t w e :
  clean_on_failure env t ->
  files w !! t = None ->
  fst (save_audio_as env self t w) = Raised e ->
  files (snd (save_audio_as env self t w)) !! t = None.
Proof.
  intros Hclean Hf He.
  pose proof (save_audio_as_general env self t w) as H. cbn zeta in H.
  destruct H as (evs & _ & _ & _ & _ & _ &
                 [(_ & _ & E)|[(_ & _ & E)|[(_ & Hr & _)|(Hs & _ & s & Hr & E)]]]).
  - now rewrite E.
  - rewrite E. now apply lookup_delete_absent.
  - rewrite Hr in He. discriminate He.
  - cbn zeta in Hr, E. rewrite E. apply lookup_delete_absent.
    rewrite Hr in He.
    destruct (returncode _ =? 0) eqn:Z; [discriminate He|].
    rewrite write_all_lookup_notin by (apply Hclean; lia).
    destruct (decide (tmp_audio_path env (clock env (ticks w)) = t)) as [Et|Et].
    + exfalso. rewrite <- Et, suffix_tmp_audio in Hs. discriminate Hs.
    + now rewrite lookup_insert_ne.
Qed.

Lemma save_video_as_keeps env self t w p c :
  parent p <> script_dir env ->
  files w !! p = Some c ->
  files (snd (save_video_as env self t w)) !! p = Some c.
Proof.
  intros Hp Hf.
  pose proof (in_script_dir_video env (clock env (ticks w)) p Hp) as Htmp.
  pose proof (save_video_as_general env self t w) as H. cbn zeta in H.
  destruct H as (evs & _ & _ & _ & _ & _ &
                 [(_ & _ & E)|[(_ & _ & E)|(_ & Hvalid & s & E)]]); rewrite E.
  - exact Hf.
  - now apply lookup_delete_kept.
  - apply lookup_renamed_kept; [exact Hf|exact Htmp|].
    intros ->. destruct Hvalid as (_ & Hnone & _). congruence.
Qed.

Lemma save_audio_as_keeps env self t w p c :
  parent p <> script_dir env ->
  untouched_by_processes env p ->
  files w !! p = Some c ->
  files (snd (save_audio_as env self t w)) !! p = Some c.
Proof.
  intros Hp Hproc Hf.
  pose proof (in_script_dir_audio env (clock env (ticks w)) p Hp) as Htmp.
  pose proof (save_audio_as_general env self t w) as H. cbn zeta in H.
  destruct H as (evs & _ & _ & _ & _ & _ &
                 [(_ & _ & E)|[(_ & _ & E)|[(_ & _ & Hvalid & s & E)
                                       |(_ & _ & s & _ & E)]]]);
    cbn zeta in E; rewrite E.
  - exact Hf.
  - now apply lookup_delete_kept.
  - apply lookup_renamed_kept; [exact Hf|exact Htmp|].
    intros ->. destruct Hvalid as (_ & Hnone & _). congruence.
  - apply lookup_delete_kept; [|exact Htmp].
    rewrite write_all_lookup_notin by apply Hproc.
    now rewrite lookup_insert_ne by congruence.
Qed.

(** ** The combined operation, stage by stage *)

Lemma dirs_grown_in (D' D : gset string) (x : string) :
  D' = D \/ D' = {[x]} ∪ D -> forall d, d ∈ D' -> d = x \/ d ∈ D.
Proof.
  intros [->| ->] d Hd; [now right|].
  apply elem_of_union in Hd as [Hd|Hd]; [left|now right].
  now apply elem_of_singleton in Hd.
Qed.

(** The body of [save_as]: where it stops, and with which events. *)
Lemma save_as_body_general env self tv ta t w1 :
  String.eqb (suffix ta) ".mp3" = false ->
  let body := save_video_as env self tv ;;
              save_audio_as env self ta ;;
              subprocess_run env (mux_command tv ta t) in
  exists evs, trace (snd (body w1)) = trace w1 ++ evs /\
    (forall d, d ∈ dirs (snd (body w1)) -> d = script_dir env \/ d ∈ dirs w1) /\
    ((exists e, fst (save_video_as env self tv w1) = Raised e /\
                fst (body w1) = Raised e /\
                List.filter is_call evs = [ECall SaveVideoAs tv] /\
                (length (List.filter is_download evs) <= 1)%nat /\
                List.filter is_process evs = []) \/
     (exists w2 e, save_video_as env self tv w1 = (Returned tt, w2) /\
                   fst (save_audio_as env self ta w2) = Raised e /\
                   fst (body w1) = Raised e /\
                   List.filter is_call evs
                   = [ECall SaveVideoAs tv; ECall SaveAudioAs ta] /\
                   (length (List.filter is_download evs) <= 2)%nat /\
                   List.filter is_process evs = []) \/
     (exists w2 w3, save_video_as env self tv w1 = (Returned tt, w2) /\
                    save_audio_as env self ta w2 = (Returned tt, w3) /\
                    body w1 = subprocess_run env (mux_command tv ta t) w3 /\
                    List.filter is_call evs
                    = [ECall SaveVideoAs tv; ECall SaveAudioAs ta] /\
                    (length (List.filter is_download evs) <= 2)%nat /\
                    (List.filter is_process evs = [] \/
                     List.filter is_process evs = [ERun (mux_command tv ta t)]))).
Proof.
  intros Hopus body. unfold body, bind.
  pose proof (save_video_as_general env self tv w1) as H1. cbn zeta in H1.
  destruct H1 as (evs1 & Ht1 & Hc1 & Hd1 & Hp1 & Hdirs1 & _).
  pose proof (dirs_grown_in _ _ _ Hdirs1) as Hin1.
  destruct (save_video_as env self tv w1) as [[[]|e1] w2] eqn:Ev;
    cbn [fst snd] in *.
  2: { exists evs1. split; [exact Ht1|]. split; [exact Hin1|].
       left. exists e1. now repeat split. }
  pose proof (save_audio_as_general env self ta w2) as H2. cbn zeta in H2.
  destruct H2 as (evs2 & Ht2 & Hc2 & Hd2 & Hp2 & Hdirs2 & _).
  pose proof (dirs_grown_in _ _ _ Hdirs2) as Hin2.
  assert (Hp2' : List.filter is_process evs2 = []).
  { destruct Hp2 as [H|(Hs & _)]; [exact H|].
    apply String.eqb_neq in Hopus. contradiction. }
  assert (Hin : forall d, d ∈ dirs (snd (save_audio_as env self ta w2)) ->
                          d = script_dir env \/ d ∈ dirs w1).
  { intros d Hd. apply Hin2 in Hd as [Hd|Hd]; [now left|]. now apply Hin1. }
  destruct (save_audio_as env self ta w2) as [[[]|e2] w3] eqn:Ea;
    cbn [fst snd] in *.
  2: { exists (evs1 ++ evs2).
       split; [now rewrite Ht2, Ht1, <- app_assoc|]. split; [exact Hin|].
       right; left. exists w2, e2. rewrite Ea.
       rewrite !filter_is_call_app, !filter_is_download_app,
         !filter_is_process_app, Hc1, Hc2, Hp1, Hp2', !length_app.
       repeat split. lia. }
  destruct (subprocess_run_cases env (mux_command tv ta t) w3)
    as [(Hs & E)|(argv & Hs & E)]; cbn zeta in E; rewrite E.
  - exists (evs1 ++ evs2).
    split; [cbn [snd]; now rewrite Ht2, Ht1, <- app_assoc|]. split; [exact Hin|].
    right; right. exists w2, w3. rewrite Ea, ?E.
    rewrite !filter_is_call_app, !filter_is_download_app,
      !filter_is_process_app, Hc1, Hc2, Hp1, Hp2', !length_app.
    do 4 (split; [reflexivity|]). split; [lia|now left].
  - exists (evs1 ++ evs2 ++ [ERun (mux_command tv ta t)]).
    split; [cbn [snd trace]; now rewrite Ht2, Ht1, <- !app_assoc|].
    split; [exact Hin|].
    right; right. exists w2, w3. rewrite Ea, ?E.
    rewrite !filter_is_call_app, !filter_is_download_app,
      !filter_is_process_app, Hc1, Hc2, Hp1, Hp2', !length_app.
    cbn [List.filter is_call is_download is_process length].
    rewrite ?app_nil_r, ?Nat.add_0_r.
    do 4 (split; [reflexivity|]). split; [lia|now right].
Qed.

Lemma unlinks_are_quiet tv ta (evs : list Event) :
  Forall (fun e => e = EUnlink tv \/ e = EUnlink ta) evs ->
  List.filter is_call evs = [] /\ List.filter is_download evs = [] /\
  List.filter is_process evs = [].
Proof.
  intros Hall. repeat split; apply filter_nothing;
    (eapply List.Forall_impl; [|exact Hall]); intros x [->| ->]; reflexivity.
Qed.

(** No directory appears at a temporary path during the body. *)
Lemma tmp_video_stays_plain env stamp (D' D : gset string) :
  (forall d, d ∈ D' -> d = script_dir env \/ d ∈ D) ->
  str (tmp_video_path env stamp) ∉ D -> str (tmp_video_path env stamp) ∉ D'.
Proof.
  intros Hin Hn Hd. apply Hin in Hd as [Hd|Hd]; [|contradiction].
  now apply str_tmp_video_not_dir in Hd.
Qed.

Lemma tmp_audio_stays_plain env stamp (D' D : gset string) :
  (forall d, d ∈ D' -> d = script_dir env \/ d ∈ D) ->
  str (tmp_audio_path env stamp) ∉ D -> str (tmp_audio_path env stamp) ∉ D'.
Proof.
  intros Hin Hn Hd. apply Hin in Hd as [Hd|Hd]; [|contradiction].
  now apply str_tmp_audio_not_dir in Hd.
Qed.

(** The three ways a valid combined call can end, with its events.  The
    exception of a failed stage is the exception of the call unless the
    [finally] clause meets a directory at a temporary path. *)
Lemma save_as_stages env self t w :
  valid_target w t [".webm"] ->
  let tv := tmp_video_path env (clock env (ticks w)) in
  let ta := tmp_audio_path env (clock env (ticks w)) in
  let w1 := tick (add_events [ECall SaveAs t; EDirExists (parent t); EExists t] w) in
  exists evs, trace (snd (save_as env self t w)) = trace w ++ evs /\
    ((exists e, fst (save_video_as env self tv w1) = Raised e /\
                (str tv ∉ dirs w -> str ta ∉ dirs w ->
                 fst (save_as env self t w) = Raised e) /\
                List.filter is_call evs = [ECall SaveAs t; ECall SaveVideoAs tv] /\
                (length (List.filter is_download evs) <= 1)%nat /\
                List.filter is_process evs = []) \/
     (exists w2 e, save_video_as env self tv w1 = (Returned tt, w2) /\
                   fst (save_audio_as env self ta w2) = Raised e /\
                   (str tv ∉ dirs w -> str ta ∉ dirs w ->
                    fst (save_as env self t w) = Raised e) /\
                   List.filter is_call evs
                   = [ECall SaveAs t; ECall SaveVideoAs tv; ECall SaveAudioAs ta] /\
                   (length (List.filter is_download evs) <= 2)%nat /\
                   List.filter is_process evs = []) \/
     (exists w2 w3, save_video_as env self tv w1 = (Returned tt, w2) /\
                    save_audio_as env self ta w2 = (Returned tt, w3) /\
                    List.filter is_call evs
                    = [ECall SaveAs t; ECall SaveVideoAs tv; ECall SaveAudioAs ta] /\
                    (length (List.filter is_download evs) <= 2)%nat /\
                    (List.filter is_process evs = [] \/
                     List.filter is_process evs = [ERun (mux_command tv ta t)]))).
Proof.
  intros Hvalid tv ta w1.
  rewrite (save_as_valid _ _ _ _ Hvalid). cbn zeta. fold tv ta w1.
  set (body := save_video_as env self tv ;; _).
  pose proof (combined_finally body tv ta w1) as H. cbn zeta in H.
  destruct H as (_ & _ & (evsc & Htr & Hall) & _ & Hr).
  destruct (unlinks_are_quiet _ _ _ Hall) as (Hcc & Hdc & Hpc).
  pose proof (save_as_body_general env self tv ta t w1) as Hb.
  cbn zeta in Hb. fold body in Hb.
  destruct Hb as (evsb & Htb & Hin & Hcases);
    [unfold ta; now rewrite suffix_tmp_audio|].
  assert (Hfst : str tv ∉ dirs w -> str ta ∉ dirs w ->
                 fst (try_finally body (unlink tv true ;; unlink ta true) w1)
                 = fst (body w1)).
  { intros Hv Ha. destruct Hr as [Hr|(_ & [Hd|Hd])]; [exact Hr|exfalso..].
    - revert Hd. now apply (tmp_video_stays_plain env _ _ (dirs w)).
    - revert Hd. now apply (tmp_audio_stays_plain env _ _ (dirs w)). }
  exists ([ECall SaveAs t; EDirExists (parent t); EExists t] ++ evsb ++ evsc).
  split; [rewrite Htr, Htb; cbn [trace tick add_events w1];
          now rewrite <- !app_assoc|].
  rewrite !filter_is_call_app, !filter_is_download_app, !filter_is_process_app,
    Hcc, Hdc, Hpc, !app_nil_r, !length_app.
  cbn [List.filter is_call is_download is_process length app Nat.add].
  destruct Hcases as [(e & Hv & Hbe & Hc & Hd & Hp)
                     |[(w2 & e & Hv & Ha & Hbe & Hc & Hd & Hp)
                      |(w2 & w3 & Hv & Ha & _ & Hc & Hd & Hp)]].
  - left. exists e. rewrite Hc, Hp. split; [exact Hv|].
    split; [intros Hnv Hna; now rewrite Hfst|]. now repeat split.
  - right; left. exists w2, e. rewrite Hc, Hp. split; [exact Hv|].
    split; [exact Ha|]. split; [intros Hnv Hna; now rewrite Hfst|].
    now repeat split.
  - right; right. exists w2, w3. rewrite Hc. now repeat split.
Qed.

(** ** The combined operation when nothing is in the way *)

(** The events of a combined call up to the end of its audio stage. *)
Lemma combined_events_split env self t w s a :
  combined_events env self t w s a
  = removelast (removelast (removelast (combined_events env self t w s a)))
    ++ [ERun (mux_command (tmp_video_path env (clock env (ticks w)))
                          (tmp_audio_path env (clock env (ticks w))) t);
        EUnlink (tmp_video_path env (clock env (ticks w)));
        EUnlink (tmp_audio_path env (clock env (ticks w)))].
Proof. reflexivity. Qed.

(** The two stages of a combined call whose downloads complete: what
    follows them finds the files of [files_before_mux]. *)
Lemma save_as_two_stages env self t w l s a (next : M unit) :
  script_dir env ∈ dirs w ->
  files w !! tmp_video_path env (clock env (ticks w)) = None ->
  files w !! tmp_audio_path env (clock env (ticks w)) = None ->
  str (tmp_video_path env (clock env (ticks w))) ∉ dirs w ->
  str (tmp_audio_path env (clock env (ticks w))) ∉ dirs w ->
  str (tmp_video_path env (clock env (S (ticks w)))) ∉ dirs w ->
  str (tmp_audio_path env (clock env (S (S (ticks w))))) ∉ dirs w ->
  catalog env (video self) = Streams l ->
  best_video_stream l = Returned s ->
  best_audio_stream l = Returned a ->
  net env s = Complete ->
  net env a = Complete ->
  (save_video_as env self (tmp_video_path env (clock env (ticks w))) ;;
   save_audio_as env self (tmp_audio_path env (clock env (ticks w))) ;;
   next)
    (tick (add_events [ECall SaveAs t; EDirExists (parent t); EExists t] w))
  = next
      (mkWorld (dirs w) (files_before_mux env w s a) (S (S (S (ticks w))))
               (trace w ++ removelast (removelast (removelast
                             (combined_events env self t w s a))))).
Proof.
  intros Hdir Hfree_v Hfree_a Hplain_v Hplain_a Hplain_iv Hplain_ia
         Hcat Hbv Hba Hnet_v Hnet_a.
  set (tv := tmp_video_path env (clock env (ticks w))) in *.
  set (ta := tmp_audio_path env (clock env (ticks w))) in *.
  set (w1 := tick _).
  unfold bind at 1.
  rewrite (save_video_as_complete env self tv w1 l s); try assumption;
    [|now apply valid_tmp_video|reflexivity].
  cbv beta iota zeta. unfold bind at 1.
  rewrite (save_audio_as_renamed env self ta _ l a); try assumption;
    [| |unfold ta; now rewrite suffix_tmp_audio|reflexivity].
  2: { apply valid_tmp_audio; cbn [dirs files]; try assumption.
       rewrite lookup_delete_ne by apply tmp_video_not_audio.
       rewrite lookup_insert_ne by apply tmp_video_not_audio.
       rewrite lookup_delete_ne by apply tmp_video_not_audio.
       exact Hfree_a. }
  cbv beta iota zeta. f_equal.
  cbn [files dirs ticks trace log set_files tick add_events w1].
  fold tv ta. fold (files_before_mux env w s a).
  unfold combined_events. fold tv ta. cbn [removelast].
  same_world.
Qed.

Lemma save_as_complete env self t w l s a argv :
  valid_target w t [".webm"] ->
  script_dir env ∈ dirs w ->
  files w !! tmp_video_path env (clock env (ticks w)) = None ->
  files w !! tmp_audio_path env (clock env (ticks w)) = None ->
  str (tmp_video_path env (clock env (ticks w))) ∉ dirs w ->
  str (tmp_audio_path env (clock env (ticks w))) ∉ dirs w ->
  str (tmp_video_path env (clock env (S (ticks w)))) ∉ dirs w ->
  str (tmp_audio_path env (clock env (S (S (ticks w))))) ∉ dirs w ->
  catalog env (video self) = Streams l ->
  best_video_stream l = Returned s ->
  best_audio_stream l = Returned a ->
  net env s = Complete ->
  net env a = Complete ->
  shlex_split (mux_command (tmp_video_path env (clock env (ticks w)))
                           (tmp_audio_path env (clock env (ticks w))) t)
  = Returned argv ->
  save_as env self t w
  = let tmp_video_file := tmp_video_path env (clock env (ticks w)) in
    let tmp_audio_file := tmp_audio_path env (clock env (ticks w)) in
    let command := mux_command tmp_video_file tmp_audio_file t in
    let r := proc env command (files_before_mux env w s a) in
    (if returncode r =? 0 then Returned tt
     else Raised (CalledProcessError (returncode r)),
     mkWorld (dirs w)
             (delete tmp_audio_file
                (delete tmp_video_file
                   (write_all (Encoded command) (leaves r)
                              (files_before_mux env w s a))))
             (S (S (S (ticks w))))
             (trace w ++ combined_events env self t w s a)).
Proof.
  intros Hvalid Hdir Hfree_v Hfree_a Hplain_v Hplain_a Hplain_iv Hplain_ia
         Hcat Hbv Hba Hnet_v Hnet_a Hsplit.
  rewrite (save_as_valid _ _ _ _ Hvalid). cbv zeta.
  rewrite combined_finally_plain;
    rewrite (save_as_two_stages env self t w l s a); try assumption;
    rewrite (subprocess_run_started _ _ _ _ Hsplit); cbv zeta;
    cbn [fst snd dirs files ticks trace]; try assumption.
  rewrite (combined_events_split env self t w s a) at 2.
  same_world.
Qed.

(** The same call when the command line of the muxer does not split: both
    downloads are made and thrown away, no process is started. *)
Lemma save_as_unsplit env self t w l s a :
  valid_target w t [".webm"] ->
  script_dir env ∈ dirs w ->
  files w !! tmp_video_path env (clock env (ticks w)) = None ->
  files w !! tmp_audio_path env (clock env (ticks w)) = None ->
  str (tmp_video_path env (clock env (ticks w))) ∉ dirs w ->
  str (tmp_audio_path env (clock env (ticks w))) ∉ dirs w ->
  str (tmp_video_path env (clock env (S (ticks w)))) ∉ dirs w ->
  str (tmp_audio_path env (clock env (S (S (ticks w))))) ∉ dirs w ->
  catalog env (video self) = Streams l ->
  best_video_stream l = Returned s ->
  best_audio_stream l = Returned a ->
  net env s = Complete ->
  net env a = Complete ->
  shlex_split (mux_command (tmp_video_path env (clock env (ticks w)))
                           (tmp_audio_path env (clock env (ticks w))) t)
  = Raised ValueError ->
  save_as env self t w
  = let tmp_video_file := tmp_video_path env (clock env (ticks w)) in
    let tmp_audio_file := tmp_audio_path env (clock env (ticks w)) in
    (Raised ValueError,
     mkWorld (dirs w)
             (delete tmp_audio_file
                (delete tmp_video_file (files_before_mux env w s a)))
             (S (S (S (ticks w))))
             (trace w ++ removelast (removelast (removelast
                           (combined_events env self t w s a)))
                      ++ [EUnlink tmp_video_file; EUnlink tmp_audio_file])).
Proof.
  intros Hvalid Hdir Hfree_v Hfree_a Hplain_v Hplain_a Hplain_iv Hplain_ia
         Hcat Hbv Hba Hnet_v Hnet_a Hsplit.
  rewrite (save_as_valid _ _ _ _ Hvalid). cbv zeta.
  rewrite combined_finally_plain;
    rewrite (save_as_two_stages env self t w l s a); try assumption;
    rewrite (subprocess_run_unsplit _ _ _ Hsplit);
    cbn [fst snd dirs files ticks trace]; try assumption.
  same_world.
Qed.

Lemma files_before_mux_video env w s a :
  clock env (S (ticks w)) <> clock env (ticks w) ->
  files_before_mux env w s a !! tmp_video_path env (clock env (ticks w))
  = Some (Media s).
Proof.
  intros Hclock. unfold files_before_mux.
  rewrite lookup_delete_ne by (apply not_eq_sym, tmp_video_not_audio).
  rewrite lookup_insert_ne by (apply not_eq_sym, tmp_video_not_audio).
  rewrite lookup_delete_ne by (apply not_eq_sym, tmp_video_not_audio).
  rewrite lookup_delete_ne
    by (intros E; apply tmp_video_path_inj in E; contradiction).
  apply lookup_insert_eq.
Qed.

Lemma files_before_mux_audio env w s a :
  clock env (S (S (ticks w))) <> clock env (ticks w) ->
  files_before_mux env w s a !! tmp_audio_path env (clock env (ticks w))
  = Some (Media a).
Proof.
  intros Hclock. unfold files_before_mux.
  rewrite lookup_delete_ne
    by (intros E; apply tmp_audio_path_inj in E; contradiction).
  apply lookup_insert_eq.
Qed.

Lemma files_before_mux_same_second env w s a :
  clock env (S (ticks w)) = clock env (ticks w) ->
  files w !! tmp_video_path env (clock env (ticks w)) = None ->
  files_before_mux env w s a !! tmp_video_path env (clock env (ticks w)) = None.
Proof.
  intros Hclock Hfree. unfold files_before_mux. rewrite Hclock.
  rewrite lookup_delete_ne by (apply not_eq_sym, tmp_video_not_audio).
  rewrite lookup_insert_ne by (apply not_eq_sym, tmp_video_not_audio).
  rewrite lookup_delete_ne by (apply not_eq_sym, tmp_video_not_audio).
  apply lookup_delete_eq.
Qed.

Lemma files_before_mux_audio_same_second env w s a :
  clock env (S (S (ticks w))) = clock env (ticks w) ->
  files_before_mux env w s a !! tmp_audio_path env (clock env (ticks w)) = None.
Proof.
  intros Hclock. unfold files_before_mux. rewrite Hclock.
  apply lookup_delete_eq.
Qed.

(** C7. [save_as] runs the public video operation on its own temporary
    path, and the inner call reads the clock again.  When that second
    reading equals the first, the inner temporary path is the rename target:
    the inner call downloads to it, renames it to itself, unlinks it and
    returns normally, so the file is gone; the audio stage runs next and the
    mux process is started on a file system in which its video input is
    missing.  (The temporary names are free, no directory sits at any of
    them, and the command line of the muxer splits into words.) *)
Theorem same_second_loses_video
    (env : Env) (self : YouTubeVideo) (t : Path) (w : World)
    (l : list Stream) (s a : Stream) (argv : list string)
    (Hvalid : valid_target w t [".webm"])
    (Hdir : script_dir env ∈ dirs w)
    (Hfree_v : files w !! tmp_video_path env (clock env (ticks w)) = None)
    (Hfree_a : files w !! tmp_audio_path env (clock env (ticks w)) = None)
    (Hcat : catalog env (video self) = Streams l)
    (Hbest_v : best_video_stream l = Returned s)
    (Hbest_a : best_audio_stream l = Returned a)
    (Hnet_v : net env s = Complete)
    (Hnet_a : net env a = Complete)
    (Hsame : clock env (S (ticks w)) = clock env (ticks w))
    (Hplain_v : str (tmp_video_path env (clock env (ticks w))) ∉ dirs w)
    (Hplain_a : str (tmp_audio_path env (clock env (ticks w))) ∉ dirs w)
    (Hplain_inner : str (tmp_audio_path env (clock env (S (S (ticks w))))) ∉ dirs w)
    (Hsplit : shlex_split
                (mux_command (tmp_video_path env (clock env (ticks w)))
                             (tmp_audio_path env (clock env (ticks w))) t)
              = Returned argv) :
  let tmp_video_file := tmp_video_path env (clock env (ticks w)) in
  let tmp_audio_file := tmp_audio_path env (clock env (ticks w)) in
  let w1 := tick (add_events [ECall SaveAs t; EDirExists (parent t); EExists t] w) in
  let command := mux_command tmp_video_file tmp_audio_file t in
  let fs := files_before_mux env w s a in
  let r := proc env command fs in
  tmp_video_path env (clock env (ticks w1)) = tmp_video_file /\
  save_video_as env self tmp_video_file w1
    = (Returned tt,
       mkWorld (dirs w) (files w) (S (S (ticks w)))
               (trace w1 ++
                [ECall SaveVideoAs tmp_video_file; EDirExists (script_dir env);
                 EExists tmp_video_file; EStreams (video self);
                 EDownload s (script_dir env) (name tmp_video_file);
                 ERename tmp_video_file tmp_video_file;
                 EUnlink tmp_video_file])) /\
  files (snd (save_video_as env self tmp_video_file w1)) !! tmp_video_file = None /\
  fs !! tmp_video_file = None /\
  save_as env self t w
    = (if returncode r =? 0 then Returned tt
       else Raised (CalledProcessError (returncode r)),
       mkWorld (dirs w)
               (delete tmp_audio_file
                  (delete tmp_video_file
                     (write_all (Encoded command) (leaves r) fs)))
               (S (S (S (ticks w))))
               (trace w ++ combined_events env self t w s a)) /\
  In (ERun command) (combined_events env self t w s a).
Proof.
  intros.
  assert (Einner : save_video_as env self tmp_video_file w1
    = (Returned tt,
       mkWorld (dirs w) (files w) (S (S (ticks w)))
               (trace w1 ++
                [ECall SaveVideoAs tmp_video_file; EDirExists (script_dir env);
                 EExists tmp_video_file; EStreams (video self);
                 EDownload s (script_dir env) (name tmp_video_file);
                 ERename tmp_video_file tmp_video_file;
                 EUnlink tmp_video_file]))).
  { rewrite (save_video_as_complete env self _ _ l s);
      try assumption; try (now apply valid_tmp_video); try reflexivity.
    - cbn zeta. cbn [files dirs ticks trace tick add_events w1].
      rewrite Hsame. fold tmp_video_file.
      rewrite delete_insert_eq, delete_delete_eq, (delete_id _ _ Hfree_v).
      reflexivity.
    - cbn [files dirs ticks trace tick add_events w1]. now rewrite Hsame. }
  split; [cbn; now rewrite Hsame|].
  split; [exact Einner|].
  split; [rewrite Einner; exact Hfree_v|].
  split; [now apply files_before_mux_same_second|].
  split.
  - apply (save_as_complete _ _ _ _ l s a argv); try assumption.
    now rewrite Hsame.
  - unfold combined_events. cbn. tauto.
Qed.

Lemma same_second_loses_video_witness :
  files_before_mux (sample_env same_second_clock sample_muxer) sample_world
                   v1080_60 a256 !! sample_tmp_video = None /\
  fst (save_as (sample_env same_second_clock sample_muxer) sample_video new_song
               sample_world) = Raised (CalledProcessError 1).
Proof.
  pose proof (same_second_loses_video
    (sample_env same_second_clock sample_muxer) sample_video new_song
    sample_world sample_streams v1080_60 a256
    ["ffmpeg"; "-i"; "/opt/ytd/tmp_video_20240101_120000.webm"; "-i";
     "/opt/ytd/tmp_audio_20240101_120000.opus"; "/music/new.webm"]) as H.
  cbn zeta in H.
  destruct H as (_ & _ & _ & Hgone & Hrun & _).
  - split; [vm_compute; reflexivity|split; [vm_compute; reflexivity|]].
    split; [by_evaluation|vm_compute; now left].
  - by_evaluation.
  - vm_compute. reflexivity.
  - vm_compute. reflexivity.
  - reflexivity.
  - vm_compute. reflexivity.
  - vm_compute. reflexivity.
  - reflexivity.
  - reflexivity.
  - reflexivity.
  - by_evaluation.
  - by_evaluation.
  - by_evaluation.
  - vm_compute. reflexivity.
  - split; [exact Hgone|].
    rewrite Hrun. vm_compute. reflexivity.
Defined.

(** ** No candidate stream *)

Lemma best_video_stream_none l :
  List.filter check_if_dash_stream l = [] -> best_video_stream l = Raised ValueError.
Proof. unfold best_video_stream. now intros ->. Qed.

Lemma best_audio_stream_none l :
  List.filter is_dash_audio l = [] -> best_audio_stream l = Raised ValueError.
Proof. unfold best_audio_stream. now intros ->. Qed.

(** An event that is a download is not among events that are none. *)
Lemma no_download_among (evs old : list Event) s d f :
  List.filter is_download evs = [] ->
  In (EDownload s d f) (old ++ evs) -> In (EDownload s d f) old.
Proof.
  intros Hnone Hin. apply in_app_or in Hin as [Hin|Hin]; [exact Hin|].
  assert (Hf : In (EDownload s d f) (List.filter is_download evs))
    by (apply filter_In; now split).
  rewrite Hnone in Hf. destruct Hf.
Qed.

(** C3, as the code has it.  When its filter leaves no candidate, the
    video operation and the audio operation each fail with the exception
    of the empty unpacking ([ValueError], the specification's
    NoStreamFoundError) right after the stream list was fetched, and no
    download is started.  The combined operation does the same when it is
    the video filter that leaves nothing: its first stage is the video
    operation.  When only the audio filter leaves nothing, the combined
    operation fails with the same exception, but after its video stage:
    exactly one download, that of the best video stream, has been made by
    then, and the downloaded file is removed again. *)
Theorem no_candidate_no_download :
  fails_without_download save_video_as [".webm"] check_if_dash_stream /\
  fails_without_download save_audio_as [".opus"; ".mp3"] is_dash_audio /\
  (forall env self t w l,
     let tmp_video_file := tmp_video_path env (clock env (ticks w)) in
     let tmp_audio_file := tmp_audio_path env (clock env (ticks w)) in
     let events :=
       [ECall SaveAs t; EDirExists (parent t); EExists t;
        ECall SaveVideoAs tmp_video_file; EDirExists (script_dir env);
        EExists tmp_video_file; EStreams (video self);
        EUnlink tmp_video_file; EUnlink tmp_audio_file] in
     valid_target w t [".webm"] ->
     catalog env (video self) = Streams l ->
     List.filter check_if_dash_stream l = [] ->
     script_dir env ∈ dirs w ->
     files w !! tmp_video_file = None ->
     str tmp_video_file ∉ dirs w ->
     str tmp_audio_file ∉ dirs w ->
     save_as env self t w
     = (Raised ValueError,
        mkWorld (dirs w) (delete tmp_audio_file (files w)) (S (ticks w))
                (trace w ++ events)) /\
     List.filter is_download events = []) /\
  (forall env self t w l s,
     let tmp_video_file := tmp_video_path env (clock env (ticks w)) in
     let tmp_audio_file := tmp_audio_path env (clock env (ticks w)) in
     let inner_video := tmp_video_path env (clock env (S (ticks w))) in
     let events :=
       [ECall SaveAs t; EDirExists (parent t); EExists t;
        ECall SaveVideoAs tmp_video_file; EDirExists (script_dir env);
        EExists tmp_video_file; EStreams (video self);
        EDownload s (script_dir env) (name inner_video);
        ERename inner_video tmp_video_file; EUnlink inner_video;
        ECall SaveAudioAs tmp_audio_file; EDirExists (script_dir env);
        EExists tmp_audio_file; EStreams (video self);
        EUnlink tmp_video_file; EUnlink tmp_audio_file] in
     valid_target w t [".webm"] ->
     catalog env (video self) = Streams l ->
     List.filter is_dash_audio l = [] ->
     best_video_stream l = Returned s ->
     net env s = Complete ->
     script_dir env ∈ dirs w ->
     files w !! tmp_video_file = None ->
     files w !! tmp_audio_file = None ->
     str tmp_video_file ∉ dirs w ->
     str tmp_audio_file ∉ dirs w ->
     str inner_video ∉ dirs w ->
     save_as env self t w
     = (Raised ValueError,
        mkWorld (dirs w)
                (delete tmp_audio_file
                   (delete tmp_video_file
                      (delete inner_video
                         (<[tmp_video_file := Media s]>
                            (delete inner_video (files w))))))
                (S (S (ticks w)))
                (trace w ++ events)) /\
     List.filter is_download events
     = [EDownload s (script_dir env) (name inner_video)]).
Proof.
  split; [|split; [|split]].
  - intros env self t w l Hvalid Hcat Hnone.
    rewrite (save_video_as_valid _ _ _ _ Hvalid), Hcat,
      (best_video_stream_none _ Hnone).
    split; [reflexivity|]. intros s d f. now apply no_download_among.
  - intros env self t w l Hvalid Hcat Hnone.
    rewrite (save_audio_as_valid _ _ _ _ Hvalid), Hcat,
      (best_audio_stream_none _ Hnone).
    split; [reflexivity|]. intros s d f. now apply no_download_among.
  - intros env self t w l tv ta events Hvalid Hcat Hnone Hdir Hfree Hpv Hpa.
    split; [|reflexivity].
    rewrite (save_as_valid _ _ _ _ Hvalid). cbv zeta. fold tv ta.
    set (w1 := tick _).
    assert (E : (save_video_as env self tv ;; save_audio_as env self ta ;;
                 subprocess_run env (mux_command tv ta t)) w1
      = (Raised ValueError,
         add_events [ECall SaveVideoAs tv; EDirExists (script_dir env);
                     EExists tv; EStreams (video self)] w1)).
    { unfold bind at 1.
      rewrite save_video_as_valid by (now apply valid_tmp_video).
      now rewrite Hcat, (best_video_stream_none _ Hnone). }
    rewrite combined_finally_plain; rewrite E;
      cbn [fst snd dirs files ticks trace add_events tick w1]; try assumption.
    rewrite (delete_id (files w) tv Hfree). unfold events. same_world.
  - intros env self t w l s tv ta iv events Hvalid Hcat Hnone Hbest Hnet Hdir
           Hfree_v Hfree_a Hpv Hpa Hpiv.
    split; [|reflexivity].
    rewrite (save_as_valid _ _ _ _ Hvalid). cbv zeta. fold tv ta.
    set (w1 := tick _).
    assert (E : (save_video_as env self tv ;; save_audio_as env self ta ;;
                 subprocess_run env (mux_command tv ta t)) w1
      = (Raised ValueError,
         mkWorld (dirs w)
                 (delete iv (<[tv := Media s]> (delete iv (files w))))
                 (S (S (ticks w)))
                 (trace w ++ removelast (removelast events)))).
    { unfold bind at 1.
      rewrite (save_video_as_complete env self tv w1 l s); try assumption;
        [|now apply valid_tmp_video|reflexivity].
      cbv beta iota zeta. unfold bind at 1.
      rewrite save_audio_as_valid.
      2: { apply valid_tmp_audio; cbn [dirs files]; try assumption.
           rewrite lookup_delete_ne by apply tmp_video_not_audio.
           rewrite lookup_insert_ne by apply tmp_video_not_audio.
           rewrite lookup_delete_ne by apply tmp_video_not_audio.
           exact Hfree_a. }
      rewrite Hcat, (best_audio_stream_none _ Hnone).
      cbv beta iota zeta.
      cbn [files dirs ticks trace log set_files tick add_events w1].
      fold tv ta iv. unfold events. cbn [removelast]. same_world. }
    rewrite combined_finally_plain; rewrite E;
      cbn [fst snd dirs files ticks trace]; try assumption.
    unfold events. cbn [removelast]. same_world.
Qed.

Lemma no_candidate_no_download_witness :
  fst (save_audio_as lopsided_env (mkYouTubeVideo "other")
                     (mkPath "/music" "new.opus") sample_world)
    = Raised ValueError /\
  fst (save_as silent_env sample_video new_song sample_world)
    = Raised ValueError.
Proof.
  destruct no_candidate_no_download as (_ & Haudio & _ & Hcombined).
  split.
  - apply (Haudio lopsided_env (mkYouTubeVideo "other")
             (mkPath "/music" "new.opus") sample_world [mp4_progressive]).
    + split; [vm_compute; reflexivity|split; [vm_compute; reflexivity|]].
      split; [by_evaluation|vm_compute; now left].
    + reflexivity.
    + reflexivity.
  - destruct (Hcombined silent_env sample_video new_song sample_world
                (mp4_progressive :: sample_video_streams) v1080_60) as (E & _).
    + split; [vm_compute; reflexivity|split; [vm_compute; reflexivity|]].
      split; [by_evaluation|vm_compute; now left].
    + reflexivity.
    + reflexivity.
    + vm_compute. reflexivity.
    + reflexivity.
    + by_evaluation.
    + vm_compute. reflexivity.
    + vm_compute. reflexivity.
    + by_evaluation.
    + by_evaluation.
    + by_evaluation.
    + now rewrite E.
Defined.

(** C3, as the specification words it, fails for the combined operation
    and the audio filter: a video without an audio stream is reported
    only after the video stage has downloaded the best video stream. *)
Lemma combined_downloads_before_audio_filter :
  ~ fails_without_download save_as [".webm"] is_dash_audio.
Proof.
  intros H.
  destruct (H silent_env sample_video new_song sample_world
              (mp4_progressive :: sample_video_streams)) as (_ & Hnone).
  - split; [vm_compute; reflexivity|split; [vm_compute; reflexivity|]].
    split; [by_evaluation|vm_compute; now left].
  - reflexivity.
  - reflexivity.
  - apply (Hnone v1080_60 "/opt/ytd"%string "tmp_video_20240101_120003.webm"%string).
    vm_compute. do 7 right. now left.
Qed.

(** ** The audio operation after a complete download *)

(** C5 at a destination with a quotation mark.  The command line is put
    together from the two paths as they are and split like a shell
    command; when it has a quotation mark without its partner, as for the
    destination [/music/it's.mp3], splitting raises [ValueError]: the
    audio operation has downloaded the stream, starts no process, removes
    the temporary file and leaves no destination. *)
Theorem quoted_destination_skips_transcoder
    (env : Env) (self : YouTubeVideo) (t : Path) (w : World)
    (l : list Stream) (s : Stream)
    (Hvalid : valid_target w t [".opus"; ".mp3"])
    (Hmp3 : suffix t = ".mp3")
    (Hcat : catalog env (video self) = Streams l)
    (Hbest : best_audio_stream l = Returned s)
    (Hnet : net env s = Complete)
    (Hdir : script_dir env ∈ dirs w)
    (Hplain : str (tmp_audio_path env (clock env (ticks w))) ∉ dirs w)
    (Hsplit : shlex_split
                (transcode_command (tmp_audio_path env (clock env (ticks w))) t)
              = Raised ValueError) :
  let tmp := tmp_audio_path env (clock env (ticks w)) in
  let events := [ECall SaveAudioAs t; EDirExists (parent t); EExists t;
                 EStreams (video self);
                 EDownload s (script_dir env) (name tmp); EUnlink tmp] in
  save_audio_as env self t w
    = (Raised ValueError,
       mkWorld (dirs w) (delete tmp (files w)) (S (ticks w)) (trace w ++ events)) /\
  List.filter is_process events = [] /\
  files (snd (save_audio_as env self t w)) !! t = None /\
  files (snd (save_audio_as env self t w)) !! tmp = None.
Proof.
  intros.
  rewrite (save_audio_as_unsplit env self t w l s); try assumption;
    [|now apply String.eqb_eq].
  cbv zeta. fold tmp. cbn [snd files].
  split; [reflexivity|]. split; [reflexivity|].
  split; [|apply lookup_delete_eq].
  apply lookup_delete_absent. apply Hvalid.
Qed.

Lemma quoted_destination_skips_transcoder_witness :
  shlex_split (transcode_command sample_tmp_audio quoted_mp3) = Raised ValueError /\
  fst (save_audio_as (sample_env ticking_clock idle_process) sample_video
                     quoted_mp3 sample_world) = Raised ValueError /\
  List.filter is_process
    (trace (snd (save_audio_as (sample_env ticking_clock idle_process)
                               sample_video quoted_mp3 sample_world))) = [].
Proof.
  pose proof (quoted_destination_skips_transcoder
    (sample_env ticking_clock idle_process) sample_video quoted_mp3
    sample_world sample_streams a256) as H.
  cbv zeta in H. destruct H as (E & _).
  - split; [vm_compute; reflexivity|split; [vm_compute; reflexivity|]].
    split; [by_evaluation|vm_compute; right; now left].
  - vm_compute. reflexivity.
  - reflexivity.
  - vm_compute. reflexivity.
  - reflexivity.
  - by_evaluation.
  - by_evaluation.
  - vm_compute. reflexivity.
  - split; [vm_compute; reflexivity|]. rewrite E. split; reflexivity.
Defined.

(** X13. After a complete audio download with nothing in the way (the
    script directory exists, the temporary name is free), a
    [.opus] destination in a directory on the file system of the script is
    served by renaming the temporary file to it and no process is started,
    whereas a [.mp3] destination whose command line splits into words runs
    the encoder on the temporary file with the fixed quality option
    [-q:a 0]; the operation then returns exactly when the return code is
    zero and raises [CalledProcessError] otherwise. *)
Theorem audio_destination_decides_transcoding
    (env : Env) (self : YouTubeVideo) (t : Path) (w : World)
    (l : list Stream) (s : Stream)
    (Hvalid : valid_target w t [".opus"; ".mp3"])
    (Hcat : catalog env (video self) = Streams l)
    (Hbest : best_audio_stream l = Returned s)
    (Hnet : net env s = Complete)
    (Hdir : script_dir env ∈ dirs w)
    (Hfree : files w !! tmp_audio_path env (clock env (ticks w)) = None)
    (Hplain : str (tmp_audio_path env (clock env (ticks w))) ∉ dirs w) :
  let tmp := tmp_audio_path env (clock env (ticks w)) in
  let before := [ECall SaveAudioAs t; EDirExists (parent t); EExists t;
                 EStreams (video self);
                 EDownload s (script_dir env) (name tmp)] in
  let command := transcode_command tmp t in
  let r := proc env command (<[tmp := Media s]> (files w)) in
  (suffix t = ".opus" -> parent t ∈ dirs w ->
   device env (script_dir env) = device env (parent t) ->
   save_audio_as env self t w
   = (Returned tt,
      mkWorld (dirs w) (delete tmp (<[t := Media s]> (delete tmp (files w))))
              (S (ticks w)) (trace w ++ before ++ [ERename tmp t; EUnlink tmp])) /\
   List.filter is_process (before ++ [ERename tmp t; EUnlink tmp]) = [] /\
   (t <> tmp -> files (snd (save_audio_as env self t w)) !! t = Some (Media s))) /\
  (suffix t = ".mp3" ->
   forall argv, shlex_split command = Returned argv ->
   save_audio_as env self t w
   = (if returncode r =? 0 then Returned tt
      else Raised (CalledProcessError (returncode r)),
      mkWorld (dirs w) (delete tmp (write_all (Encoded command) (leaves r)
                                              (<[tmp := Media s]> (files w))))
              (S (ticks w)) (trace w ++ before ++ [ERun command; EUnlink tmp])) /\
   (returncode r <> 0 ->
    fst (save_audio_as env self t w) = Raised (CalledProcessError (returncode r))) /\
   (returncode r = 0 -> fst (save_audio_as env self t w) = Returned tt)) /\
  command = "ffmpeg -i " +:+ str tmp +:+ " -c:a libmp3lame -q:a 0 " +:+ str t.
Proof.
  intros. split; [|split; [|reflexivity]].
  - intros Hs Hparent Hdev.
    rewrite (save_audio_as_renamed env self t w l s); try assumption;
      [|now rewrite Hs].
    cbv zeta. fold tmp. split; [reflexivity|]. split; [reflexivity|].
    intros Hne. cbn [snd files].
    rewrite lookup_delete_ne by congruence. apply lookup_insert_eq.
  - intros Hs argv Hsplit.
    rewrite (save_audio_as_transcoded env self t w l s argv); try assumption;
      [|now rewrite Hs].
    cbv zeta. fold tmp command r. split; [reflexivity|]. cbn [fst].
    split; intros Hrc.
    + destruct (returncode r =? 0) eqn:Z; [lia|reflexivity].
    + now rewrite Hrc.
Qed.

Lemma audio_destination_decides_transcoding_witness :
  fst (save_audio_as (sample_env ticking_clock failing_cleanly) sample_video
                     (mkPath "/music" "song.mp3") sample_world)
  = Raised (CalledProcessError 1).
Proof.
  pose proof (audio_destination_decides_transcoding
    (sample_env ticking_clock failing_cleanly) sample_video
    (mkPath "/music" "song.mp3") sample_world sample_streams a256) as H.
  cbv zeta in H.
  destruct H as (_ & Hmp3 & _).
  - split; [vm_compute; reflexivity|split; [vm_compute; reflexivity|]].
    split; [by_evaluation|vm_compute; right; now left].
  - reflexivity.
  - vm_compute. reflexivity.
  - reflexivity.
  - by_evaluation.
  - vm_compute. reflexivity.
  - by_evaluation.
  - edestruct Hmp3 as (_ & Hfail & _);
      [vm_compute; reflexivity|vm_compute; reflexivity|].
    apply Hfail. vm_compute. discriminate.
Defined.

(** ** The combined operation *)

(** C6 at a destination with a quotation mark.  The command line of the
    muxer is put together from the three paths as they are and split like
    a shell command; when it has a quotation mark without its partner, as
    for the destination [/music/it's.webm], splitting raises [ValueError]:
    the combined operation has made both downloads, starts no process,
    removes both temporary files and leaves no destination. *)
Theorem quoted_destination_skips_muxer
    (env : Env) (self : YouTubeVideo) (t : Path) (w : World)
    (l : list Stream) (s a : Stream)
    (Hvalid : valid_target w t [".webm"])
    (Hdir : script_dir env ∈ dirs w)
    (Hfree_v : files w !! tmp_video_path env (clock env (ticks w)) = None)
    (Hfree_a : files w !! tmp_audio_path env (clock env (ticks w)) = None)
    (Hplain_v : str (tmp_video_path env (clock env (ticks w))) ∉ dirs w)
    (Hplain_a : str (tmp_audio_path env (clock env (ticks w))) ∉ dirs w)
    (Hplain_iv : str (tmp_video_path env (clock env (S (ticks w)))) ∉ dirs w)
    (Hplain_ia : str (tmp_audio_path env (clock env (S (S (ticks w))))) ∉ dirs w)
    (Hcat : catalog env (video self) = Streams l)
    (Hbest_v : best_video_stream l = Returned s)
    (Hbest_a : best_audio_stream l = Returned a)
    (Hnet_v : net env s = Complete)
    (Hnet_a : net env a = Complete)
    (Hsplit : shlex_split
                (mux_command (tmp_video_path env (clock env (ticks w)))
                             (tmp_audio_path env (clock env (ticks w))) t)
              = Raised ValueError) :
  let tmp_video_file := tmp_video_path env (clock env (ticks w)) in
  let tmp_audio_file := tmp_audio_path env (clock env (ticks w)) in
  let events :=
    removelast (removelast (removelast (combined_events env self t w s a)))
    ++ [EUnlink tmp_video_file; EUnlink tmp_audio_file] in
  save_as env self t w
    = (Raised ValueError,
       mkWorld (dirs w)
               (delete tmp_audio_file
                  (delete tmp_video_file (files_before_mux env w s a)))
               (S (S (S (ticks w))))
               (trace w ++ events)) /\
  List.filter is_process events = [] /\
  List.filter is_download events
    = [EDownload s (script_dir env)
                 (name (tmp_video_path env (clock env (S (ticks w)))));
       EDownload a (script_dir env)
                 (name (tmp_audio_path env (clock env (S (S (ticks w))))))] /\
  files (snd (save_as env self t w)) !! t = None /\
  files (snd (save_as env self t w)) !! tmp_video_file = None /\
  files (snd (save_as env self t w)) !! tmp_audio_file = None.
Proof.
  intros.
  rewrite (save_as_unsplit env self t w l s a); try assumption.
  cbv zeta. fold tmp_video_file tmp_audio_file. cbn [snd files].
  split; [reflexivity|]. split; [reflexivity|]. split; [reflexivity|].
  split; [|split].
  - destruct Hvalid as (_ & Hnone & _).
    unfold files_before_mux. fold tmp_video_file tmp_audio_file.
    repeat (first [rewrite lookup_insert | rewrite lookup_delete]).
    repeat case_decide; subst; try reflexivity; congruence.
  - rewrite lookup_delete_ne by (apply not_eq_sym, tmp_video_not_audio).
    apply lookup_delete_eq.
  - apply lookup_delete_eq.
Qed.

Lemma quoted_destination_skips_muxer_witness :
  shlex_split (mux_command sample_tmp_video sample_tmp_audio quoted_song)
    = Raised ValueError /\
  fst (save_as (sample_env ticking_clock sample_muxer) sample_video quoted_song
               sample_world) = Raised ValueError /\
  List.filter is_process
    (trace (snd (save_as (sample_env ticking_clock sample_muxer) sample_video
                         quoted_song sample_world))) = [].
Proof.
  pose proof (quoted_destination_skips_muxer
    (sample_env ticking_clock sample_muxer) sample_video quoted_song
    sample_world sample_streams v1080_60 a256) as H.
  cbv zeta in H. destruct H as (E & _).
  - split; [vm_compute; reflexivity|split; [vm_compute; reflexivity|]].
    split; [by_evaluation|vm_compute; now left].
  - by_evaluation.
  - vm_compute. reflexivity.
  - vm_compute. reflexivity.
  - by_evaluation.
  - by_evaluation.
  - by_evaluation.
  - by_evaluation.
  - reflexivity.
  - vm_compute. reflexivity.
  - vm_compute. reflexivity.
  - reflexivity.
  - reflexivity.
  - vm_compute. reflexivity.
  - split; [vm_compute; reflexivity|]. rewrite E. split; reflexivity.
Defined.

(** X14. A combined call whose destination is valid reads the clock once
    and names both temporary files with that reading; it runs the video
    operation and then the audio operation on these two paths and then the
    mux command over them.  When the streams are found, both downloads
    complete, nothing is in the way of the temporary files and the command
    line splits into words, the video download precedes the audio
    download, exactly one process is started, with the two temporary paths
    as inputs and the destination as output, both inputs are on disk when
    the clock advanced between the readings, and the call returns exactly
    when the return code is zero and raises [CalledProcessError]
    otherwise. *)
Theorem combined_is_two_downloads_then_mux
    (env : Env) (self : YouTubeVideo) (t : Path) (w : World)
    (l : list Stream) (s a : Stream) (argv : list string)
    (Hvalid : valid_target w t [".webm"])
    (Hdir : script_dir env ∈ dirs w)
    (Hfree_v : files w !! tmp_video_path env (clock env (ticks w)) = None)
    (Hfree_a : files w !! tmp_audio_path env (clock env (ticks w)) = None)
    (Hplain_v : str (tmp_video_path env (clock env (ticks w))) ∉ dirs w)
    (Hplain_a : str (tmp_audio_path env (clock env (ticks w))) ∉ dirs w)
    (Hplain_iv : str (tmp_video_path env (clock env (S (ticks w)))) ∉ dirs w)
    (Hplain_ia : str (tmp_audio_path env (clock env (S (S (ticks w))))) ∉ dirs w)
    (Hcat : catalog env (video self) = Streams l)
    (Hbest_v : best_video_stream l = Returned s)
    (Hbest_a : best_audio_stream l = Returned a)
    (Hnet_v : net env s = Complete)
    (Hnet_a : net env a = Complete)
    (Hsplit : shlex_split
                (mux_command (tmp_video_path env (clock env (ticks w)))
                             (tmp_audio_path env (clock env (ticks w))) t)
              = Returned argv) :
  let timestamp := clock env (ticks w) in
  let tmp_video_file := tmp_video_path env timestamp in
  let tmp_audio_file := tmp_audio_path env timestamp in
  let command := mux_command tmp_video_file tmp_audio_file t in
  let fs := files_before_mux env w s a in
  let r := proc env command fs in
  tmp_video_file
    = mkPath (script_dir env) ("tmp_video_" +:+ timestamp +:+ ".webm") /\
  tmp_audio_file
    = mkPath (script_dir env) ("tmp_audio_" +:+ timestamp +:+ ".opus") /\
  save_as env self t w
    = try_finally
        (save_video_as env self tmp_video_file ;;
         save_audio_as env self tmp_audio_file ;;
         subprocess_run env command)
        (unlink tmp_video_file true ;; unlink tmp_audio_file true)
        (tick (add_events [ECall SaveAs t; EDirExists (parent t); EExists t] w)) /\
  save_as env self t w
    = (if returncode r =? 0 then Returned tt
       else Raised (CalledProcessError (returncode r)),
       mkWorld (dirs w)
               (delete tmp_audio_file
                  (delete tmp_video_file
                     (write_all (Encoded command) (leaves r) fs)))
               (S (S (S (ticks w))))
               (trace w ++ combined_events env self t w s a)) /\
  List.filter is_download (combined_events env self t w s a)
    = [EDownload s (script_dir env)
                 (name (tmp_video_path env (clock env (S (ticks w)))));
       EDownload a (script_dir env)
                 (name (tmp_audio_path env (clock env (S (S (ticks w))))))] /\
  List.filter is_process (combined_events env self t w s a) = [ERun command] /\
  command
    = "ffmpeg -i " +:+ str tmp_video_file +:+ " -i " +:+ str tmp_audio_file
      +:+ " " +:+ str t /\
  (clock env (S (ticks w)) <> timestamp -> fs !! tmp_video_file = Some (Media s)) /\
  (clock env (S (S (ticks w))) <> timestamp ->
   fs !! tmp_audio_file = Some (Media a)) /\
  (returncode r <> 0 ->
   fst (save_as env self t w) = Raised (CalledProcessError (returncode r))) /\
  (returncode r = 0 -> fst (save_as env self t w) = Returned tt).
Proof.
  intros.
  pose proof (save_as_complete _ _ _ _ _ _ _ _ Hvalid Hdir Hfree_v Hfree_a
                Hplain_v Hplain_a Hplain_iv Hplain_ia Hcat
                Hbest_v Hbest_a Hnet_v Hnet_a Hsplit) as E.
  cbv zeta in E. fold timestamp tmp_video_file tmp_audio_file command fs r in E.
  split; [reflexivity|]. split; [reflexivity|].
  split; [exact (save_as_valid _ _ _ _ Hvalid)|].
  split; [exact E|].
  split; [reflexivity|]. split; [reflexivity|]. split; [reflexivity|].
  split; [apply files_before_mux_video|].
  split; [apply files_before_mux_audio|].
  split; intros Hrc; rewrite E; cbn.
  - destruct (returncode r =? 0) eqn:Z; [lia|reflexivity].
  - now rewrite Hrc.
Qed.

Lemma combined_is_two_downloads_then_mux_witness :
  fst (save_as (sample_env ticking_clock sample_muxer) sample_video new_song
               sample_world) = Returned tt.
Proof.
  pose proof (combined_is_two_downloads_then_mux
    (sample_env ticking_clock sample_muxer) sample_video new_song sample_world
    sample_streams v1080_60 a256
    ["ffmpeg"; "-i"; "/opt/ytd/tmp_video_20240101_120000.webm"; "-i";
     "/opt/ytd/tmp_audio_20240101_120000.opus"; "/music/new.webm"]) as H.
  cbv zeta in H.
  destruct H as (_ & _ & _ & _ & _ & _ & _ & _ & _ & _ & Hzero).
  - split; [vm_compute; reflexivity|split; [vm_compute; reflexivity|]].
    split; [by_evaluation|vm_compute; now left].
  - by_evaluation.
  - vm_compute. reflexivity.
  - vm_compute. reflexivity.
  - by_evaluation.
  - by_evaluation.
  - by_evaluation.
  - by_evaluation.
  - reflexivity.
  - vm_compute. reflexivity.
  - vm_compute. reflexivity.
  - reflexivity.
  - reflexivity.
  - vm_compute. reflexivity.
  - apply Hzero. vm_compute. reflexivity.
Defined.

(** ** Cleanup *)

(** The body of [save_as], run to a failure, leaves no destination. *)
Lemma save_as_body_failure env self t w1 tv ta e :
  clean_on_failure env t ->
  files w1 !! t = None -> t <> tv -> t <> ta ->
  String.eqb (suffix ta) ".mp3" = false ->
  let body := save_video_as env self tv ;;
              save_audio_as env self ta ;;
              subprocess_run env (mux_command tv ta t) in
  fst (body w1) = Raised e ->
  files (snd (body w1)) !! t = None.
Proof.
  intros Hclean Hf Hv Ha Hopus body. unfold body, bind.
  pose proof (save_video_as_creates env self tv w1 t Hf (or_introl Hv)) as F1.
  destruct (save_video_as env self tv w1) as [[[]|e1] w2]; [|intros _; exact F1].
  cbn in F1.
  pose proof (save_audio_as_creates env self ta w2 t Hopus F1 (or_introl Ha)) as F2.
  destruct (save_audio_as env self ta w2) as [[[]|e2] w3]; [|intros _; exact F2].
  cbn in F2.
  destruct (subprocess_run_cases env (mux_command tv ta t) w3)
    as [(Hs & E)|(argv & Hs & E)]; cbn zeta in E; rewrite E; cbn [fst snd files].
  - intros _. exact F2.
  - destruct (returncode _ =? 0) eqn:Z; [discriminate|intros _].
    rewrite write_all_lookup_notin by (apply Hclean; lia). exact F2.
Qed.

(** With a directory at the temporary video path the video stage is
    refused and the body has changed no file. *)
Lemma save_as_body_refused env self t w1 tv ta :
  str tv ∈ dirs w1 ->
  let body := save_video_as env self tv ;;
              save_audio_as env self ta ;;
              subprocess_run env (mux_command tv ta t) in
  files (snd (body w1)) = files w1 /\ exists e, fst (body w1) = Raised e.
Proof.
  intros Hdir body. unfold body, bind.
  pose proof (save_video_as_general env self tv w1) as H. cbn zeta in H.
  destruct H as (evs & _ & _ & _ & _ & _ &
                 [((e & He) & _ & E)|[(_ & Hvalid & _)|(_ & Hvalid & _)]]).
  - destruct (save_video_as env self tv w1) as [[[]|e1] w2];
      cbn [fst snd] in *; [discriminate He|].
    split; [exact E|now exists e1].
  - destruct Hvalid as (_ & _ & Hn & _). contradiction.
  - destruct Hvalid as (_ & _ & Hn & _). contradiction.
Qed.

(** A body that returns has found no directory at either temporary path,
    and none has appeared. *)
Lemma save_as_body_returned env self t w1 stamp :
  let tv := tmp_video_path env stamp in
  let ta := tmp_audio_path env stamp in
  let body := save_video_as env self tv ;;
              save_audio_as env self ta ;;
              subprocess_run env (mux_command tv ta t) in
  fst (body w1) = Returned tt ->
  (str tv ∉ dirs (snd (body w1))) /\ (str ta ∉ dirs (snd (body w1))).
Proof.
  intros tv ta body. unfold body, bind.
  pose proof (save_video_as_general env self tv w1) as H1. cbn zeta in H1.
  destruct H1 as (evs1 & _ & _ & _ & _ & Hd1 & Hc1).
  pose proof (dirs_grown_in _ _ _ Hd1) as Hin1.
  destruct (save_video_as env self tv w1) as [[[]|e1] w2];
    cbn [fst snd] in *; [|discriminate].
  assert (Hpv : str tv ∉ dirs w1).
  { destruct Hc1 as [((e & He) & _)|[((e & He) & _)|(_ & Hvalid & _)]];
      [discriminate He..|apply Hvalid]. }
  pose proof (save_audio_as_general env self ta w2) as H2. cbn zeta in H2.
  destruct H2 as (evs2 & _ & _ & _ & _ & Hd2 & Hc2).
  pose proof (dirs_grown_in _ _ _ Hd2) as Hin2.
  destruct (save_audio_as env self ta w2) as [[[]|e2] w3];
    cbn [fst snd] in *; [|discriminate].
  assert (Hpa : str ta ∉ dirs w2).
  { destruct Hc2 as [((e & He) & _)|[((e & He) & _)
                    |[(_ & _ & Hvalid & _)|(_ & Hvalid & _)]]];
      [discriminate He..|apply Hvalid|apply Hvalid]. }
  assert (Hdirs : dirs (snd (subprocess_run env (mux_command tv ta t) w3)) = dirs w3).
  { destruct (subprocess_run_cases env (mux_command tv ta t) w3)
      as [(Hs & E)|(argv & Hs & E)]; cbn zeta in E; now rewrite E. }
  intros _. rewrite Hdirs. split.
  - apply (tmp_video_stays_plain env _ _ (dirs w2)); [exact Hin2|].
    now apply (tmp_video_stays_plain env _ _ (dirs w1)).
  - now apply (tmp_audio_stays_plain env _ _ (dirs w2)).
Qed.

(** What the combined operation leaves at its temporary paths and at its
    destination. *)
Lemma save_as_leaves env self t w :
  valid_target w t [".webm"] ->
  let tv := tmp_video_path env (clock env (ticks w)) in
  let ta := tmp_audio_path env (clock env (ticks w)) in
  let r := save_as env self t w in
  files (snd r) !! tv = None /\
  (str tv ∉ dirs w \/ files w !! ta = None -> files (snd r) !! ta = None) /\
  (clean_on_failure env t -> forall e, fst r = Raised e ->
   files (snd r) !! t = None).
Proof.
  intros Hvalid tv ta r. unfold r.
  rewrite (save_as_valid _ _ _ _ Hvalid). cbv zeta. fold tv ta.
  set (w1 := tick _).
  set (body := save_video_as env self tv ;; _).
  pose proof (combined_finally body tv ta w1) as H. cbv zeta in H.
  destruct H as (_ & _ & _ & Hf & Hr).
  pose proof (save_as_body_general env self tv ta t w1) as Hb.
  cbv zeta in Hb. fold body in Hb.
  destruct Hb as (_ & _ & Hin & _); [unfold ta; now rewrite suffix_tmp_audio|].
  assert (Hva : tv <> ta) by apply tmp_video_not_audio.
  assert (Htv : files (snd (try_finally body
                  (unlink tv true ;; unlink ta true) w1)) !! tv = None).
  { destruct Hf as [-> |(_ & Hnone & ->)]; [|exact Hnone].
    rewrite lookup_delete_ne by congruence. apply lookup_delete_eq. }
  assert (Hta : str tv ∉ dirs w \/ files w !! ta = None ->
                files (snd (try_finally body
                  (unlink tv true ;; unlink ta true) w1)) !! ta = None).
  { intros Hcase. destruct Hf as [-> |(Hdir & _ & ->)]; [apply lookup_delete_eq|].
    assert (Hdir1 : str tv ∈ dirs w1).
    { apply Hin in Hdir as [Hdir|Hdir]; [|exact Hdir].
      now apply str_tmp_video_not_dir in Hdir. }
    destruct Hcase as [Hn|Hnone]; [contradiction|].
    destruct (save_as_body_refused env self t w1 tv ta Hdir1) as (E & _).
    fold body in E. now rewrite E. }
  split; [exact Htv|]. split; [exact Hta|].
  intros Hclean e He.
  destruct (decide (t = tv)) as [->|Hntv]; [exact Htv|].
  destruct (decide (t = ta)) as [->|Hnta];
    [apply Hta; right; apply Hvalid|].
  assert (Hbody : files (snd (body w1)) !! t = None).
  { destruct (fst (body w1)) as [[]|e'] eqn:Eb.
    - exfalso.
      destruct (save_as_body_returned env self t w1 (clock env (ticks w)) Eb)
        as (Hpv & Hpa).
      fold tv ta body in Hpv, Hpa.
      destruct Hr as [Hr|(_ & [Hd|Hd])]; [|contradiction..].
      rewrite Hr in He. discriminate He.
    - apply (save_as_body_failure env self t w1 tv ta e'); try assumption.
      + apply Hvalid.
      + unfold ta. now rewrite suffix_tmp_audio. }
  destruct Hf as [-> |(_ & _ & ->)]; [|exact Hbody].
  now do 2 apply lookup_delete_absent.
Qed.

(** C1, as the code has it.  An operation never leaves a file at its
    temporary path that was not there before, and once it has named its
    temporary file (valid destination, stream found) no file is there
    when the call returns, on success and on every failure, whatever the
    provider and the external process do.  [save_as], once its destination
    is valid, leaves no file at its temporary video path, and none at its
    temporary audio path unless a directory sits at the video path, whose
    unlinking fails first.  A failed video call leaves no destination; a
    failed audio or combined call leaves none provided the external
    process leaves nothing there when it exits with a nonzero code: the
    code creates the destination only by the final rename or through the
    process, and never removes what a failed process wrote.  Unlinking a
    missing file returns normally. *)
Theorem temp_files_removed_on_every_exit
    (env : Env) (self : YouTubeVideo) (t : Path) (w : World) :
  let timestamp := clock env (ticks w) in
  let tmp_video_file := tmp_video_path env timestamp in
  let tmp_audio_file := tmp_audio_path env timestamp in
  ((files w !! tmp_video_file = None ->
    files (snd (save_video_as env self t w)) !! tmp_video_file = None) /\
   (forall l s, valid_target w t [".webm"] ->
      catalog env (video self) = Streams l -> best_video_stream l = Returned s ->
      files (snd (save_video_as env self t w)) !! tmp_video_file = None) /\
   (forall e, fst (save_video_as env self t w) = Raised e ->
      files w !! t = None ->
      files (snd (save_video_as env self t w)) !! t = None)) /\
  ((files w !! tmp_audio_file = None ->
    files (snd (save_audio_as env self t w)) !! tmp_audio_file = None) /\
   (forall l s, valid_target w t [".opus"; ".mp3"] ->
      catalog env (video self) = Streams l -> best_audio_stream l = Returned s ->
      files (snd (save_audio_as env self t w)) !! tmp_audio_file = None) /\
   (clean_on_failure env t ->
    forall e, fst (save_audio_as env self t w) = Raised e ->
      files w !! t = None ->
      files (snd (save_audio_as env self t w)) !! t = None)) /\
  (valid_target w t [".webm"] ->
     files (snd (save_as env self t w)) !! tmp_video_file = None /\
     (str tmp_video_file ∉ dirs w \/ files w !! tmp_audio_file = None ->
      files (snd (save_as env self t w)) !! tmp_audio_file = None) /\
     (clean_on_failure env t ->
      forall e, fst (save_as env self t w) = Raised e ->
        files (snd (save_as env self t w)) !! t = None)) /\
  (forall p w0, files w0 !! p = None -> str p ∉ dirs w0 ->
     unlink p true w0 = (Returned tt, add_events [EUnlink p] w0)).
Proof.
  intros timestamp tv ta. split; [|split; [|split]].
  - pose proof (save_video_as_general env self t w) as H. cbv zeta in H.
    fold timestamp tv in H.
    destruct H as (evs & _ & _ & _ & _ & _ & Hc).
    split; [|split].
    + intros Hnone.
      destruct Hc as [(_ & _ & ->)|[(_ & _ & ->)|(_ & _ & s & ->)]];
        [exact Hnone|apply lookup_delete_eq..].
    + intros l s Hvalid Hcat Hbest.
      rewrite (save_video_as_valid _ _ _ _ Hvalid), Hcat, Hbest. cbv zeta.
      fold timestamp tv.
      match goal with
      | |- context [try_finally ?b _ ?w1] =>
          destruct (finally_unlink b tv w1) as (-> & _)
      end.
      apply lookup_delete_eq.
    + intros e He Hnone. apply save_video_as_creates; eauto.
  - pose proof (save_audio_as_general env self t w) as H. cbv zeta in H.
    fold timestamp ta in H.
    destruct H as (evs & _ & _ & _ & _ & _ & Hc).
    split; [|split].
    + intros Hnone.
      destruct Hc as [(_ & _ & ->)|[(_ & _ & ->)|[(_ & _ & _ & s & ->)
                     |(_ & _ & s & _ & ->)]]];
        [exact Hnone|apply lookup_delete_eq..].
    + intros l s Hvalid Hcat Hbest.
      rewrite (save_audio_as_valid _ _ _ _ Hvalid), Hcat, Hbest. cbv zeta.
      fold timestamp ta.
      match goal with
      | |- context [try_finally ?b _ ?w1] =>
          destruct (finally_unlink b ta w1) as (-> & _)
      end.
      apply lookup_delete_eq.
    + intros Hclean e He Hnone. now apply (save_audio_as_failure _ _ _ _ e).
  - intros Hvalid. exact (save_as_leaves env self t w Hvalid).
  - intros p w0 Hp Hd. rewrite (unlink_missing_ok _ _ Hd), (delete_id _ _ Hp).
    destruct w0; reflexivity.
Qed.

Lemma temp_files_removed_on_every_exit_witness :
  files (snd (save_audio_as
                (sample_env ticking_clock (failing_after_output new_mp3))
                sample_video new_mp3 sample_world)) !! sample_tmp_audio = None /\
  files (snd (save_audio_as (sample_env ticking_clock failing_cleanly)
                            sample_video new_mp3 sample_world)) !! new_mp3 = None /\
  files (snd (save_as (sample_env ticking_clock (failing_after_output new_mp3))
                      sample_video new_song sample_world)) !! sample_tmp_audio
  = None.
Proof.
  assert (Hvalid : valid_target sample_world new_mp3 [".opus"; ".mp3"]).
  { split; [vm_compute; reflexivity|split; [vm_compute; reflexivity|]].
    split; [by_evaluation|vm_compute; right; now left]. }
  split; [|split].
  - pose proof (temp_files_removed_on_every_exit
      (sample_env ticking_clock (failing_after_output new_mp3))
      sample_video new_mp3 sample_world) as H.
    cbv zeta in H. destruct H as (_ & (_ & Htmp & _) & _).
    apply (Htmp sample_streams a256 Hvalid); [reflexivity|vm_compute; reflexivity].
  - pose proof (temp_files_removed_on_every_exit
      (sample_env ticking_clock failing_cleanly)
      sample_video new_mp3 sample_world) as H.
    cbv zeta in H. destruct H as (_ & (_ & _ & Hdest) & _).
    apply (Hdest (fun command fs _ H => H) (CalledProcessError 1));
      vm_compute; reflexivity.
  - pose proof (temp_files_removed_on_every_exit
      (sample_env ticking_clock (failing_after_output new_mp3))
      sample_video new_song sample_world) as H.
    cbv zeta in H. destruct H as (_ & _ & Hcombined & _).
    destruct Hcombined as (_ & Hta & _).
    + split; [vm_compute; reflexivity|split; [vm_compute; reflexivity|]].
      split; [by_evaluation|vm_compute; now left].
    + apply Hta. right. vm_compute. reflexivity.
Defined.

(** C1, as the specification words it, fails: an encoder that wrote (part
    of) the MP3 before it exited with a nonzero code leaves the destination
    on disk, and the audio operation does not remove it. *)
Lemma failed_transcode_leaves_destination :
  ~ destination_absent_after_failure save_audio_as.
Proof.
  intros H.
  specialize (H (sample_env ticking_clock (failing_after_output new_mp3))
                sample_video new_mp3 sample_world (CalledProcessError 1)).
  assert (Hgone : files (snd (save_audio_as
                    (sample_env ticking_clock (failing_after_output new_mp3))
                    sample_video new_mp3 sample_world)) !! new_mp3 = None).
  { apply H.
    - vm_compute. reflexivity.
    - vm_compute. reflexivity.
    - exists a256, "/opt/ytd"%string, "tmp_audio_20240101_120000.opus"%string.
      split; [|discriminate].
      vm_compute. do 4 right. now left. }
  vm_compute in Hgone. discriminate Hgone.
Qed.

(** ** Which operations a run enters *)

Lemma save_audio_as_calls env self t w :
  exists evs, trace (snd (save_audio_as env self t w)) = trace w ++ evs /\
              List.filter is_call evs = [ECall SaveAudioAs t].
Proof.
  pose proof (save_audio_as_general env self t w) as H. cbv zeta in H.
  destruct H as (evs & Ht & Hc & _). now exists evs.
Qed.

Lemma save_as_calls env self t w :
  exists evs, trace (snd (save_as env self t w)) = trace w ++ evs /\
    let tmp_video_file := tmp_video_path env (clock env (ticks w)) in
    let tmp_audio_file := tmp_audio_path env (clock env (ticks w)) in
    (List.filter is_call evs = [ECall SaveAs t] \/
     List.filter is_call evs = [ECall SaveAs t; ECall SaveVideoAs tmp_video_file] \/
     List.filter is_call evs = [ECall SaveAs t; ECall SaveVideoAs tmp_video_file;
                                ECall SaveAudioAs tmp_audio_file]).
Proof.
  destruct (valid_or_bad w t [".webm"]) as [Hvalid|(e & evs & Hbad)].
  - destruct (save_as_stages env self t w Hvalid) as (evs & Ht & Hcases).
    exists evs. split; [exact Ht|]. cbv zeta.
    destruct Hcases as [(e & _ & _ & Hc & _)
                       |[(w2 & e & _ & _ & _ & Hc & _)
                        |(w2 & w3 & _ & _ & Hc & _)]]; auto.
  - rewrite (save_as_bad _ _ _ _ _ _ Hbad).
    destruct Hbad; eexists; (split; [reflexivity|left; reflexivity]).
Qed.

(** C10. Without [--version] and with a well-formed reference, [main] is
    the audio operation on the user's target when [--audio_only] is set and
    the combined operation on it otherwise.  The run enters only that
    operation with the user's target: in the audio case no other operation
    is entered, and in the combined case the video operation is entered at
    most once, after [save_as] and on the temporary path of [save_as]. *)
Theorem main_dispatch (env : Env) (arguments : Namespace) (w : World)
    (Hversion : version arguments = false)
    (Hlink : catalog env (hyperlink arguments) <> NotAVideo) :
  let self := mkYouTubeVideo (hyperlink arguments) in
  let user_target := Path_of_string (target arguments) in
  let tmp_video_file := tmp_video_path env (clock env (ticks w)) in
  let tmp_audio_file := tmp_audio_path env (clock env (ticks w)) in
  (audio_only arguments = true ->
   main env arguments w = save_audio_as env self user_target w /\
   exists evs, trace (snd (main env arguments w)) = trace w ++ evs /\
               List.filter is_call evs = [ECall SaveAudioAs user_target]) /\
  (audio_only arguments = false ->
   main env arguments w = save_as env self user_target w /\
   exists evs, trace (snd (main env arguments w)) = trace w ++ evs /\
     (List.filter is_call evs = [ECall SaveAs user_target] \/
      List.filter is_call evs
        = [ECall SaveAs user_target; ECall SaveVideoAs tmp_video_file] \/
      List.filter is_call evs
        = [ECall SaveAs user_target; ECall SaveVideoAs tmp_video_file;
           ECall SaveAudioAs tmp_audio_file])).
Proof.
  intros.
  assert (Hinit : YouTubeVideo_init env (hyperlink arguments) w
                  = (Returned self, w)).
  { unfold YouTubeVideo_init.
    destruct (catalog env (hyperlink arguments)); [contradiction|reflexivity..]. }
  split; intros Hmode.
  - assert (E : main env arguments w = save_audio_as env self user_target w).
    { unfold main, bind. now rewrite Hversion, Hinit, Hmode. }
    split; [exact E|]. rewrite E. apply save_audio_as_calls.
  - assert (E : main env arguments w = save_as env self user_target w).
    { unfold main, bind. now rewrite Hversion, Hinit, Hmode. }
    split; [exact E|]. rewrite E. apply save_as_calls.
Qed.

Lemma main_dispatch_witness :
  main (sample_env ticking_clock sample_muxer)
       (mkNamespace (video sample_video) "/music/new.webm" false false)
       sample_world
  = save_as (sample_env ticking_clock sample_muxer) sample_video new_song
            sample_world.
Proof.
  pose proof (main_dispatch (sample_env ticking_clock sample_muxer)
    (mkNamespace (video sample_video) "/music/new.webm" false false)
    sample_world) as H.
  cbn zeta in H. destruct H as (_ & Hcombined).
  - reflexivity.
  - vm_compute. discriminate.
  - destruct Hcombined as (E & _); [reflexivity|]. exact E.
Defined.

(** * Further properties of the operations *)

(** ** What a successful or a broken download leaves *)

(** X1. A video operation whose download completes returns with the payload
    of the best stream at the destination, the temporary file gone and
    every other file as before, provided nothing is in the way: the script
    directory exists, the temporary name is free (no file and no directory
    there), and the destination lies in a directory on the file system of
    the script directory. *)
Theorem video_success_delivers
    (env : Env) (self : YouTubeVideo) (t : Path) (w : World)
    (l : list Stream) (s : Stream)
    (Hvalid : valid_target w t [".webm"])
    (Hcat : catalog env (video self) = Streams l)
    (Hbest : best_video_stream l = Returned s)
    (Hnet : net env s = Complete)
    (Hother : t <> tmp_video_path env (clock env (ticks w)))
    (Hdir : script_dir env ∈ dirs w)
    (Hfree : files w !! tmp_video_path env (clock env (ticks w)) = None)
    (Hplain : str (tmp_video_path env (clock env (ticks w))) ∉ dirs w)
    (Hparent : parent t ∈ dirs w)
    (Hdevice : device env (script_dir env) = device env (parent t)) :
  let tmp := tmp_video_path env (clock env (ticks w)) in
  fst (save_video_as env self t w) = Returned tt /\
  files (snd (save_video_as env self t w))
    = <[t := Media s]> (delete tmp (files w)) /\
  files (snd (save_video_as env self t w)) = <[t := Media s]> (files w) /\
  files (snd (save_video_as env self t w)) !! t = Some (Media s) /\
  files (snd (save_video_as env self t w)) !! tmp = None.
Proof.
  intros tmp.
  rewrite (save_video_as_complete _ _ _ _ _ _ Hvalid Hcat Hbest Hnet Hdir Hplain
             Hparent Hdevice).
  cbv zeta. fold tmp. cbn [fst snd files].
  assert (E : delete tmp (<[t := Media s]> (delete tmp (files w)))
              = <[t := Media s]> (delete tmp (files w))).
  { rewrite delete_insert_ne by (apply not_eq_sym; exact Hother).
    now rewrite delete_delete_eq. }
  rewrite E. split; [reflexivity|]. split; [reflexivity|].
  split; [now rewrite (delete_id _ _ Hfree)|]. split.
  - apply lookup_insert_eq.
  - rewrite lookup_insert_ne by exact Hother. apply lookup_delete_eq.
Qed.

Lemma video_success_delivers_witness :
  files (snd (save_video_as (sample_env ticking_clock idle_process) sample_video
                            new_song sample_world)) !! new_song
  = Some (Media v1080_60).
Proof.
  pose proof (video_success_delivers (sample_env ticking_clock idle_process)
    sample_video new_song sample_world sample_streams v1080_60) as H.
  cbv zeta in H. destruct H as (_ & _ & _ & Hthere & _).
  - split; [vm_compute; reflexivity|split; [vm_compute; reflexivity|]].
    split; [by_evaluation|vm_compute; now left].
  - reflexivity.
  - vm_compute. reflexivity.
  - reflexivity.
  - vm_compute. discriminate.
  - by_evaluation.
  - vm_compute. reflexivity.
  - by_evaluation.
  - by_evaluation.
  - reflexivity.
  - exact Hthere.
Defined.

(** X2. A download that does not complete is fatal at once.  With the
    script directory in place and the temporary name free (no file and no
    directory there), a video operation whose download breaks off raises
    the transport error after a single download event, with no rename and
    no process, and the temporary file, partial or not, is unlinked, so
    that the files are exactly those from before; and, on its own
    premises, so does an audio operation. *)
Theorem broken_download_leaves_nothing
    (env : Env) (self : YouTubeVideo) (w : World) (l : list Stream)
    (Hcat : catalog env (video self) = Streams l)
    (Hdir : script_dir env ∈ dirs w) :
  let tmp_v := tmp_video_path env (clock env (ticks w)) in
  let tmp_a := tmp_audio_path env (clock env (ticks w)) in
  (forall t s,
     valid_target w t [".webm"] -> best_video_stream l = Returned s ->
     net env s <> Complete -> files w !! tmp_v = None -> str tmp_v ∉ dirs w ->
     save_video_as env self t w
     = (Raised IncompleteRead,
        mkWorld (dirs w) (files w) (S (ticks w))
                (trace w ++ [ECall SaveVideoAs t; EDirExists (parent t);
                             EExists t; EStreams (video self);
                             EDownload s (script_dir env) (name tmp_v);
                             EUnlink tmp_v]))) /\
  (forall t s,
     valid_target w t [".opus"; ".mp3"] -> best_audio_stream l = Returned s ->
     net env s <> Complete -> files w !! tmp_a = None -> str tmp_a ∉ dirs w ->
     save_audio_as env self t w
     = (Raised IncompleteRead,
        mkWorld (dirs w) (files w) (S (ticks w))
                (trace w ++ [ECall SaveAudioAs t; EDirExists (parent t);
                             EExists t; EStreams (video self);
                             EDownload s (script_dir env) (name tmp_a);
                             EUnlink tmp_a]))).
Proof.
  intros. split.
  - intros t s Hvalid Hbest Hnet Hfree Hplain.
    rewrite (save_video_as_valid _ _ _ _ Hvalid), Hcat, Hbest. cbv zeta.
    fold tmp_v. rewrite block_broken; try assumption.
    cbn [files tick add_events]. rewrite (delete_id _ _ Hfree). same_world.
  - intros t s Hvalid Hbest Hnet Hfree Hplain.
    rewrite (save_audio_as_valid _ _ _ _ Hvalid), Hcat, Hbest. cbv zeta.
    fold tmp_a. rewrite block_broken; try assumption.
    cbn [files tick add_events]. rewrite (delete_id _ _ Hfree). same_world.
Qed.

Lemma broken_download_leaves_nothing_witness :
  fst (save_video_as flaky_env sample_video new_song sample_world)
    = Raised IncompleteRead /\
  files (snd (save_video_as flaky_env sample_video new_song sample_world))
    = files sample_world.
Proof.
  pose proof (broken_download_leaves_nothing flaky_env sample_video sample_world
    sample_streams) as H.
  cbv zeta in H. destruct H as (Hv & _).
  - reflexivity.
  - by_evaluation.
  - rewrite (Hv new_song v1080_60).
    + split; reflexivity.
    + split; [vm_compute; reflexivity|split; [vm_compute; reflexivity|]].
      split; [by_evaluation|vm_compute; now left].
    + vm_compute. reflexivity.
    + vm_compute. discriminate.
    + vm_compute. reflexivity.
    + by_evaluation.
Defined.
(** ** What selection accepts and what makes it fail *)

Lemma decorate_returned {K A : Type} (key : A -> outcome K) (l : list A) d :
  decorate key l = Returned d ->
  map snd d = l /\ Forall (fun y => key (snd y) = Returned (fst y)) d.
Proof.
  revert d. induction l as [|x l IH]; intros d; simpl.
  - intros [= <-]. split; [reflexivity|constructor].
  - destruct (key x) as [k|e] eqn:Hx; [|discriminate].
    destruct (decorate key l) as [d'|e]; [|discriminate].
    intros [= <-]. destruct (IH d' eq_refl) as (Hm & Hf).
    split; [simpl; now rewrite Hm|now constructor].
Qed.

Lemma decorate_raises {K A : Type} (key : A -> outcome K) (l : list A) x e :
  In x l -> key x = Raised e ->
  exists e' y, decorate key l = Raised e' /\ In y l /\ key y = Raised e'.
Proof.
  induction l as [|z l IH]; intros Hin Hx; [destruct Hin|].
  simpl. destruct (key z) as [k|e0] eqn:Hz.
  - destruct Hin as [->|Hin]; [congruence|].
    destruct (IH Hin Hx) as (e' & y & Hd & Hy & Hk).
    exists e', y. rewrite Hd. repeat split; [now right|exact Hk].
  - exists e0, z. repeat split; [now left|exact Hz].
Qed.

Lemma unpack_first_sorted_In {K A : Type} (ltb : K -> K -> bool)
    (key : A -> outcome K) (l : list A) (s : A) :
  unpack_first (sorted_reverse ltb key l) = Returned s ->
  In s l /\ exists k, key s = Returned k.
Proof.
  unfold sorted_reverse. destruct (decorate key l) as [d|e] eqn:Hd; [|discriminate].
  destruct (decorate_returned key l d Hd) as (Hm & Hf).
  destruct (sort_desc ltb d) as [|x rest] eqn:Hs; [discriminate|].
  cbn. intros [= <-].
  assert (Hx : In x d).
  { apply (Permutation_in _ (sort_desc_perm ltb d)). rewrite Hs. now left. }
  split.
  - rewrite <- Hm. now apply in_map.
  - exists (fst x). rewrite List.Forall_forall in Hf. now apply Hf.
Qed.

Lemma check_if_dash_stream_true (s : Stream) :
  check_if_dash_stream s = true <->
  mime_type s = "video/webm" /\ is_adaptive s = true /\
  (video_codec s = Some "vp9" \/ video_codec s = Some "vp9.2").
Proof.
  unfold check_if_dash_stream, in_strings.
  destruct (String.eqb_spec (mime_type s) "video/webm") as [Hm|Hm]; cbn.
  2: { split; [discriminate|intros (H & _); contradiction]. }
  destruct (is_adaptive s); cbn.
  2: { split; [discriminate|intros (_ & H & _); discriminate]. }
  destruct (video_codec s) as [c|]; cbn.
  2: { split; [discriminate|intros (_ & _ & [H|H]); discriminate]. }
  destruct (String.eqb_spec c "vp9") as [->|H9]; cbn.
  { split; [intros _; split; [exact Hm|split; [reflexivity|now left]]|reflexivity]. }
  destruct (String.eqb_spec c "vp9.2") as [->|H92]; cbn.
  { split; [intros _; split; [exact Hm|split; [reflexivity|now right]]|reflexivity]. }
  split; [discriminate|intros (_ & _ & [H|H]); congruence].
Qed.

Lemma is_dash_audio_true (s : Stream) :
  is_dash_audio s = true <->
  mime_type s = "audio/webm" /\ audio_codec s = Some "opus" /\
  is_adaptive s = true.
Proof.
  unfold is_dash_audio, in_strings.
  destruct (String.eqb_spec (mime_type s) "audio/webm") as [Hm|Hm]; cbn.
  2: { split; [discriminate|intros (H & _); contradiction]. }
  destruct (audio_codec s) as [c|]; cbn.
  2: { split; [discriminate|intros (_ & H & _); discriminate]. }
  destruct (String.eqb_spec c "opus") as [->|Ho]; cbn.
  2: { split; [discriminate|intros (_ & H & _); congruence]. }
  destruct (is_adaptive s); cbn; split; try discriminate; tauto.
Qed.

(** X3. Whatever selection returns is one of the listed streams and passes
    the filter of its operation: an adaptive [video/webm] stream in VP9 or
    VP9.2 whose resolution is a numeral followed by one character, or an
    adaptive [audio/webm] stream in Opus. *)
Theorem selected_stream_passes_filter
    (video_all audio_all : list Stream) (sv sa : Stream)
    (Hvideo : best_video_stream video_all = Returned sv)
    (Haudio : best_audio_stream audio_all = Returned sa) :
  (In sv video_all /\ mime_type sv = "video/webm" /\ is_adaptive sv = true /\
   (video_codec sv = Some "vp9" \/ video_codec sv = Some "vp9.2") /\
   exists r n, resolution sv = Some r /\ py_int (drop_last r) = Some n) /\
  (In sa audio_all /\ mime_type sa = "audio/webm" /\
   audio_codec sa = Some "opus" /\ is_adaptive sa = true).
Proof.
  split.
  - apply unpack_first_sorted_In in Hvideo as (Hin & k & Hk).
    apply filter_In in Hin as (Hin & Hcheck).
    apply check_if_dash_stream_true in Hcheck as (Hm & Ha & Hc).
    repeat split; try assumption.
    unfold sort_criteria in Hk.
    destruct (resolution sv) as [r|]; [|discriminate].
    destruct (py_int (drop_last r)) as [n|] eqn:Hn; [|discriminate].
    now exists r, n.
  - apply unpack_first_sorted_In in Haudio as (Hin & _).
    apply filter_In in Hin as (Hin & Hcheck).
    apply is_dash_audio_true in Hcheck as (Hm & Hc & Ha).
    now repeat split.
Qed.

Lemma selected_stream_passes_filter_witness :
  In v1080_60 sample_streams /\ In a256 sample_streams.
Proof.
  destruct (selected_stream_passes_filter sample_streams sample_streams
              v1080_60 a256) as ((Hv & _) & (Ha & _)).
  - vm_compute. reflexivity.
  - vm_compute. reflexivity.
  - split; assumption.
Defined.

Lemma sort_criteria_raises (x : Stream) (e : exn) :
  sort_criteria x = Raised e -> e = TypeError \/ e = ValueError.
Proof.
  unfold sort_criteria. destruct (resolution x) as [r|].
  - destruct (py_int (drop_last r)); [discriminate|]. intros [= <-]. now right.
  - intros [= <-]. now left.
Qed.

(** X4. One candidate whose resolution is missing or not a number makes
    the whole selection fail, whatever the other candidates are: the key
    of every candidate is computed before any is chosen.  The video
    operation then raises [TypeError] or [ValueError] right after the
    stream list was fetched, before any download. *)
Theorem bad_resolution_aborts_selection
    (env : Env) (self : YouTubeVideo) (t : Path) (w : World)
    (l : list Stream) (x : Stream) (e : exn)
    (Hvalid : valid_target w t [".webm"])
    (Hcat : catalog env (video self) = Streams l)
    (Hin : In x l)
    (Hcandidate : check_if_dash_stream x = true)
    (Hbad : sort_criteria x = Raised e) :
  exists e',
    (e' = TypeError \/ e' = ValueError) /\
    best_video_stream l = Raised e' /\
    save_video_as env self t w
    = (Raised e',
       add_events [ECall SaveVideoAs t; EDirExists (parent t); EExists t;
                   EStreams (video self)] w).
Proof.
  assert (Hf : In x (List.filter check_if_dash_stream l))
    by (apply filter_In; now split).
  destruct (decorate_raises sort_criteria _ x e Hf Hbad) as (e' & y & Hd & _ & Hy).
  exists e'. split; [exact (sort_criteria_raises y e' Hy)|].
  assert (Hbest : best_video_stream l = Raised e').
  { unfold best_video_stream, sorted_reverse. now rewrite Hd. }
  split; [exact Hbest|].
  now rewrite (save_video_as_valid _ _ _ _ Hvalid), Hcat, Hbest.
Qed.

Lemma bad_resolution_aborts_selection_witness :
  best_video_stream (sample_video_streams ++ [v_unknown]) = Raised TypeError.
Proof.
  destruct (bad_resolution_aborts_selection
    (mkEnv "/opt/ytd" ticking_clock
           (fun _ => Streams (sample_video_streams ++ [v_unknown]))
           (fun _ => Complete) idle_process (fun _ => 0%nat))
    sample_video new_song sample_world
    (sample_video_streams ++ [v_unknown]) v_unknown TypeError)
    as (e' & _ & Hbest & _).
  - split; [vm_compute; reflexivity|split; [vm_compute; reflexivity|]].
    split; [by_evaluation|vm_compute; now left].
  - reflexivity.
  - vm_compute. do 4 right. now left.
  - reflexivity.
  - reflexivity.
  - rewrite Hbest. f_equal.
    assert (E : best_video_stream (sample_video_streams ++ [v_unknown])
                = Raised TypeError) by (vm_compute; reflexivity).
    congruence.
Defined.


(** ** Files that are already there *)

Lemma save_as_keeps env self t w p c :
  parent p <> script_dir env ->
  untouched_by_processes env p ->
  files w !! p = Some c ->
  files (snd (save_as env self t w)) !! p = Some c.
Proof.
  intros Hp Hproc Hf.
  destruct (valid_or_bad w t [".webm"]) as [Hvalid|(e & evs & Hbad)].
  2: { now rewrite (save_as_bad _ _ _ _ _ _ Hbad). }
  rewrite (save_as_valid _ _ _ _ Hvalid). cbv zeta.
  set (tv := tmp_video_path env (clock env (ticks w))).
  set (ta := tmp_audio_path env (clock env (ticks w))).
  set (w1 := tick _).
  set (body := save_video_as env self tv ;; _).
  assert (Hbody : files (snd (body w1)) !! p = Some c).
  { unfold body, bind.
    pose proof (save_video_as_keeps env self tv w1 p c Hp Hf) as F1.
    destruct (save_video_as env self tv w1) as [[[]|e1] w2]; [|exact F1].
    cbn [snd] in F1.
    pose proof (save_audio_as_keeps env self ta w2 p c Hp Hproc F1) as F2.
    destruct (save_audio_as env self ta w2) as [[[]|e2] w3]; [|exact F2].
    cbn [snd] in F2.
    destruct (subprocess_run_cases env (mux_command tv ta t) w3)
      as [(Hs & E)|(argv & Hs & E)]; cbv zeta in E; rewrite E; cbn [snd files].
    - exact F2.
    - now rewrite write_all_lookup_notin by apply Hproc. }
  pose proof (combined_finally body tv ta w1) as H. cbv zeta in H.
  destruct H as (_ & _ & _ & [-> |(_ & _ & ->)] & _); [|exact Hbody].
  apply lookup_delete_kept; [|now apply in_script_dir_audio].
  apply lookup_delete_kept; [exact Hbody|now apply in_script_dir_video].
Qed.

(** X5. No operation clobbers what is already on disk: a file outside the
    script directory (where the temporary files live) that no external
    process writes is still there, with the same content, when a video, an
    audio or a combined call returns, whether the call succeeds or fails. *)
Theorem existing_files_survive
    (env : Env) (self : YouTubeVideo) (t : Path) (w : World)
    (p : Path) (c : Content)
    (Hplace : parent p <> script_dir env)
    (Hproc : untouched_by_processes env p)
    (Hfile : files w !! p = Some c) :
  files (snd (save_video_as env self t w)) !! p = Some c /\
  files (snd (save_audio_as env self t w)) !! p = Some c /\
  files (snd (save_as env self t w)) !! p = Some c.
Proof.
  split; [now apply save_video_as_keeps|].
  split; [now apply save_audio_as_keeps|now apply save_as_keeps].
Qed.

Lemma existing_files_survive_witness :
  files (snd (save_as (sample_env ticking_clock obedient_muxer) sample_video
                      new_song sample_world)) !! old_song
  = Some (Encoded "earlier run").
Proof.
  destruct (existing_files_survive (sample_env ticking_clock obedient_muxer)
              sample_video new_song sample_world old_song
              (Encoded "earlier run")) as (_ & _ & H).
  - vm_compute. discriminate.
  - intros command fs [E|[]]. vm_compute in E. discriminate E.
  - vm_compute. reflexivity.
  - exact H.
Defined.

(** ** How many downloads and processes a call can cause *)

(** X6. Nothing is retried and no process runs that the destination does
    not call for.  A video call causes at most one download and never a
    process; an audio call at most one download and at most one process,
    the transcoder, and only for a [.mp3] destination; a combined call at
    most two downloads and at most one process, the muxer: the audio stage
    inside it never transcodes. *)
Theorem no_retry_and_one_process
    (env : Env) (self : YouTubeVideo) (t : Path) (w : World) :
  (exists evs, trace (snd (save_video_as env self t w)) = trace w ++ evs /\
     (length (List.filter is_download evs) <= 1)%nat /\
     List.filter is_process evs = []) /\
  (exists evs, trace (snd (save_audio_as env self t w)) = trace w ++ evs /\
     (length (List.filter is_download evs) <= 1)%nat /\
     (List.filter is_process evs = [] \/
      suffix t = ".mp3" /\
      List.filter is_process evs
      = [ERun (transcode_command (tmp_audio_path env (clock env (ticks w))) t)])) /\
  (exists evs, trace (snd (save_as env self t w)) = trace w ++ evs /\
     (length (List.filter is_download evs) <= 2)%nat /\
     (List.filter is_process evs = [] \/
      List.filter is_process evs
      = [ERun (mux_command (tmp_video_path env (clock env (ticks w)))
                           (tmp_audio_path env (clock env (ticks w))) t)])).
Proof.
  split; [|split].
  - pose proof (save_video_as_general env self t w) as H. cbv zeta in H.
    destruct H as (evs & Ht & _ & Hd & Hp & _). now exists evs.
  - pose proof (save_audio_as_general env self t w) as H. cbv zeta in H.
    destruct H as (evs & Ht & _ & Hd & Hp & _). now exists evs.
  - destruct (valid_or_bad w t [".webm"]) as [Hvalid|(e & q & Hbad)].
    + destruct (save_as_stages env self t w Hvalid) as (evs & Ht & Hcases).
      exists evs. split; [exact Ht|].
      destruct Hcases as [(e & _ & _ & _ & Hd & Hp)
                         |[(w2 & e & _ & _ & _ & _ & Hd & Hp)
                          |(w2 & w3 & _ & _ & _ & Hd & Hp)]].
      * split; [lia|now left].
      * split; [lia|now left].
      * split; [lia|exact Hp].
    + rewrite (save_as_bad _ _ _ _ _ _ Hbad).
      destruct Hbad; explicit_events.
Qed.

(** X7. A combined call stops at the first stage that fails and, with no
    directory at either of its temporary paths, raises that stage's
    exception unchanged: when the video stage fails, the audio operation
    is not entered, and when either stage fails no process is started; the
    muxer runs only after both stages returned. *)
Theorem combined_stops_at_first_failure
    (env : Env) (self : YouTubeVideo) (t : Path) (w : World)
    (Hvalid : valid_target w t [".webm"])
    (Hplain_v : str (tmp_video_path env (clock env (ticks w))) ∉ dirs w)
    (Hplain_a : str (tmp_audio_path env (clock env (ticks w))) ∉ dirs w) :
  let tv := tmp_video_path env (clock env (ticks w)) in
  let ta := tmp_audio_path env (clock env (ticks w)) in
  let w1 := tick (add_events [ECall SaveAs t; EDirExists (parent t); EExists t] w) in
  exists evs, trace (snd (save_as env self t w)) = trace w ++ evs /\
    (forall e, fst (save_video_as env self tv w1) = Raised e ->
       fst (save_as env self t w) = Raised e /\
       List.filter is_call evs = [ECall SaveAs t; ECall SaveVideoAs tv] /\
       List.filter is_process evs = []) /\
    (forall w2 e, save_video_as env self tv w1 = (Returned tt, w2) ->
       fst (save_audio_as env self ta w2) = Raised e ->
       fst (save_as env self t w) = Raised e /\
       List.filter is_process evs = []) /\
    (In (ERun (mux_command tv ta t)) evs ->
     exists w2 w3, save_video_as env self tv w1 = (Returned tt, w2) /\
                   save_audio_as env self ta w2 = (Returned tt, w3)).
Proof.
  intros tv ta w1.
  destruct (save_as_stages env self t w Hvalid) as (evs & Ht & Hcases).
  fold tv ta w1 in Hcases.
  exists evs. split; [exact Ht|].
  assert (Hrun : forall c, List.filter is_process evs = [] -> ~ In (ERun c) evs).
  { intros c Hnone Hin.
    assert (Hf : In (ERun c) (List.filter is_process evs))
      by (apply filter_In; now split).
    rewrite Hnone in Hf. destruct Hf. }
  destruct Hcases as [(e & Hv & Hs & Hc & _ & Hp)
                     |[(w2 & e & Hv & Ha & Hs & _ & _ & Hp)
                      |(w2 & w3 & Hv & Ha & _ & _ & _)]].
  - specialize (Hs Hplain_v Hplain_a). split; [|split].
    + intros e' He'. rewrite Hv in He'. injection He' as <-. now repeat split.
    + intros w2 e' Hv'. rewrite Hv' in Hv. discriminate Hv.
    + intros Hin. now apply Hrun in Hin.
  - specialize (Hs Hplain_v Hplain_a). split; [|split].
    + intros e' He'. rewrite Hv in He'. discriminate He'.
    + intros w2' e' Hv' Ha'. rewrite Hv in Hv'. injection Hv' as <-.
      rewrite Ha in Ha'. injection Ha' as <-. now split.
    + intros Hin. now apply Hrun in Hin.
  - split; [|split].
    + intros e' He'. rewrite Hv in He'. discriminate He'.
    + intros w2' e' Hv' Ha'. rewrite Hv in Hv'. injection Hv' as <-.
      rewrite Ha in Ha'. discriminate Ha'.
    + intros _. now exists w2, w3.
Qed.

Lemma combined_stops_at_first_failure_witness :
  fst (save_as lopsided_env sample_video new_song sample_world)
  = Raised ValueError.
Proof.
  assert (Hvalid : valid_target sample_world new_song [".webm"]).
  { split; [vm_compute; reflexivity|split; [vm_compute; reflexivity|]].
    split; [by_evaluation|vm_compute; now left]. }
  destruct (combined_stops_at_first_failure lopsided_env sample_video new_song
              sample_world Hvalid) as (evs & _ & Hvideo & _).
  - by_evaluation.
  - by_evaluation.
  - destruct (Hvideo ValueError) as (H & _); [vm_compute; reflexivity|exact H].
Defined.

(** ** The inputs of the muxer and the result of a combined call *)

(** X8. Each input of the muxer is on disk exactly when the inner
    operation read a timestamp different from the one of [save_as].  In
    particular, when the audio stage reads the same timestamp, the audio
    file is downloaded, renamed to itself and unlinked, and the muxer is
    started without it.  (The temporary names are free, no directory sits
    at any of them, and the command line of the muxer splits into
    words.) *)
Theorem mux_inputs_need_later_timestamps
    (env : Env) (self : YouTubeVideo) (t : Path) (w : World)
    (l : list Stream) (s a : Stream) (argv : list string)
    (Hvalid : valid_target w t [".webm"])
    (Hdir : script_dir env ∈ dirs w)
    (Hfree_v : files w !! tmp_video_path env (clock env (ticks w)) = None)
    (Hfree_a : files w !! tmp_audio_path env (clock env (ticks w)) = None)
    (Hcat : catalog env (video self) = Streams l)
    (Hbest_v : best_video_stream l = Returned s)
    (Hbest_a : best_audio_stream l = Returned a)
    (Hnet_v : net env s = Complete)
    (Hnet_a : net env a = Complete)
    (Hplain_v : str (tmp_video_path env (clock env (ticks w))) ∉ dirs w)
    (Hplain_a : str (tmp_audio_path env (clock env (ticks w))) ∉ dirs w)
    (Hplain_iv : str (tmp_video_path env (clock env (S (ticks w)))) ∉ dirs w)
    (Hplain_ia : str (tmp_audio_path env (clock env (S (S (ticks w))))) ∉ dirs w)
    (Hsplit : shlex_split
                (mux_command (tmp_video_path env (clock env (ticks w)))
                             (tmp_audio_path env (clock env (ticks w))) t)
              = Returned argv) :
  let timestamp := clock env (ticks w) in
  let tmp_video_file := tmp_video_path env timestamp in
  let tmp_audio_file := tmp_audio_path env timestamp in
  let command := mux_command tmp_video_file tmp_audio_file t in
  let fs := files_before_mux env w s a in
  snd (save_as env self t w)
    = mkWorld (dirs w)
              (delete tmp_audio_file
                 (delete tmp_video_file
                    (write_all (Encoded command)
                               (leaves (proc env command fs)) fs)))
              (S (S (S (ticks w))))
              (trace w ++ combined_events env self t w s a) /\
  (fs !! tmp_video_file = Some (Media s) <-> clock env (S (ticks w)) <> timestamp) /\
  (fs !! tmp_audio_file = Some (Media a) <->
   clock env (S (S (ticks w))) <> timestamp) /\
  (clock env (S (S (ticks w))) = timestamp -> fs !! tmp_audio_file = None).
Proof.
  intros. split; [|split; [|split]].
  - now rewrite (save_as_complete _ _ _ _ _ _ _ _ Hvalid Hdir Hfree_v Hfree_a
                   Hplain_v Hplain_a Hplain_iv Hplain_ia Hcat
                   Hbest_v Hbest_a Hnet_v Hnet_a Hsplit).
  - split; [|apply files_before_mux_video].
    intros Hsome Hsame. unfold fs, tmp_video_file, timestamp in Hsome.
    rewrite (files_before_mux_same_second _ _ _ _ Hsame Hfree_v) in Hsome.
    discriminate Hsome.
  - split; [|apply files_before_mux_audio].
    intros Hsome Hsame. unfold fs, tmp_audio_file, timestamp in Hsome.
    rewrite (files_before_mux_audio_same_second _ _ _ _ Hsame) in Hsome.
    discriminate Hsome.
  - apply files_before_mux_audio_same_second.
Qed.

Lemma mux_inputs_need_later_timestamps_witness :
  files_before_mux (sample_env same_second_clock sample_muxer) sample_world
                   v1080_60 a256 !! sample_tmp_audio = None.
Proof.
  pose proof (mux_inputs_need_later_timestamps
    (sample_env same_second_clock sample_muxer) sample_video new_song
    sample_world sample_streams v1080_60 a256
    ["ffmpeg"; "-i"; "/opt/ytd/tmp_video_20240101_120000.webm"; "-i";
     "/opt/ytd/tmp_audio_20240101_120000.opus"; "/music/new.webm"]) as H.
  cbv zeta in H. destruct H as (_ & _ & _ & Hgone).
  - split; [vm_compute; reflexivity|split; [vm_compute; reflexivity|]].
    split; [by_evaluation|vm_compute; now left].
  - by_evaluation.
  - vm_compute. reflexivity.
  - vm_compute. reflexivity.
  - reflexivity.
  - vm_compute. reflexivity.
  - vm_compute. reflexivity.
  - reflexivity.
  - reflexivity.
  - by_evaluation.
  - by_evaluation.
  - by_evaluation.
  - by_evaluation.
  - vm_compute. reflexivity.
  - apply Hgone. reflexivity.
Defined.

(** X9. A combined call whose downloads complete, whose inner operations
    read later timestamps or not, and whose muxer returns zero having
    written exactly the destination, returns with the muxer's output at
    the destination and no temporary file of any of the three operations
    left: apart from the destination, the files are those from before,
    less whatever carried one of the temporary names.  (The temporary
    names of [save_as] are free, no directory sits at any temporary name,
    and the command line of the muxer splits into words.) *)
Theorem combined_success_delivers
    (env : Env) (self : YouTubeVideo) (t : Path) (w : World)
    (l : list Stream) (s a : Stream) (argv : list string)
    (Hvalid : valid_target w t [".webm"])
    (Hplace : parent t <> script_dir env)
    (Hdir : script_dir env ∈ dirs w)
    (Hfree_v : files w !! tmp_video_path env (clock env (ticks w)) = None)
    (Hfree_a : files w !! tmp_audio_path env (clock env (ticks w)) = None)
    (Hcat : catalog env (video self) = Streams l)
    (Hbest_v : best_video_stream l = Returned s)
    (Hbest_a : best_audio_stream l = Returned a)
    (Hnet_v : net env s = Complete)
    (Hnet_a : net env a = Complete)
    (Hzero : returncode
               (proc env
                  (mux_command (tmp_video_path env (clock env (ticks w)))
                               (tmp_audio_path env (clock env (ticks w))) t)
                  (files_before_mux env w s a)) = 0)
    (Hout : leaves
              (proc env
                 (mux_command (tmp_video_path env (clock env (ticks w)))
                              (tmp_audio_path env (clock env (ticks w))) t)
                 (files_before_mux env w s a)) = [t])
    (Hplain_v : str (tmp_video_path env (clock env (ticks w))) ∉ dirs w)
    (Hplain_a : str (tmp_audio_path env (clock env (ticks w))) ∉ dirs w)
    (Hplain_iv : str (tmp_video_path env (clock env (S (ticks w)))) ∉ dirs w)
    (Hplain_ia : str (tmp_audio_path env (clock env (S (S (ticks w))))) ∉ dirs w)
    (Hsplit : shlex_split
                (mux_command (tmp_video_path env (clock env (ticks w)))
                             (tmp_audio_path env (clock env (ticks w))) t)
              = Returned argv) :
  let command := mux_command (tmp_video_path env (clock env (ticks w)))
                             (tmp_audio_path env (clock env (ticks w))) t in
  let inner_video := tmp_video_path env (clock env (S (ticks w))) in
  let inner_audio := tmp_audio_path env (clock env (S (S (ticks w)))) in
  fst (save_as env self t w) = Returned tt /\
  files (snd (save_as env self t w))
    = <[t := Encoded command]> (delete inner_audio (delete inner_video (files w))).
Proof.
  intros.
  rewrite (save_as_complete _ _ _ _ _ _ _ _ Hvalid Hdir Hfree_v Hfree_a
             Hplain_v Hplain_a Hplain_iv Hplain_ia Hcat
             Hbest_v Hbest_a Hnet_v Hnet_a Hsplit).
  cbv zeta. rewrite Hzero, Hout. cbn [fst snd files write_all foldr Z.eqb].
  split; [reflexivity|]. fold command.
  set (tv := tmp_video_path env (clock env (ticks w))) in *.
  set (ta := tmp_audio_path env (clock env (ticks w))) in *.
  assert (Htv : t <> tv) by (now apply in_script_dir_video).
  assert (Hta : t <> ta) by (now apply in_script_dir_audio).
  assert (Hiv : t <> inner_video) by (now apply in_script_dir_video).
  assert (Hia : t <> inner_audio) by (now apply in_script_dir_audio).
  assert (Hva : tv <> ta) by apply tmp_video_not_audio.
  assert (Hvia : tv <> inner_audio) by apply tmp_video_not_audio.
  assert (Hiva : inner_video <> ta) by apply tmp_video_not_audio.
  assert (Hivia : inner_video <> inner_audio) by apply tmp_video_not_audio.
  unfold files_before_mux. fold tv ta inner_video inner_audio.
  apply map_eq. intros p.
  repeat (first [rewrite lookup_insert | rewrite lookup_delete]).
  repeat case_decide; subst; try reflexivity; congruence.
Qed.

Lemma combined_success_delivers_witness :
  files (snd (save_as (sample_env ticking_clock obedient_muxer) sample_video
                      new_song sample_world)) !! new_song
  = Some (Encoded (mux_command sample_tmp_video sample_tmp_audio new_song)).
Proof.
  pose proof (combined_success_delivers
    (sample_env ticking_clock obedient_muxer) sample_video new_song
    sample_world sample_streams v1080_60 a256
    ["ffmpeg"; "-i"; "/opt/ytd/tmp_video_20240101_120000.webm"; "-i";
     "/opt/ytd/tmp_audio_20240101_120000.opus"; "/music/new.webm"]) as H.
  cbv zeta in H. destruct H as (_ & Hfiles).
  - split; [vm_compute; reflexivity|split; [vm_compute; reflexivity|]].
    split; [by_evaluation|vm_compute; now left].
  - vm_compute. discriminate.
  - by_evaluation.
  - vm_compute. reflexivity.
  - vm_compute. reflexivity.
  - reflexivity.
  - vm_compute. reflexivity.
  - vm_compute. reflexivity.
  - reflexivity.
  - reflexivity.
  - reflexivity.
  - reflexivity.
  - by_evaluation.
  - by_evaluation.
  - by_evaluation.
  - by_evaluation.
  - vm_compute. reflexivity.
  - rewrite Hfiles. apply lookup_insert_eq.
Defined.

(** ** What validation accepts *)

(** X10. Validation returns exactly for a destination at whose parent path
    something is found, at which nothing is found (neither a regular file
    nor a directory) and whose suffix is one of the given extensions; in
    every case it only asks the file system (at most two queries) and
    leaves directories, files and clock as they were.  What is found is
    what [Path.exists()] finds: a regular file at the parent path counts as
    well as a directory, and a directory at the destination as well as a
    file. *)
Theorem validation_accepts_exactly (t : Path) (extensions : list string) (w : World) :
  (fst (validate_target t extensions w) = Returned tt
   <-> valid_target w t extensions) /\
  (valid_target w t extensions
   <-> string_exists w (parent t) = true /\ path_found w t = false /\
       In (suffix t) extensions) /\
  (string_exists w (parent t) = true
   <-> parent t ∈ dirs w \/ exists p, files w !! p <> None /\ str p = parent t) /\
  dirs (snd (validate_target t extensions w)) = dirs w /\
  files (snd (validate_target t extensions w)) = files w /\
  ticks (snd (validate_target t extensions w)) = ticks w /\
  exists evs, trace (snd (validate_target t extensions w)) = trace w ++ evs /\
              forallb is_harmless evs = true /\ (length evs <= 2)%nat.
Proof.
  split; [|split; [|split]].
  - destruct (valid_or_bad w t extensions) as [Hvalid|(e & evs & Hbad)].
    + rewrite (validate_target_ok _ _ _ Hvalid). cbn [fst].
      split; [intros _; exact Hvalid|reflexivity].
    + rewrite (validate_target_bad _ _ _ _ _ Hbad). cbn [fst].
      split; [discriminate|].
      intros Hvalid. now apply (bad_target_not_valid _ _ _ _ _ Hbad) in Hvalid.
  - split.
    + intros (Hp & Hf & Hd & Hs).
      split; [exact Hp|]. split; [now apply path_found_false|exact Hs].
    + intros (Hp & Hf & Hs). apply path_found_false_inv in Hf as (Hf & Hd).
      now repeat split.
  - unfold string_exists, names_file. rewrite orb_true_iff, existsb_exists.
    split.
    + intros [Hd|((p & c) & Hin & E)].
      * left. now apply is_directory_spec.
      * right. exists p. apply list_elem_of_In, elem_of_map_to_list in Hin.
        cbn in E. apply String.eqb_eq in E. split; [congruence|exact E].
    + intros [Hd|(p & Hp & E)].
      * left. now apply is_directory_spec.
      * right. destruct (files w !! p) as [c|] eqn:Hl; [|contradiction].
        exists (p, c). split.
        -- now apply list_elem_of_In, elem_of_map_to_list.
        -- cbn. now apply String.eqb_eq.
  - destruct (valid_or_bad w t extensions) as [Hvalid|(e & evs & Hbad)].
    + rewrite (validate_target_ok _ _ _ Hvalid).
      cbn [fst snd add_events dirs files ticks trace].
      split; [reflexivity|]. split; [reflexivity|]. split; [reflexivity|].
      eexists. split; [reflexivity|]. split; [reflexivity|cbn; lia].
    + rewrite (validate_target_bad _ _ _ _ _ Hbad).
      cbn [fst snd add_events dirs files ticks trace].
      split; [reflexivity|]. split; [reflexivity|]. split; [reflexivity|].
      exists evs. split; [reflexivity|].
      destruct Hbad; split; try reflexivity; cbn; lia.
Qed.
Lemma substring_split (n : string) (i : nat) :
  (i <= String.length n)%nat ->
  substring 0 i n +:+ substring i (String.length n - i) n = n.
Proof.
  revert i. induction n as [|c n IH]; intros [|i] Hi; cbn in *; try lia.
  - reflexivity.
  - now rewrite substring_all.
  - change (String c (substring 0 i n +:+ substring i (String.length n - i) n)
            = String c n).
    f_equal. apply IH. lia.
Qed.

(** X11. The suffix that the extension check looks at is the part of the
    final path component from its last dot on: for a dot-free, non-empty
    extension, a destination has suffix [.ext] exactly when its name is a
    non-empty stem followed by [.ext].  So [clip.webm] and [a.b.webm] pass
    the video check, while [.webm] alone, [clip.WEBM] and [clip.webm.part]
    do not. *)
Theorem suffix_is_last_extension (p : Path) (ext : string)
    (Hext : ext <> "")
    (Hdot : rfind "."%char ext = None) :
  suffix p = String "."%char ext
  <-> exists stem, stem <> "" /\ name p = stem +:+ String "."%char ext.
Proof.
  unfold suffix. split.
  - unfold suffix_of_name.
    destruct (rfind "."%char (name p)) as [i|]; [|discriminate].
    destruct (0 <? i)%nat eqn:H0; [|discriminate].
    destruct (i <? String.length (name p) - 1)%nat eqn:H1; [|discriminate].
    cbn [andb]. intros Hsub.
    apply Nat.ltb_lt in H0, H1.
    exists (substring 0 i (name p)). split.
    + destruct i as [|i]; [lia|].
      destruct (name p); cbn in *; [lia|discriminate].
    + rewrite <- Hsub. symmetry. apply substring_split. lia.
  - intros (stem & Hstem & ->). now apply suffix_of_name_tail.
Qed.

Lemma suffix_is_last_extension_witness :
  suffix (mkPath "/music" "a.b.webm") = ".webm" /\
  suffix (mkPath "/music" ".webm") <> ".webm" /\
  suffix (mkPath "/music" "clip.WEBM") <> ".webm" /\
  suffix (mkPath "/music" "clip.webm.part") <> ".webm".
Proof.
  assert (Hext : "webm"%string <> ""%string) by discriminate.
  assert (Hdot : rfind "."%char "webm" = None) by reflexivity.
  split.
  - apply (suffix_is_last_extension (mkPath "/music" "a.b.webm") "webm" Hext Hdot).
    exists "a.b"%string. split; [discriminate|reflexivity].
  - repeat split; vm_compute; discriminate.
Defined.


(** ** The destination has to match the mode *)

(** X12. On the command line the destination's extension has to match the
    mode: without [--audio_only] only [.webm] is accepted, with it only
    [.opus] and [.mp3].  When something is found at the parent of the
    destination and nothing (neither a file nor a directory) at the
    destination itself, another extension makes [main] raise [TypeError]
    after the two file-system queries, before the stream list is
    requested.  The destination is the path that [Path] makes of the
    argument: a trailing slash and [.] components are dropped, so that
    [music/] names the directory [music] and is refused as existing when
    that directory is there. *)
Theorem main_refuses_mismatched_extension
    (env : Env) (arguments : Namespace) (w : World)
    (Hversion : version arguments = false)
    (Hlink : catalog env (hyperlink arguments) <> NotAVideo) :
  let user_target := Path_of_string (target arguments) in
  let queries := [EDirExists (parent user_target); EExists user_target] in
  (string_exists w (parent user_target) = true ->
   path_found w user_target = false ->
   (audio_only arguments = false -> suffix user_target <> ".webm" ->
    main env arguments w
    = (Raised TypeError, add_events (ECall SaveAs user_target :: queries) w)) /\
   (audio_only arguments = true ->
    suffix user_target <> ".opus" -> suffix user_target <> ".mp3" ->
    main env arguments w
    = (Raised TypeError,
       add_events (ECall SaveAudioAs user_target :: queries) w))) /\
  (string_exists w (parent user_target) = true ->
   path_found w user_target = true ->
   main env arguments w
   = (Raised FileExistsError,
      add_events (ECall (if audio_only arguments then SaveAudioAs else SaveAs)
                        user_target :: queries) w)).
Proof.
  intros.
  assert (Hinit : YouTubeVideo_init env (hyperlink arguments) w
                  = (Returned (mkYouTubeVideo (hyperlink arguments)), w)).
  { unfold YouTubeVideo_init.
    destruct (catalog env (hyperlink arguments)); [contradiction|reflexivity..]. }
  split.
  - intros Hparent Hfree. split.
    + intros Hmode Hsuffix. unfold main, bind. rewrite Hversion, Hinit, Hmode.
      apply save_as_bad. apply unsupported_extension; try assumption.
      intros [E|[]]. now apply Hsuffix.
    + intros Hmode Hopus Hmp3. unfold main, bind. rewrite Hversion, Hinit, Hmode.
      apply save_audio_as_bad. apply unsupported_extension; try assumption.
      intros [E|[E|[]]]; [now apply Hopus|now apply Hmp3].
  - intros Hparent Hthere. unfold main, bind. rewrite Hversion, Hinit.
    destruct (audio_only arguments).
    + apply save_audio_as_bad. now apply destination_exists.
    + apply save_as_bad. now apply destination_exists.
Qed.

Lemma main_refuses_mismatched_extension_witness :
  fst (main (sample_env ticking_clock sample_muxer)
            (mkNamespace (video sample_video) "/music/song.mp3" false false)
            sample_world)
    = Raised TypeError /\
  fst (main (sample_env ticking_clock sample_muxer)
            (mkNamespace (video sample_video) "/music/" false false)
            sample_world)
    = Raised FileExistsError.
Proof.
  split.
  - pose proof (main_refuses_mismatched_extension
      (sample_env ticking_clock sample_muxer)
      (mkNamespace (video sample_video) "/music/song.mp3" false false)
      sample_world) as H.
    cbv zeta in H. destruct H as (Hfree & _).
    + reflexivity.
    + vm_compute. discriminate.
    + destruct Hfree as (Hcombined & _);
        [vm_compute; reflexivity|vm_compute; reflexivity|].
      rewrite Hcombined; [reflexivity|reflexivity|vm_compute; discriminate].
  - pose proof (main_refuses_mismatched_extension
      (sample_env ticking_clock sample_muxer)
      (mkNamespace (video sample_video) "/music/" false false)
      sample_world) as H.
    cbv zeta in H. destruct H as (_ & Hthere).
    + reflexivity.
    + vm_compute. discriminate.
    + rewrite Hthere; [reflexivity|vm_compute; reflexivity..].
Defined.

(** ** What is in the way *)

Lemma names_file_insert (f : gmap Path Content) (k : Path) (v : Content) d :
  names_file f d = true -> names_file (<[k := v]> f) d = true.
Proof.
  unfold names_file. rewrite !existsb_exists.
  intros ((p & c) & Hin & E). cbn in E.
  apply list_elem_of_In, elem_of_map_to_list in Hin.
  destruct (decide (p = k)) as [->|Hne].
  - exists (k, v). split; [|exact E].
    apply list_elem_of_In, elem_of_map_to_list. apply lookup_insert_eq.
  - exists (p, c). split; [|exact E].
    apply list_elem_of_In, elem_of_map_to_list.
    now rewrite lookup_insert_ne by congruence.
Qed.

(** X15. The parent check asks whether anything exists at the parent path,
    not whether it is a directory.  With a regular file there, a
    destination with the right extension passes validation; the video
    operation then fetches the stream list, downloads the best stream and
    fails only at the rename, with [NotADirectoryError]; the temporary file
    is removed and the files are those from before. *)
Theorem file_as_parent_fails_at_rename
    (env : Env) (self : YouTubeVideo) (t : Path) (w : World)
    (l : list Stream) (s : Stream)
    (Hfile : names_file (files w) (parent t) = true)
    (Hnodir : parent t ∉ dirs w)
    (Hnone : path_found w t = false)
    (Hsuffix : suffix t = ".webm")
    (Hcat : catalog env (video self) = Streams l)
    (Hbest : best_video_stream l = Returned s)
    (Hnet : net env s = Complete)
    (Hdir : script_dir env ∈ dirs w)
    (Hfree : files w !! tmp_video_path env (clock env (ticks w)) = None)
    (Hplain : str (tmp_video_path env (clock env (ticks w))) ∉ dirs w) :
  let tmp := tmp_video_path env (clock env (ticks w)) in
  fst (validate_target t [".webm"] w) = Returned tt /\
  save_video_as env self t w
    = (Raised NotADirectoryError,
       mkWorld (dirs w) (files w) (S (ticks w))
               (trace w ++ [ECall SaveVideoAs t; EDirExists (parent t); EExists t;
                            EStreams (video self);
                            EDownload s (script_dir env) (name tmp);
                            ERename tmp t; EUnlink tmp])).
Proof.
  intros tmp.
  assert (Hvalid : valid_target w t [".webm"]).
  { apply path_found_false_inv in Hnone as (Hf & Hd).
    split; [unfold string_exists; rewrite Hfile; apply orb_true_r|].
    split; [exact Hf|]. split; [exact Hd|]. rewrite Hsuffix. now left. }
  split; [now rewrite (validate_target_ok _ _ _ Hvalid)|].
  rewrite (save_video_as_valid _ _ _ _ Hvalid), Hcat, Hbest. cbv zeta.
  fold tmp. set (w1 := tick _).
  assert (E : (download env s (parent tmp) (name tmp) ;; rename env tmp t) w1
    = (Raised NotADirectoryError,
       mkWorld (dirs w) (<[tmp := Media s]> (files w)) (S (ticks w))
               (trace w1 ++ [EDownload s (parent tmp) (name tmp); ERename tmp t]))).
  { unfold bind. rewrite download_complete; rewrite ?joinpath_parent_name;
      try assumption.
    unfold rename, is_directory. cbn [log set_files dirs files ticks trace w1 tick
                                      add_events].
    rewrite lookup_insert_eq, (bool_decide_eq_false_2 _ Hnodir). cbn [negb].
    rewrite (names_file_insert _ _ _ _ Hfile). same_world. }
  rewrite finally_unlink_plain; rewrite E; [|exact Hplain].
  cbn [fst snd dirs files ticks trace w1 tick add_events].
  rewrite delete_insert_eq, (delete_id _ _ Hfree). same_world.
Qed.

Lemma file_as_parent_fails_at_rename_witness :
  fst (save_video_as (sample_env ticking_clock idle_process) sample_video
                     (mkPath "/music/old.webm" "clip.webm") sample_world)
  = Raised NotADirectoryError.
Proof.
  pose proof (file_as_parent_fails_at_rename
    (sample_env ticking_clock idle_process) sample_video
    (mkPath "/music/old.webm" "clip.webm") sample_world sample_streams
    v1080_60) as H.
  cbv zeta in H. destruct H as (_ & E).
  - vm_compute. reflexivity.
  - by_evaluation.
  - vm_compute. reflexivity.
  - vm_compute. reflexivity.
  - reflexivity.
  - vm_compute. reflexivity.
  - reflexivity.
  - by_evaluation.
  - vm_compute. reflexivity.
  - by_evaluation.
  - now rewrite E.
Defined.

(** X16. A directory at the temporary video path of a combined call makes
    the video stage refuse its destination with [FileExistsError]; the
    [finally] clause then tries to unlink the directory, and its
    [IsADirectoryError] replaces the exception of the stage.  Nothing was
    requested from the provider, no file has changed, and the second
    unlink was not reached. *)
Theorem directory_at_temporary_path
    (env : Env) (self : YouTubeVideo) (t : Path) (w : World)
    (Hvalid : valid_target w t [".webm"])
    (Hdir : script_dir env ∈ dirs w)
    (Hthere : str (tmp_video_path env (clock env (ticks w))) ∈ dirs w)
    (Hfree : files w !! tmp_video_path env (clock env (ticks w)) = None) :
  let tmp_video_file := tmp_video_path env (clock env (ticks w)) in
  let w1 := tick (add_events [ECall SaveAs t; EDirExists (parent t); EExists t] w) in
  fst (save_video_as env self tmp_video_file w1) = Raised FileExistsError /\
  save_as env self t w
    = (Raised IsADirectoryError,
       mkWorld (dirs w) (files w) (S (ticks w))
               (trace w ++ [ECall SaveAs t; EDirExists (parent t); EExists t;
                            ECall SaveVideoAs tmp_video_file;
                            EDirExists (script_dir env); EExists tmp_video_file;
                            EUnlink tmp_video_file])).
Proof.
  cbv zeta.
  set (tv := tmp_video_path env (clock env (ticks w))) in *.
  set (w1 := tick _).
  assert (Hbad : bad_target w1 tv [".webm"] FileExistsError
                            [EDirExists (parent tv); EExists tv]).
  { apply destination_exists.
    - now apply string_exists_dir.
    - unfold path_found. apply orb_true_iff. right.
      now apply is_directory_true. }
  split; [now rewrite (save_video_as_bad _ _ _ _ _ _ Hbad)|].
  rewrite (save_as_valid _ _ _ _ Hvalid). cbv zeta. fold tv w1.
  unfold try_finally, bind at 1.
  rewrite (save_video_as_bad _ _ _ _ _ _ Hbad).
  unfold bind. rewrite unlink_run.
  cbn [files dirs add_events tick w1].
  rewrite (has_file_false _ _ Hfree).
  replace (is_directory _ (str tv)) with true
    by (symmetry; now apply bool_decide_eq_true_2).
  cbn [negb andb]. unfold w1. same_world.
Qed.

Lemma directory_at_temporary_path_witness :
  fst (save_as (sample_env ticking_clock sample_muxer) sample_video new_song
               crowded_world) = Raised IsADirectoryError.
Proof.
  pose proof (directory_at_temporary_path
    (sample_env ticking_clock sample_muxer) sample_video new_song
    crowded_world) as H.
  cbv zeta in H. destruct H as (_ & E).
  - split; [vm_compute; reflexivity|split; [vm_compute; reflexivity|]].
    split; [by_evaluation|vm_compute; now left].
  - by_evaluation.
  - by_evaluation.
  - vm_compute. reflexivity.
  - now rewrite E.
Defined.
